(** * A shallow embedding of the trading bot's lifecycle core

    The development follows the Python sources:
    - [core/exchange_client.py]   (module [ExchangeClient])
    - [core/order_executor.py]    (module [OrderExecutor])
    - [core/conversion_manager.py], [core/withdrawal_manager.py]
    - [core/position_monitor.py]  (module [PositionMonitor])
    - [core/state_manager.py]     (modules [TradingConfig], [StateManager])
    - [gui/main_window.py]        (module [TradingBot])

    Python values are dynamically typed; they are embedded as the inductive
    type [PyVal].  Python floats are IEEE-754 binary64 numbers and are embedded
    as Rocq's primitive floats, which are the same numbers.  An exception is
    an element of [exn]; a computation that may raise returns a [result]. *)

From Stdlib Require Import ZArith String Ascii List Floats Lia Bool.
From stdpp Require Import base option list gmap strings.

Set Warnings "-register-all,-inexact-float".
#[local] Open Scope Z_scope.

(* ===================================================================== *)
(** ** Python values, exceptions and the built-ins the sources use       *)
(* ===================================================================== *)

(** Exceptions the modelled code raises or catches.  [LibraryError] stands
    for any exception coming out of an external library ([ccxt], [sqlite3],
    [smtplib]) other than [ccxt.InsufficientFunds]; the last three are the
    classes of [utils/exceptions.py]. *)
Inductive exn : Type :=
| TypeError
| ValueError
| KeyError
| AttributeError
| OverflowError
| LibraryError
| CcxtInsufficientFunds
| ExchangeError
| InsufficientFundsError
| OrderExecutionError.

(** [isinstance(e, ExchangeError)]: both other classes of
    [utils/exceptions.py] derive from [ExchangeError]. *)
Definition is_ExchangeError (e : exn) : bool :=
  match e with
  | ExchangeError | InsufficientFundsError | OrderExecutionError => true
  | _ => false
  end.

Inductive result (A : Type) : Type :=
| Ok (a : A)
| Raise (e : exn).
Arguments Ok {A} a.
Arguments Raise {A} e.

#[global] Instance result_ret : MRet result := fun _ a => Ok a.
#[global] Instance result_bind : MBind result := fun _ _ k r =>
  match r with
  | Ok a => k a
  | Raise e => Raise e
  end.

(** [try: body  except Exception as e: handler(e)] *)
Definition try_except {A} (body : result A) (handler : exn -> result A) : result A :=
  match body with
  | Ok a => Ok a
  | Raise e => handler e
  end.

Definition raises {A} (r : result A) : bool :=
  match r with
  | Ok _ => false
  | Raise _ => true
  end.

(** A naive [datetime.datetime]. *)
Record datetime : Type := mkDatetime {
  year : Z;
  month : Z;
  day : Z;
  hour : Z;
  minute : Z;
  second : Z;
  microsecond : Z
}.

Inductive PyVal : Type :=
| VNone
| VBool (b : bool)
| VInt (z : Z)
| VFloat (f : float)
| VStr (s : string)
| VDatetime (d : datetime)
| VList (l : list PyVal)
| VDict (d : gmap string PyVal).

Module Py.

(** Truth value of an object, as tested by [if x:] and [not x]. *)
Definition truthy (v : PyVal) : bool :=
  match v with
  | VNone => false
  | VBool b => b
  | VInt z => negb (z =? 0)
  | VFloat f => negb (PrimFloat.eqb f 0%float)
  | VStr s => negb (String.eqb s "")
  | VDatetime _ => true
  | VList l => match l with [] => false | _ :: _ => true end
  | VDict d => negb (bool_decide (d = ∅))
  end.

(** [float(n)] for an [int n]: the nearest binary64 number, or
    [OverflowError] when [n] is too large. *)
Definition float_of_Z (z : Z) : float :=
  SF2Prim (binary_normalize prec emax z 0 false).

Definition int_to_float (z : Z) : result float :=
  let f := float_of_Z z in
  if PrimFloat.is_infinity f then Raise OverflowError else Ok f.

Section Builtins.
(** [float(s)] for a [str s] follows Python's numeric-literal grammar
    with correct rounding; it is taken as a parameter: [None] when the
    string is no number ([ValueError]). *)
Variable float_of_str : string -> option float.

(** The built-in [float(x)]. *)
Definition float (v : PyVal) : result PrimFloat.float :=
  match v with
  | VFloat f => Ok f
  | VInt z => int_to_float z
  | VBool b => Ok (if b then 1%float else 0%float)
  | VStr s => match float_of_str s with
              | Some f => Ok f
              | None => Raise ValueError
              end
  | VNone | VDatetime _ | VList _ | VDict _ => Raise TypeError
  end.
End Builtins.

(** The operand [x] of [x - f] or [f - x] for a float [f]: ints and bools
    are converted, anything else is a [TypeError]. *)
Definition float_operand (v : PyVal) : result PrimFloat.float :=
  match v with
  | VFloat f => Ok f
  | VInt z => int_to_float z
  | VBool b => Ok (if b then 1%float else 0%float)
  | _ => Raise TypeError
  end.

(** [d.get(key, default)] *)
Definition get (v : PyVal) (key : string) (dflt : PyVal) : result PyVal :=
  match v with
  | VDict d => Ok (default dflt (d !! key))
  | _ => Raise AttributeError
  end.

(** [d[key]] for a string key *)
Definition getitem (v : PyVal) (key : string) : result PyVal :=
  match v with
  | VDict d => match d !! key with
               | Some x => Ok x
               | None => Raise KeyError
               end
  | _ => Raise TypeError
  end.

(** [x == s] for a string literal [s] *)
Definition eq_str (v : PyVal) (s : string) : bool :=
  match v with
  | VStr t => String.eqb t s
  | _ => false
  end.

(** [{**a, **b}]: the entries of [b] win; each operand must be a mapping. *)
Definition merge (a b : PyVal) : result (gmap string PyVal) :=
  match a, b with
  | VDict da, VDict db => Ok (db ∪ da)
  | _, _ => Raise TypeError
  end.

(** A value handed to a parameter the callee declares as [str]: the typed
    signature admits no other value, which the model answers with a
    [TypeError]. *)
Definition as_str (v : PyVal) : result string :=
  match v with
  | VStr s => Ok s
  | _ => Raise TypeError
  end.

(** Whether [json.dumps] accepts the value: every object in it must be
    [None], a bool, a number, a string, a list or a dict. *)
Fixpoint json_ok (v : PyVal) : bool :=
  match v with
  | VDatetime _ => false
  | VList l => forallb json_ok l
  | VDict d => map_fold (fun _ x acc => json_ok x && acc) true d
  | VNone | VBool _ | VInt _ | VFloat _ | VStr _ => true
  end.

(** [json.dumps(v)].  A JSON text is kept as the document it encodes:
    [json.loads(json.dumps(v))] is [v] for every value [json.dumps]
    accepts (floats are written with [repr], which reads back exactly,
    and [NaN] and the infinities are written and read by name). *)
Definition json_dumps (v : PyVal) : result PyVal :=
  if json_ok v then Ok v else Raise TypeError.

(** [s.split('/')[0]] *)
Fixpoint before_slash (s : string) : string :=
  match s with
  | EmptyString => EmptyString
  | String c s' => if Ascii.eqb c "/" then EmptyString else String c (before_slash s')
  end.

(** ['/' in s] *)
Fixpoint has_slash (s : string) : bool :=
  match s with
  | EmptyString => false
  | String c s' => Ascii.eqb c "/" || has_slash s'
  end.

End Py.

(* ===================================================================== *)
(** ** [datetime.isoformat] and [datetime.fromisoformat]                 *)
(* ===================================================================== *)

Module DateTime.

Definition digit_char (d : Z) : ascii := ascii_of_nat (48 + Z.to_nat d).

Definition digit_val (c : ascii) : option Z :=
  let n := Z.of_nat (nat_of_ascii c) in
  if (48 <=? n) && (n <=? 57) then Some (n - 48) else None.

(** [width] decimal digits of [n], zero padded, in front of [suffix]. *)
Fixpoint digits (width : nat) (n : Z) (suffix : string) : string :=
  match width with
  | O => suffix
  | S w => digits w (n / 10) (String (digit_char (n mod 10)) suffix)
  end.

(** Read exactly [width] decimal digits. *)
Fixpoint read_digits (width : nat) (s : string) (acc : Z) : option (Z * string) :=
  match width with
  | O => Some (acc, s)
  | S w =>
      match s with
      | String c s' =>
          match digit_val c with
          | Some d => read_digits w s' (10 * acc + d)
          | None => None
          end
      | EmptyString => None
      end
  end.

Definition expect (c : ascii) (s : string) : option string :=
  match s with
  | String c' s' => if Ascii.eqb c c' then Some s' else None
  | EmptyString => None
  end.

Definition is_leap (y : Z) : bool :=
  (y mod 4 =? 0) && (negb (y mod 100 =? 0) || (y mod 400 =? 0)).

Definition days_in_month (y m : Z) : Z :=
  if m =? 2 then (if is_leap y then 29 else 28)
  else if (m =? 4) || (m =? 6) || (m =? 9) || (m =? 11) then 30
  else 31.

(** The values a [datetime] object can hold. *)
Definition valid (d : datetime) : bool :=
  (1 <=? year d) && (year d <=? 9999) &&
  (1 <=? month d) && (month d <=? 12) &&
  (1 <=? day d) && (day d <=? days_in_month (year d) (month d)) &&
  (0 <=? hour d) && (hour d <? 24) &&
  (0 <=? minute d) && (minute d <? 60) &&
  (0 <=? second d) && (second d <? 60) &&
  (0 <=? microsecond d) && (microsecond d <? 1000000).

(** [d.isoformat()]: [YYYY-MM-DDTHH:MM:SS], followed by [.ffffff] when
    the microsecond is not zero. *)
Definition isoformat (d : datetime) : string :=
  digits 4 (year d) (String "-" (
  digits 2 (month d) (String "-" (
  digits 2 (day d) (String "T" (
  digits 2 (hour d) (String ":" (
  digits 2 (minute d) (String ":" (
  digits 2 (second d)
    (if microsecond d =? 0 then EmptyString
     else String "." (digits 6 (microsecond d) EmptyString)))))))))))).

Definition checked (d : datetime) : result datetime :=
  if valid d then Ok d else Raise ValueError.

(** The fraction of a second: three or six digits. *)
Definition read_fraction (s : string) : option Z :=
  match read_digits 3 s 0 with
  | Some (ms, EmptyString) => Some (ms * 1000)
  | Some (ms, rest) =>
      match read_digits 3 rest ms with
      | Some (us, EmptyString) => Some us
      | _ => None
      end
  | None => None
  end.

(** [HH[:MM[:SS[.fff[fff]]]]] *)
Definition read_time (s : string) : option (Z * Z * Z * Z) :=
  '(h, s1) ← read_digits 2 s 0;
  match s1 with
  | EmptyString => Some (h, 0, 0, 0)
  | _ =>
      s2 ← expect ":" s1;
      '(mi, s3) ← read_digits 2 s2 0;
      match s3 with
      | EmptyString => Some (h, mi, 0, 0)
      | _ =>
          s4 ← expect ":" s3;
          '(sec, s5) ← read_digits 2 s4 0;
          match s5 with
          | EmptyString => Some (h, mi, sec, 0)
          | _ =>
              s6 ← expect "." s5;
              us ← read_fraction s6;
              Some (h, mi, sec, us)
          end
      end
  end.

(** [YYYY-MM-DD[*HH[:MM[:SS[.fff[fff]]]]]], where [*] is any one
    character.  A UTC offset, which would give an aware datetime, is
    outside the naive [datetime] of this model. *)
Definition read_datetime (s : string) : option datetime :=
  '(y, s1) ← read_digits 4 s 0;
  s2 ← expect "-" s1;
  '(mo, s3) ← read_digits 2 s2 0;
  s4 ← expect "-" s3;
  '(d, s5) ← read_digits 2 s4 0;
  match s5 with
  | EmptyString => Some (mkDatetime y mo d 0 0 0 0)
  | String _ s6 =>
      '(h, mi, sec, us) ← read_time s6;
      Some (mkDatetime y mo d h mi sec us)
  end.

(** [datetime.fromisoformat(v)]: a [TypeError] for a non-string, a
    [ValueError] for a string that is not in the format or names no
    date. *)
Definition fromisoformat (v : PyVal) : result datetime :=
  match v with
  | VStr s =>
      match read_datetime s with
      | Some d => checked d
      | None => Raise ValueError
      end
  | _ => Raise TypeError
  end.

End DateTime.

(* ===================================================================== *)
(** ** The exchange library and [core/exchange_client.py]                *)
(* ===================================================================== *)

(** The [ccxt] exchange object is external: one value of [Ccxt.t] gives the
    answer of each of its methods at the moment of a call; a caller that
    talks to the exchange at several moments takes several of them. *)
Module Ccxt.
Record t : Type := mk {
  fetch_balance : result PyVal;
  fetch_positions : result (list PyVal);
  fetch_ticker : PyVal -> result PyVal;
  create_order : string -> string -> float -> PyVal -> result PyVal;
  sapi_post_convert_getquote : PyVal -> result PyVal;
  sapi_post_convert_acceptquote : PyVal -> result PyVal;
  withdraw : string -> float -> PyVal -> PyVal -> result PyVal;
  set_leverage : PyVal -> string -> result unit;
  set_margin_mode : PyVal -> string -> result unit
}.
End Ccxt.

Module ExchangeClient.
Section Builtins.
Variable float_of_str : string -> option float.
#[local] Abbreviation py_float := (Py.float float_of_str).

Definition get_account_balance (ex : Ccxt.t) : result PyVal :=
  try_except (Ccxt.fetch_balance ex) (fun _ => Raise ExchangeError).

(** [[pos for pos in positions if float(pos.get('contracts', 0)) > 0]] *)
Fixpoint nonzero_size (positions : list PyVal) : result (list PyVal) :=
  match positions with
  | [] => Ok []
  | pos :: rest =>
      c ← Py.get pos "contracts" (VInt 0);
      f ← py_float c;
      rest' ← nonzero_size rest;
      Ok (if PrimFloat.ltb 0%float f then pos :: rest' else rest')
  end.

Definition get_open_positions (ex : Ccxt.t) : result (list PyVal) :=
  try_except
    (positions ← Ccxt.fetch_positions ex;
     nonzero_size positions)
    (fun _ => Raise ExchangeError).

(** [for pos in positions: if pos['symbol'] == symbol: return pos] *)
Fixpoint first_with_symbol (symbol : string) (positions : list PyVal)
  : result PyVal :=
  match positions with
  | [] => Ok VNone
  | pos :: rest =>
      s ← Py.getitem pos "symbol";
      if Py.eq_str s symbol then Ok pos else first_with_symbol symbol rest
  end.

(** Never raises: every exception is logged and answered with [None]. *)
Definition get_position_by_symbol (ex : Ccxt.t) (symbol : string) : PyVal :=
  match
    try_except
      (positions ← get_open_positions ex;
       first_with_symbol symbol positions)
      (fun _ => Ok VNone)
  with
  | Ok v => v
  | Raise _ => VNone
  end.

(** The body of the [try] of [calculate_position_pnl]. *)
Definition position_pnl (ex : Ccxt.t) (position : PyVal) : result float :=
  symbol ← Py.getitem position "symbol";
  ticker ← Ccxt.fetch_ticker ex symbol;
  current_price ← Py.getitem ticker "last";
  entry_price ← (Py.getitem position "entryPrice" ≫= py_float);
  contracts ← (Py.getitem position "contracts" ≫= py_float);
  side ← Py.getitem position "side";
  current ← Py.float_operand current_price;
  if Py.eq_str side "long"
  then Ok (PrimFloat.mul (PrimFloat.sub current entry_price) contracts)
  else Ok (PrimFloat.mul (PrimFloat.sub entry_price current) contracts).

(** Never raises: a failure is logged and answered with [0.0]. *)
Definition calculate_position_pnl (ex : Ccxt.t) (position : PyVal) : float :=
  match position_pnl ex position with
  | Ok pnl => pnl
  | Raise _ => 0%float
  end.

Definition create_market_order (ex : Ccxt.t) (symbol side : string)
    (amount : float) (params : PyVal) : result PyVal :=
  match
    (order ← Ccxt.create_order ex symbol side amount params;
     _ ← Py.getitem order "id";
     Ok order)
  with
  | Ok order => Ok order
  | Raise CcxtInsufficientFunds => Raise InsufficientFundsError
  | Raise _ => Raise ExchangeError
  end.

Definition close_position (ex : Ccxt.t) (symbol : string) (position_side : PyVal)
  : result PyVal :=
  try_except
    (let position := get_position_by_symbol ex symbol in
     if negb (Py.truthy position) then Ok VNone
     else
       contracts ← (Py.getitem position "contracts" ≫= py_float);
       let amount := PrimFloat.abs contracts in
       let side := if Py.eq_str position_side "long" then "sell" else "buy" in
       order ← create_market_order ex symbol side amount
                 (VDict {["reduceOnly" := VBool true]});
       _ ← Py.getitem order "id";
       Ok order)
    (fun _ => Raise ExchangeError).

(** The [raise] of the handler is commented out in the source: a failed
    conversion is logged and the function falls off its end, which
    returns [None]. *)
Definition convert_crypto (ex : Ccxt.t) (from_asset to_asset : string)
    (amount : float) : result PyVal :=
  try_except
    (quote ← Ccxt.sapi_post_convert_getquote ex
               (VDict (<["fromAsset" := VStr from_asset]>
                      (<["toAsset" := VStr to_asset]>
                      {["fromAmount" := VFloat amount]})));
     quote_id ← Py.getitem quote "quoteId";
     Ccxt.sapi_post_convert_acceptquote ex (VDict {["quoteId" := quote_id]}))
    (fun _ => Ok VNone).

Definition withdraw_crypto (ex : Ccxt.t) (asset : string) (amount : float)
    (address network : PyVal) : result PyVal :=
  try_except
    (withdrawal ← Ccxt.withdraw ex asset amount address
                    (VDict {["network" := network]});
     _ ← Py.getitem withdrawal "id";
     Ok withdrawal)
    (fun _ => Raise ExchangeError).

Definition set_leverage (ex : Ccxt.t) (symbol : string) (leverage : PyVal)
  : result unit :=
  try_except (Ccxt.set_leverage ex leverage symbol) (fun _ => Raise ExchangeError).

Definition set_margin_mode (ex : Ccxt.t) (symbol : string) (margin_mode : PyVal)
  : result unit :=
  try_except (Ccxt.set_margin_mode ex margin_mode symbol)
    (fun _ => Raise ExchangeError).

End Builtins.
End ExchangeClient.

(* ===================================================================== *)
(** ** [core/order_executor.py]                                          *)
(* ===================================================================== *)

Module OrderExecutor.
Section Builtins.
Variable float_of_str : string -> option float.

Definition open_position (ex : Ccxt.t) (symbol : string) (side : PyVal)
    (quantity : float) (leverage margin_mode : PyVal) : result PyVal :=
  try_except
    (_ ← ExchangeClient.set_leverage ex symbol leverage;
     _ ← ExchangeClient.set_margin_mode ex symbol margin_mode;
     let order_side := if Py.eq_str side "long" then "buy" else "sell" in
     ExchangeClient.create_market_order ex symbol order_side quantity (VDict ∅))
    (fun _ => Raise OrderExecutionError).

Definition close_position (ex : Ccxt.t) (symbol : string) (position_side : PyVal)
  : result PyVal :=
  try_except
    (ExchangeClient.close_position float_of_str ex symbol position_side)
    (fun _ => Raise OrderExecutionError).

Definition execute_profit_close (ex : Ccxt.t) (position : PyVal) (profit : float)
  : result PyVal :=
  try_except
    (symbol ← (Py.getitem position "symbol" ≫= Py.as_str);
     side ← Py.getitem position "side";
     close_position ex symbol side)
    (fun _ => Raise OrderExecutionError).

End Builtins.
End OrderExecutor.

(* ===================================================================== *)
(** ** [config/settings.py]                                              *)
(* ===================================================================== *)

(** The constants the managers import.  [settings.py] defines the two
    conversion constants and the monitor interval; the four withdrawal
    constants are commented out there, so they are fields a caller
    supplies. *)
Module Settings.
Record t : Type := mk {
  AUTO_CONVERT_ENABLED : bool;
  CONVERT_TO_CRYPTO : string;
  AUTO_WITHDRAW_ENABLED : bool;
  WITHDRAWAL_ADDRESS : PyVal;
  WITHDRAWAL_NETWORK : PyVal;
  MIN_WITHDRAWAL_AMOUNT : float
}.

(** The values [settings.py] gives, around the withdrawal constants. *)
Definition with_withdrawal (enabled : bool) (address network : PyVal)
    (min_amount : float) : t :=
  mk true "USDT" enabled address network min_amount.
End Settings.

(* ===================================================================== *)
(** ** [core/conversion_manager.py]                                      *)
(* ===================================================================== *)

Module ConversionManager.
Section Builtins.
Variable float_of_str : string -> option float.
#[local] Abbreviation py_float := (Py.float float_of_str).

(** [float(balance.get('free', {}).get(asset, 0))] *)
Definition free_balance (balance : PyVal) (asset : string) : result float :=
  free ← Py.get balance "free" (VDict ∅);
  amount ← Py.get free asset (VInt 0);
  py_float amount.

Definition execute_conversion (cfg : Settings.t) (ex : Ccxt.t)
    (from_asset : string) (amount : float) (to_asset : option string) : PyVal :=
  if negb (Settings.AUTO_CONVERT_ENABLED cfg) then VNone
  else
    let to_asset := default (Settings.CONVERT_TO_CRYPTO cfg) to_asset in
    match
      (balance ← ExchangeClient.get_account_balance ex;
       available ← free_balance balance from_asset;
       if PrimFloat.ltb available amount then Ok VNone
       else ExchangeClient.convert_crypto ex from_asset to_asset amount)
    with
    | Ok r => r
    | Raise _ => VNone
    end.

(** [symbol.split('/')[0] if '/' in symbol else 'BTC'] *)
Definition base_asset_of (symbol : PyVal) : result string :=
  match symbol with
  | VStr s => Ok (if Py.has_slash s then Py.before_slash s else "BTC")
  | VList l =>
      if existsb (fun x => Py.eq_str x "/") l then Raise AttributeError
      else Ok "BTC"
  | VDict d =>
      if bool_decide (is_Some (d !! "/")) then Raise AttributeError
      else Ok "BTC"
  | VNone | VBool _ | VInt _ | VFloat _ | VDatetime _ => Raise TypeError
  end.

(** [ex] answers the balance request made after the settlement wait,
    [ex'] the requests of [execute_conversion] that follow. *)
Definition auto_convert_after_close (cfg : Settings.t) (ex ex' : Ccxt.t)
    (closed_position : PyVal) : PyVal :=
  if negb (Settings.AUTO_CONVERT_ENABLED cfg) then VNone
  else
    match
      (symbol ← Py.get closed_position "symbol" (VStr "");
       base_asset ← base_asset_of symbol;
       balance ← ExchangeClient.get_account_balance ex;
       available_amount ← free_balance balance base_asset;
       if PrimFloat.leb available_amount 0%float then Ok VNone
       else Ok (execute_conversion cfg ex' base_asset available_amount None))
    with
    | Ok r => r
    | Raise _ => VNone
    end.

End Builtins.
End ConversionManager.

(* ===================================================================== *)
(** ** [core/withdrawal_manager.py]                                      *)
(* ===================================================================== *)

Module WithdrawalManager.
Section Builtins.
Variable float_of_str : string -> option float.

Definition execute_withdrawal (cfg : Settings.t) (ex : Ccxt.t)
    (asset : string) (amount : option float) : PyVal :=
  if negb (Settings.AUTO_WITHDRAW_ENABLED cfg) then VNone
  else if negb (Py.truthy (Settings.WITHDRAWAL_ADDRESS cfg)) then VNone
  else
    match
      (balance ← ExchangeClient.get_account_balance ex;
       available ← ConversionManager.free_balance float_of_str balance asset;
       let amount := default available amount in
       if PrimFloat.ltb amount (Settings.MIN_WITHDRAWAL_AMOUNT cfg) then Ok VNone
       else if PrimFloat.ltb available amount then Ok VNone
       else ExchangeClient.withdraw_crypto ex asset amount
              (Settings.WITHDRAWAL_ADDRESS cfg) (Settings.WITHDRAWAL_NETWORK cfg))
    with
    | Ok r => r
    | Raise _ => VNone
    end.

Definition auto_withdraw_after_conversion (cfg : Settings.t) (ex : Ccxt.t)
    (asset : string) : PyVal :=
  if negb (Settings.AUTO_WITHDRAW_ENABLED cfg) then VNone
  else execute_withdrawal cfg ex asset None.

Definition check_funds_available (ex : Ccxt.t) (asset : string)
    (required_amount : float) : bool :=
  match
    (balance ← ExchangeClient.get_account_balance ex;
     available ← ConversionManager.free_balance float_of_str balance asset;
     Ok (PrimFloat.leb required_amount available))
  with
  | Ok b => b
  | Raise _ => false
  end.

End Builtins.
End WithdrawalManager.

(* ===================================================================== *)
(** ** [core/position_monitor.py]                                        *)
(* ===================================================================== *)

Module PositionMonitor.

(** The fields of a [PositionMonitor].  The callback is a closure of the
    caller: the model keeps whether one is set, records each of its
    invocations as an [event], and takes its outcome from the
    environment.  The thread handle is not a value of the model. *)
Record t : Type := mk {
  monitoring : bool;
  profit_threshold : float;
  monitored_symbol : option string;
  on_profit_reached : bool
}.

(** [__init__] *)
Definition init : t := mk false 0%float None false.

Definition set_monitoring (b : bool) (m : t) : t :=
  mk b (profit_threshold m) (monitored_symbol m) (on_profit_reached m).

(** A call on the monitor from outside the worker: [start_monitoring]
    with its symbol and threshold (the callback it passes is the one
    callback of the program), or a write that clears the flag
    ([stop_monitoring], or the flag write of another worker). *)
Inductive call : Type :=
| Start (symbol : string) (threshold : float)
| Stop.

(** What a run of the worker does that can be seen from outside: the
    sleeps, and the invocations of the callback with their arguments and
    the fields of the monitor at the call. *)
Inductive event : Type :=
| Sleep
| Signal (position : PyVal) (pnl : float) (at_call : t).

(** What the world contributes to one turn of the loop:
    - [others]: the calls other threads made on the monitor since the
      worker last tested the flag, in order (the worker reads the flag
      only in the [while] test, so they take effect there);
    - [exchange]: the answers of the exchange during the turn;
    - [callback_calls]: the calls the callback, if invoked, makes on the
      monitor before it returns or raises; the callback of the program,
      [_on_profit_reached], reaches [start_monitoring] through
      [_run_trading_cycle] and [stop_monitoring] through [stop];
    - [callback_raises]: whether the callback, if invoked, raises. *)
Record poll : Type := mkPoll {
  others : list call;
  exchange : Ccxt.t;
  callback_calls : list call;
  callback_raises : bool
}.

Definition is_start (c : call) : bool :=
  match c with
  | Start _ _ => true
  | Stop => false
  end.

(** The last thing other threads did before the test was to clear the
    flag. *)
Definition stop_requested (p : poll) : bool :=
  match last (others p) with
  | Some Stop => true
  | _ => false
  end.

(** Other threads cleared the flag at some point before the test. *)
Definition disturbed (p : poll) : bool := negb (forallb is_start (others p)).

(** The calls of [start_monitoring] a turn holds. *)
Definition starts (p : poll) : nat :=
  length (List.filter is_start (others p))
  + length (List.filter is_start (callback_calls p)).

Section Builtins.
Variable float_of_str : string -> option float.

(** [start_monitoring]: returns the monitor and whether a worker was
    launched. *)
Definition start_monitoring (symbol : string) (threshold : float) (m : t)
  : t * bool :=
  if monitoring m then (m, false)
  else (mk true threshold (Some symbol) true, true).

(** The flag write of [stop_monitoring]; the bounded [join] that follows
    it has no effect on the fields. *)
Definition stop_monitoring (m : t) : t := set_monitoring false m.

Definition perform (c : call) (m : t) : t :=
  match c with
  | Start symbol threshold => fst (start_monitoring symbol threshold m)
  | Stop => stop_monitoring m
  end.

Definition perform_all (cs : list call) (m : t) : t :=
  fold_left (fun m c => perform c m) cs m.

(** [get_position_by_symbol(self.monitored_symbol)].  Before
    [start_monitoring] the symbol is [None], which the ['symbol'] of no
    position equals. *)
Definition monitored_position (ex : Ccxt.t) (m : t) : PyVal :=
  match monitored_symbol m with
  | Some symbol => ExchangeClient.get_position_by_symbol float_of_str ex symbol
  | None => VNone
  end.

(** [_monitor_loop], run against the turns the world offers; the list is
    the observed part of the run, and the events are those of that
    part.  The callback runs in the worker, between the flag write and
    the [break]; when it raises, the handler of the loop logs, sleeps and
    goes back to the [while] test, which reads the flag as the callback
    and the other threads have left it. *)
Fixpoint _monitor_loop (polls : list poll) (m : t) : t * list event :=
  match polls with
  | [] => (m, [])
  | p :: rest =>
      let m := perform_all (others p) m in
      if negb (monitoring m) then (m, [])
      else
        let position := monitored_position (exchange p) m in
        if negb (Py.truthy position) then
          let '(m', evs) := _monitor_loop rest m in (m', Sleep :: evs)
        else
          let current_pnl :=
            ExchangeClient.calculate_position_pnl float_of_str (exchange p) position in
          if PrimFloat.leb (profit_threshold m) current_pnl then
            let m := set_monitoring false m in
            if on_profit_reached m then
              let call := Signal position current_pnl m in
              let m := perform_all (callback_calls p) m in
              if callback_raises p then
                let '(m', evs) := _monitor_loop rest m in
                (m', call :: Sleep :: evs)
              else (m, [call])
            else (m, [])
          else
            let '(m', evs) := _monitor_loop rest m in (m', Sleep :: evs)
  end.

(** What holds of an invocation of the callback in a run over the turns
    [polls]: the flag was cleared before the call, the PnL passed has
    reached the threshold in force, and it is the PnL computed on some
    turn for the position of the monitored symbol. *)
Definition justified (polls : list poll) (e : event) : Prop :=
  match e with
  | Sleep => True
  | Signal position pnl at_call =>
      monitoring at_call = false /\
      PrimFloat.leb (profit_threshold at_call) pnl = true /\
      exists p, In p polls /\
        position = monitored_position (exchange p) at_call /\
        pnl = ExchangeClient.calculate_position_pnl float_of_str
                (exchange p) position
  end.

Definition get_current_pnl (ex : Ccxt.t) (symbol : string) : float :=
  let position := ExchangeClient.get_position_by_symbol float_of_str ex symbol in
  if Py.truthy position
  then ExchangeClient.calculate_position_pnl float_of_str ex position
  else 0%float.

(** [float(balance.get('total', {}).get('USDT', 0))] *)
Definition total_equity (balance : PyVal) : result float :=
  total ← Py.get balance "total" (VDict ∅);
  usdt ← Py.get total "USDT" (VInt 0);
  Py.float float_of_str usdt.

Definition check_liquidation (ex : Ccxt.t) : bool :=
  match
    (balance ← ExchangeClient.get_account_balance ex;
     positions ← ExchangeClient.get_open_positions float_of_str ex;
     equity ← total_equity balance;
     Ok (PrimFloat.ltb equity 1%float && (length positions =? 0)%nat))
  with
  | Ok b => b
  | Raise _ => false
  end.

End Builtins.

Definition is_signal (e : event) : bool :=
  match e with
  | Signal _ _ _ => true
  | Sleep => false
  end.

(** The invocations of the callback among the events of a run. *)
Definition signals (evs : list event) : list event := List.filter is_signal evs.

End PositionMonitor.

(* ===================================================================== *)
(** ** [core/state_manager.py]: [BotState] and [TradingConfig]           *)
(* ===================================================================== *)

Module BotState.

Inductive t : Type :=
| IDLE
| MONITORING
| CLOSING_POSITION
| CONVERTING
| WITHDRAWING
| RESETTING
| ERROR.

#[global] Instance eq_dec : EqDecision t.
Proof. solve_decision. Defined.

(** [state.value] *)
Definition value (s : t) : string :=
  match s with
  | IDLE => "idle"
  | MONITORING => "monitoring"
  | CLOSING_POSITION => "closing_position"
  | CONVERTING => "converting"
  | WITHDRAWING => "withdrawing"
  | RESETTING => "resetting"
  | ERROR => "error"
  end.

Definition members : list t :=
  [IDLE; MONITORING; CLOSING_POSITION; CONVERTING; WITHDRAWING; RESETTING; ERROR].

(** [BotState(v)]: the member whose value is [v], a [ValueError] when
    there is none. *)
Definition of_value (v : PyVal) : result t :=
  match List.find (fun s => Py.eq_str v (value s)) members with
  | Some s => Ok s
  | None => Raise ValueError
  end.

End BotState.

Module TradingConfig.

(** The attributes of a [TradingConfig]; Python does not enforce the
    annotations, so each holds an arbitrary object. *)
Record t : Type := mk {
  symbol : PyVal;
  side : PyVal;
  quantity : PyVal;
  leverage : PyVal;
  margin_mode : PyVal;
  profit_threshold : PyVal;
  entry_price : PyVal;
  position_opened_at : PyVal
}.

(** [__init__], given its keyword arguments *)
Definition init (kwargs : gmap string PyVal) : t :=
  {| symbol := default (VStr "BTC/USDT") (kwargs !! "symbol");
     side := default (VStr "long") (kwargs !! "side");
     quantity := default (VFloat 0.01) (kwargs !! "quantity");
     leverage := default (VInt 10) (kwargs !! "leverage");
     margin_mode := default (VStr "isolated") (kwargs !! "margin_mode");
     profit_threshold := default (VFloat 50) (kwargs !! "profit_threshold");
     entry_price := default VNone (kwargs !! "entry_price");
     position_opened_at := default VNone (kwargs !! "position_opened_at") |}.

(** [x.isoformat()]: only a datetime has the method here. *)
Definition isoformat_of (v : PyVal) : result PyVal :=
  match v with
  | VDatetime d => Ok (VStr (DateTime.isoformat d))
  | _ => Raise AttributeError
  end.

Definition to_dict (c : t) : result (gmap string PyVal) :=
  opened ← (if Py.truthy (position_opened_at c)
            then isoformat_of (position_opened_at c)
            else Ok VNone);
  Ok (<["symbol" := symbol c]>
     (<["side" := side c]>
     (<["quantity" := quantity c]>
     (<["leverage" := leverage c]>
     (<["margin_mode" := margin_mode c]>
     (<["profit_threshold" := profit_threshold c]>
     (<["entry_price" := entry_price c]>
     {["position_opened_at" := opened]}))))))).

Definition from_dict (data : PyVal) : result t :=
  opened ← Py.get data "position_opened_at" VNone;
  match data with
  | VDict d =>
      if Py.truthy opened then
        dt ← DateTime.fromisoformat opened;
        Ok (init (<["position_opened_at" := VDatetime dt]> d))
      else Ok (init d)
  | _ => Raise AttributeError
  end.

Definition reset (c : t) : t :=
  {| symbol := symbol c;
     side := side c;
     quantity := quantity c;
     leverage := leverage c;
     margin_mode := margin_mode c;
     profit_threshold := profit_threshold c;
     entry_price := VNone;
     position_opened_at := VNone |}.

Definition set_opened (price opened_at : PyVal) (c : t) : t :=
  {| symbol := symbol c;
     side := side c;
     quantity := quantity c;
     leverage := leverage c;
     margin_mode := margin_mode c;
     profit_threshold := profit_threshold c;
     entry_price := price;
     position_opened_at := opened_at |}.

(** A configuration whose static fields and entry price hold values JSON
    can carry (as the annotated [str], [int], [float] and [None] are) and
    whose opening time is [None] or a [datetime]. *)
Definition well_formed (c : t) : bool :=
  Py.json_ok (symbol c) && Py.json_ok (side c) && Py.json_ok (quantity c) &&
  Py.json_ok (leverage c) && Py.json_ok (margin_mode c) &&
  Py.json_ok (profit_threshold c) && Py.json_ok (entry_price c) &&
  match position_opened_at c with
  | VNone => true
  | VDatetime d => DateTime.valid d
  | _ => false
  end.

End TradingConfig.

(* ===================================================================== *)
(** ** [database/db_manager.py], as far as the state manager uses it     *)
(* ===================================================================== *)

Module DatabaseManager.

(** The row of table [bot_state].  The two JSON columns hold the document
    their text encodes (see [Py.json_dumps]); [None] is SQL [NULL]. *)
Record bot_state_row : Type := mkRow {
  current_state : option string;
  trading_config : option PyVal;
  active_position : option PyVal;
  last_updated : option string
}.

(** The database file: [available] is whether a connection can be opened
    and its statements run; when it is not, every operation meets an
    exception of [sqlite3].  Tables [trades] and [error_logs] keep their
    rows newest first. *)
Record t : Type := mk {
  available : bool;
  bot_state : option bot_state_row;
  trades : list (gmap string PyVal);
  error_logs : list (gmap string PyVal)
}.

Definition empty : t := mk true None [] [].

(** Inserts the row, or overwrites the one present: the table keeps the
    last snapshot.  An exception is logged and raised again. *)
Definition save_bot_state (row : bot_state_row) (db : t) : result unit * t :=
  if available db
  then (Ok (), mk true (Some row) (trades db) (error_logs db))
  else (Raise LibraryError, db).

(** An exception is logged and answered with [None]. *)
Definition get_bot_state (db : t) : option bot_state_row :=
  if available db then bot_state db else None.

Definition save_trade (trade_data : gmap string PyVal) (db : t) : result unit * t :=
  if available db
  then (Ok (), mk true (bot_state db) (trade_data :: trades db) (error_logs db))
  else (Raise LibraryError, db).

Definition is_open_trade_of (symbol : PyVal) (row : gmap string PyVal) : bool :=
  match symbol, row !! "symbol", row !! "status" with
  | VStr s, Some rs, Some st => Py.eq_str rs s && Py.eq_str st "open"
  | _, _, _ => false
  end.

(** [UPDATE trades SET ... WHERE symbol = ? AND status = 'open'
    ORDER BY opened_at DESC LIMIT 1]: the newest open trade of the
    symbol. *)
Fixpoint close_newest (symbol exit_price profit closed_at : PyVal)
    (rows : list (gmap string PyVal)) : list (gmap string PyVal) :=
  match rows with
  | [] => []
  | row :: rest =>
      if is_open_trade_of symbol row
      then <["status" := VStr "closed"]>
             (<["exit_price" := exit_price]>
             (<["profit" := profit]>
             (<["closed_at" := closed_at]> row))) :: rest
      else row :: close_newest symbol exit_price profit closed_at rest
  end.

Definition update_trade_status (symbol exit_price profit closed_at : PyVal)
    (db : t) : result unit * t :=
  if available db
  then (Ok (), mk true (bot_state db)
                 (close_newest symbol exit_price profit closed_at (trades db))
                 (error_logs db))
  else (Raise LibraryError, db).

Definition save_error_log (error_data : gmap string PyVal) (db : t)
  : result unit * t :=
  if available db
  then (Ok (), mk true (bot_state db) (trades db) (error_data :: error_logs db))
  else (Raise LibraryError, db).

End DatabaseManager.

(* ===================================================================== *)
(** ** [core/state_manager.py]: [StateManager]                           *)
(* ===================================================================== *)

Module StateManager.

(** Records of the module's logger that the properties below read. *)
Inductive log_record : Type :=
| StateChanged (old new : BotState.t)
| Info (msg : string)
| Error (msg : string).

(** The attributes of a [StateManager], with what it reads and writes
    outside itself: the database, the wall clock ([datetime.now()] reads
    [clock ticks] and advances [ticks]) and the log, newest record
    first. *)
Record t : Type := mk {
  db : DatabaseManager.t;
  current_state : BotState.t;
  trading_config : option TradingConfig.t;
  active_position : PyVal;
  last_closed_position : PyVal;
  trade_history : list PyVal;
  clock : nat -> datetime;
  ticks : nat;
  log : list log_record
}.

Definition set_db (v : DatabaseManager.t) (s : t) : t :=
  mk v (current_state s) (trading_config s) (active_position s)
     (last_closed_position s) (trade_history s) (clock s) (ticks s) (log s).
Definition set_current_state (v : BotState.t) (s : t) : t :=
  mk (db s) v (trading_config s) (active_position s)
     (last_closed_position s) (trade_history s) (clock s) (ticks s) (log s).
Definition set_trading_config (v : option TradingConfig.t) (s : t) : t :=
  mk (db s) (current_state s) v (active_position s)
     (last_closed_position s) (trade_history s) (clock s) (ticks s) (log s).
Definition set_active_position (v : PyVal) (s : t) : t :=
  mk (db s) (current_state s) (trading_config s) v
     (last_closed_position s) (trade_history s) (clock s) (ticks s) (log s).
Definition set_last_closed_position (v : PyVal) (s : t) : t :=
  mk (db s) (current_state s) (trading_config s) (active_position s)
     v (trade_history s) (clock s) (ticks s) (log s).
Definition set_trade_history (v : list PyVal) (s : t) : t :=
  mk (db s) (current_state s) (trading_config s) (active_position s)
     (last_closed_position s) v (clock s) (ticks s) (log s).
Definition set_ticks (v : nat) (s : t) : t :=
  mk (db s) (current_state s) (trading_config s) (active_position s)
     (last_closed_position s) (trade_history s) (clock s) v (log s).
Definition set_log (v : list log_record) (s : t) : t :=
  mk (db s) (current_state s) (trading_config s) (active_position s)
     (last_closed_position s) (trade_history s) (clock s) (ticks s) v.

(** A method of the class: it may raise, and whatever it wrote before
    raising stays written. *)
Definition M (A : Type) : Type := t -> result A * t.

#[global] Instance M_ret : MRet M := fun _ a s => (Ok a, s).
#[global] Instance M_bind : MBind M := fun _ _ k m s =>
  match m s with
  | (Ok a, s') => k a s'
  | (Raise e, s') => (Raise e, s')
  end.

Definition get : M t := fun s => (Ok s, s).
Definition modify (f : t -> t) : M unit := fun s => (Ok (), f s).
Definition lift {A} (r : result A) : M A := fun s => (r, s).

(** [try: body  except Exception as e: handler(e)] *)
Definition try_ {A} (body : M A) (handler : exn -> M A) : M A := fun s =>
  match body s with
  | (Ok a, s') => (Ok a, s')
  | (Raise e, s') => handler e s'
  end.

(** [datetime.now()] *)
Definition now : M datetime := fun s =>
  (Ok (clock s (ticks s)), set_ticks (S (ticks s)) s).

Definition emit (r : log_record) : M unit :=
  modify (fun s => set_log (r :: log s) s).

(** A call of a method of [self.db]. *)
Definition with_db {A} (op : DatabaseManager.t -> result A * DatabaseManager.t)
  : M A := fun s =>
  let '(r, d) := op (db s) in (r, set_db d s).

(** [json.dumps(x) if x else None] *)
Definition dumps_if_truthy (v : PyVal) : result (option PyVal) :=
  if Py.truthy v then j ← Py.json_dumps v; Ok (Some j) else Ok None.

Definition _save_state : M unit :=
  try_
    (s ← get;
     config ← lift (match trading_config s with
                    | Some c =>
                        d ← TradingConfig.to_dict c;
                        j ← Py.json_dumps (VDict d);
                        Ok (Some j)
                    | None => Ok None
                    end);
     position ← lift (dumps_if_truthy (active_position s));
     updated ← now;
     with_db (DatabaseManager.save_bot_state
                (DatabaseManager.mkRow
                   (Some (BotState.value (current_state s)))
                   config position
                   (Some (DateTime.isoformat updated)))))
    (fun _ => emit (Error "Failed to save state")).

(** [state_data.get('current_state', 'idle')]: the row has the column, so
    the default is never taken and SQL [NULL] comes out as [None]. *)
Definition column_value (c : option string) : PyVal :=
  match c with
  | Some s => VStr s
  | None => VNone
  end.

Definition _load_state : M unit :=
  try_
    (s ← get;
     match DatabaseManager.get_bot_state (db s) with
     | Some row =>
         st ← lift (BotState.of_value
                      (column_value (DatabaseManager.current_state row)));
         _ ← modify (set_current_state st);
         _ ← match DatabaseManager.trading_config row with
             | Some doc =>
                 c ← lift (TradingConfig.from_dict doc);
                 modify (set_trading_config (Some c))
             | None => mret ()
             end;
         _ ← match DatabaseManager.active_position row with
             | Some doc => modify (set_active_position doc)
             | None => mret ()
             end;
         emit (Info "State loaded")
     | None => emit (Info "No saved state found, starting fresh")
     end)
    (fun _ => emit (Error "Failed to load state")).

(** [StateManager(db_manager)], started at clock reading [ticks0]. *)
Definition init (database : DatabaseManager.t) (clk : nat -> datetime)
    (ticks0 : nat) : t :=
  snd (_load_state (mk database BotState.IDLE None VNone VNone [] clk ticks0 [])).

Definition initialize_trading_config (config : TradingConfig.t) : M unit :=
  _ ← modify (set_trading_config (Some config));
  _ ← _save_state;
  (* the log line formats [config.to_dict()] *)
  _ ← lift (TradingConfig.to_dict config);
  emit (Info "Trading config initialized").

Definition set_state (new_state : BotState.t) : M unit :=
  s ← get;
  let old_state := current_state s in
  _ ← modify (set_current_state new_state);
  _ ← emit (StateChanged old_state new_state);
  _save_state.

Definition is_idle (s : t) : bool := bool_decide (current_state s = BotState.IDLE).

Definition is_monitoring (s : t) : bool :=
  bool_decide (current_state s = BotState.MONITORING).

(** [self.current_state in [BotState.IDLE, BotState.RESETTING]] *)
Definition can_open_position (s : t) : bool :=
  bool_decide (current_state s ∈ [BotState.IDLE; BotState.RESETTING]).

Section Builtins.
Variable float_of_str : string -> option float.

Definition position_opened (position_data : PyVal) : M unit :=
  _ ← modify (set_active_position position_data);
  s ← get;
  _ ← match trading_config s with
      | Some c =>
          price ← lift (Py.get position_data "entryPrice" (VInt 0)
                        ≫= Py.float float_of_str);
          opened ← now;
          modify (set_trading_config
                    (Some (TradingConfig.set_opened (VFloat price)
                             (VDatetime opened) c)))
      | None => mret ()
      end;
  _ ← set_state BotState.MONITORING;
  symbol ← lift (Py.get position_data "symbol" VNone);
  side ← lift (Py.get position_data "side" VNone);
  entry ← lift (Py.get position_data "entryPrice" VNone);
  contracts ← lift (Py.get position_data "contracts" VNone);
  s ← get;
  let leverage := match trading_config s with
                  | Some c => TradingConfig.leverage c
                  | None => VInt 10
                  end in
  opened ← now;
  _ ← with_db (DatabaseManager.save_trade
                 (<["symbol" := symbol]>
                 (<["side" := side]>
                 (<["entry_price" := entry]>
                 (<["quantity" := contracts]>
                 (<["leverage" := leverage]>
                 (<["opened_at" := VStr (DateTime.isoformat opened)]>
                 {["status" := VStr "open"]})))))));
  emit (Info "Position recorded").
End Builtins.

Definition position_closed (close_data : PyVal) (profit : float) : M unit :=
  s ← get;
  merged ← lift (Py.merge (active_position s) close_data);
  closed ← now;
  _ ← modify (set_last_closed_position
                (VDict (<["closed_at" := VDatetime closed]>
                       (<["profit" := VFloat profit]> merged))));
  symbol ← lift (Py.get close_data "symbol" VNone);
  price ← lift (Py.get close_data "price" VNone);
  closed' ← now;
  _ ← with_db (DatabaseManager.update_trade_status symbol price (VFloat profit)
                 (VStr (DateTime.isoformat closed')));
  _ ← modify (set_active_position VNone);
  _ ← set_state BotState.CONVERTING;
  emit (Info "Position closed with profit").

(** The record [position_closed] builds from the active position
    [position], the close order [close_data], the profit and the time. *)
Definition closed_record (position close_data : gmap string PyVal)
    (profit : float) (closed_at : datetime) : gmap string PyVal :=
  <["closed_at" := VDatetime closed_at]>
    (<["profit" := VFloat profit]> (close_data ∪ position)).

(** [d[key] = v] on the pending record *)
Definition attach (key : string) (v : PyVal) : M unit :=
  s ← get;
  if Py.truthy (last_closed_position s) then
    match last_closed_position s with
    | VDict d => modify (set_last_closed_position (VDict (<[key := v]> d)))
    | _ => lift (Raise TypeError)
    end
  else mret ().

Definition conversion_completed (conversion_data : PyVal) : M unit :=
  _ ← attach "conversion" conversion_data;
  _ ← set_state BotState.WITHDRAWING;
  emit (Info "Conversion completed").

Definition auto_reset : M unit :=
  _ ← emit (Info "Starting auto-reset process...");
  _ ← set_state BotState.RESETTING;
  _ ← modify (fun s => set_trading_config
                         (TradingConfig.reset <$> trading_config s) s);
  _ ← modify (set_last_closed_position VNone);
  _ ← set_state BotState.IDLE;
  emit (Info "Auto-reset completed - Bot ready for new trade").

Definition withdrawal_completed (withdrawal_data : PyVal) : M unit :=
  _ ← attach "withdrawal" withdrawal_data;
  _ ← modify (fun s => set_trade_history
                         (trade_history s ++ [last_closed_position s]) s);
  auto_reset.

Definition handle_error (error_message : string) : M unit :=
  _ ← set_state BotState.ERROR;
  _ ← emit (Error error_message);
  stamp ← now;
  s ← get;
  position ← lift (dumps_if_truthy (active_position s));
  with_db (DatabaseManager.save_error_log
             (<["timestamp" := VStr (DateTime.isoformat stamp)]>
             (<["error_message" := VStr error_message]>
             (<["state" := VStr (BotState.value (current_state s))]>
             {["active_position" := default VNone position]})))).

Definition recover_from_error : M unit :=
  s ← get;
  _ ← (if Py.truthy (active_position s)
       then set_state BotState.MONITORING
       else set_state BotState.IDLE);
  emit (Info "Recovered").

Definition force_reset : M unit :=
  _ ← modify (set_current_state BotState.IDLE);
  _ ← modify (set_active_position VNone);
  _ ← modify (set_last_closed_position VNone);
  _ ← modify (fun s => set_trading_config
                         (TradingConfig.reset <$> trading_config s) s);
  _ ← _save_state;
  emit (Info "Force reset completed").

(** [get_status]: a read-only summary.  [self.active_position is not None]
    tests identity with [None]; the summary of the position is added when
    the position is a true value. *)
Definition get_status (s : t) : result (gmap string PyVal) :=
  config ← match trading_config s with
           | Some c => d ← TradingConfig.to_dict c; Ok (VDict d)
           | None => Ok VNone
           end;
  profit ← match last (trade_history s) with
           | Some trade => Py.get trade "profit" (VInt 0)
           | None => Ok (VInt 0)
           end;
  let status : gmap string PyVal :=
    <["state" := VStr (BotState.value (current_state s))]>
      (<["has_active_position" :=
           VBool (match active_position s with VNone => false | _ => true end)]>
      (<["trading_config" := config]>
      (<["total_trades" := VInt (Z.of_nat (length (trade_history s)))]>
      {["last_trade_profit" := profit]}))) in
  if Py.truthy (active_position s) then
    symbol ← Py.get (active_position s) "symbol" VNone;
    side ← Py.get (active_position s) "side" VNone;
    entry ← Py.get (active_position s) "entryPrice" VNone;
    contracts ← Py.get (active_position s) "contracts" VNone;
    Ok (<["active_position" :=
            VDict (<["symbol" := symbol]>
                  (<["side" := side]>
                  (<["entry_price" := entry]>
                  {["contracts" := contracts]})))]> status)
  else Ok status.

(** *** Reading the outcome of a method *)

(** The state changes a log records, oldest first. *)
Fixpoint transitions (l : list log_record) : list (BotState.t * BotState.t) :=
  match l with
  | [] => []
  | StateChanged old new :: rest => transitions rest ++ [(old, new)]
  | _ :: rest => transitions rest
  end.

(** What the properties read of a manager: its attributes, the clock
    function, whether the database answers, and the recorded state
    changes. *)
Definition attributes (s : t) :=
  (current_state s, trading_config s, active_position s,
   last_closed_position s, trade_history s, clock s,
   DatabaseManager.available (db s), transitions (log s)).

(** [s'] has the attributes of [s]: it may differ in what the database
    holds, in the clock reading and in log records other than state
    changes. *)
Definition same_attributes (s s' : t) : Prop := attributes s' = attributes s.

(** Run from [s], the method [m] either returns a value and a state that
    satisfy [Q], or raises an exception in a state that satisfy [E]. *)
Definition wp {A} (m : M A) (Q : A -> t -> Prop) (E : exn -> t -> Prop) (s : t)
  : Prop :=
  match m s with
  | (Ok a, s') => Q a s'
  | (Raise e, s') => E e s'
  end.

(** The method returns. *)
Definition returns {A} (m : M A) (s : t) (Q : A -> t -> Prop) : Prop :=
  wp m Q (fun _ _ => False) s.

End StateManager.

(* ===================================================================== *)
(** ** [notifications/email_notifier.py]: [EmailNotifier]                *)
(* ===================================================================== *)

(** A notification is built by the
    program and delivered outside it.  Building evaluates the keyword
    arguments of the template and the f-string of the plain text, which
    raises on a value the expression does not accept; [_load_template]
    swallows every exception of its own.  Delivery is the row in the
    notifications table ([save_notification] and
    [update_notification_status], which raise again what the database
    raises) and the SMTP session ([_send_email], which answers [False] on
    every failure): [deliver kind] is its outcome for a notification of
    type [kind], the flag returned or the exception of the database. *)
Module EmailNotifier.
Record t : Type := mk {
  deliver : string -> result bool
}.

(** The f-string field [{v:.2f}]: presentation type ['f'] is defined
    for [int] (converted to [float]), [bool] and [float]; [str] refuses
    the format code with a [ValueError]; [datetime] takes the
    specification for a [strftime] format; the other types refuse every
    non-empty specification with a [TypeError]. *)
Definition format_2f (v : PyVal) : result unit :=
  match v with
  | VFloat _ | VBool _ | VDatetime _ => Ok ()
  | VInt z => _ ← Py.int_to_float z; Ok ()
  | VStr _ => Raise ValueError
  | VNone | VList _ | VDict _ => Raise TypeError
  end.

(** [v.upper()], a method of [str] only. *)
Definition upper (v : PyVal) : result unit :=
  match v with
  | VStr _ => Ok ()
  | _ => Raise AttributeError
  end.

Definition send_position_closed_alert (n : t) (position : PyVal)
    (profit : float) : result bool :=
  _ ← Py.get position "symbol" (VStr "N/A");
  side ← Py.get position "side" (VStr "N/A");
  _ ← upper side;
  entry ← Py.get position "entryPrice" (VInt 0);
  _ ← format_2f entry;
  price ← Py.get position "price" (VInt 0);
  _ ← format_2f price;
  _ ← Py.get position "contracts" (VInt 0);
  deliver n "position_closed".

(** The texts read the conversion with [.get] only. *)
Definition send_conversion_completed (n : t) (conversion : PyVal) : result bool :=
  _ ← Py.get conversion "from_asset" VNone;
  deliver n "conversion_completed".

Definition send_withdrawal_success (n : t) (withdrawal : PyVal) : result bool :=
  _ ← Py.get withdrawal "amount" VNone;
  deliver n "withdrawal_success".

(** The texts hold the two strings as they are. *)
Definition send_error_alert (n : t) (error_message error_type : string)
  : result bool :=
  deliver n "error".
End EmailNotifier.

(* ===================================================================== *)
(** ** [gui/main_window.py]: the pipeline of [TradingBot]                *)
(* ===================================================================== *)

Module TradingBot.

(** The world around one run of the profit callback: the exchange as it
    answers during the close, at the balance request after the
    settlement wait, during the conversion and during the withdrawal,
    and the notifier. *)
Record world : Type := mkWorld {
  at_close : Ccxt.t;
  at_settlement : Ccxt.t;
  at_conversion : Ccxt.t;
  at_withdrawal : Ccxt.t;
  notifier : EmailNotifier.t
}.

(** [str(e)], of which the model keeps the part the raising code fixes. *)
Definition str (e : exn) : string :=
  match e with
  | TypeError => "TypeError"
  | ValueError => "ValueError"
  | KeyError => "KeyError"
  | AttributeError => "AttributeError"
  | OverflowError => "OverflowError"
  | LibraryError => "LibraryError"
  | CcxtInsufficientFunds => "InsufficientFunds"
  | ExchangeError => "ExchangeError"
  | InsufficientFundsError => "Not enough balance"
  | OrderExecutionError => "Profit close failed"
  end.

Section Builtins.
Variable float_of_str : string -> option float.
Variable settings : Settings.t.

Import StateManager.

Definition _execute_conversion (w : world) (position : PyVal) : M unit :=
  try_
    (let result :=
       ConversionManager.auto_convert_after_close float_of_str settings
         (at_settlement w) (at_conversion w) position in
     if Py.truthy result then
       _ ← conversion_completed result;
       _ ← lift (EmailNotifier.send_conversion_completed (notifier w) result);
       emit (Info "Conversion completed")
     else mret ())
    (fun _ => emit (Error "Conversion failed")).

Definition _execute_withdrawal (w : world) : M unit :=
  try_
    (let result :=
       WithdrawalManager.auto_withdraw_after_conversion float_of_str settings
         (at_withdrawal w) (Settings.CONVERT_TO_CRYPTO settings) in
     if Py.truthy result then
       _ ← withdrawal_completed result;
       _ ← lift (EmailNotifier.send_withdrawal_success (notifier w) result);
       emit (Info "Withdrawal completed")
     else mret ())
    (fun _ => emit (Error "Withdrawal failed")).

(** [_on_profit_reached], up to its last step: the result is whether the
    callback goes on to [_run_trading_cycle], which starts the next
    cycle ([True] only after a completed pipeline of a running bot). *)
Definition _on_profit_reached (w : world) (running : bool)
    (position : PyVal) (profit : float) : M bool :=
  try_
    (_ ← set_state BotState.CLOSING_POSITION;
     close_order ← lift (OrderExecutor.execute_profit_close float_of_str
                           (at_close w) position profit);
     if Py.truthy close_order then
       _ ← position_closed close_order profit;
       _ ← lift (EmailNotifier.send_position_closed_alert (notifier w)
                   position profit);
       _ ← _execute_conversion w position;
       _ ← _execute_withdrawal w;
       _ ← auto_reset;
       _ ← emit (Info "Trade cycle completed successfully!");
       mret running
     else mret false)
    (fun e =>
       _ ← emit (Error "Error in profit callback");
       _ ← handle_error (str e);
       _ ← lift (EmailNotifier.send_error_alert (notifier w) (str e)
                   "ProfitCallbackError");
       mret false).

End Builtins.
End TradingBot.

(* ===================================================================== *)
(** ** The transition table of the specification                         *)
(* ===================================================================== *)

(** This module does not come from the sources: [allowed] is the transition
    table of the specification (section 4.1), written out so that the
    behaviour of [StateManager.set_state] can be compared with it. *)
Module Spec.
Import BotState.

Definition allowed (from to : BotState.t) : bool :=
  match from, to with
  | (IDLE | RESETTING), MONITORING => true      (* open position *)
  | MONITORING, CLOSING_POSITION => true        (* profit or liquidation signal *)
  | CLOSING_POSITION, CONVERTING => true        (* close confirmed *)
  | CONVERTING, WITHDRAWING => true             (* conversion done or skipped *)
  | WITHDRAWING, RESETTING => true              (* withdrawal done or skipped *)
  | RESETTING, IDLE => true                     (* reset complete *)
  | _, ERROR => true                            (* unrecoverable error *)
  | ERROR, (MONITORING | IDLE) => true          (* recover *)
  | _, _ => false
  end.
End Spec.

(* ===================================================================== *)
(** ** Concrete data used by the examples                                *)
(* ===================================================================== *)

Module Examples.

(** [float] on the two strings of [tests/test_exchange_client.py]. *)
Definition float_of_str (s : string) : option float :=
  if String.eqb s "50000" then Some 50000%float
  else if String.eqb s "0.01" then Some 0.01%float
  else None.

(** An exchange none of whose methods answers. *)
Definition unreachable : Ccxt.t :=
  Ccxt.mk (Raise LibraryError) (Raise LibraryError)
    (fun _ => Raise LibraryError) (fun _ _ _ _ => Raise LibraryError)
    (fun _ => Raise LibraryError) (fun _ => Raise LibraryError)
    (fun _ _ _ _ => Raise LibraryError)
    (fun _ _ => Raise LibraryError) (fun _ _ => Raise LibraryError).

(** The position of [test_calculate_position_pnl]. *)
Definition btc_long_fields : gmap string PyVal :=
  <["symbol" := VStr "BTC/USDT"]>
    (<["entryPrice" := VStr "50000"]>
    (<["contracts" := VStr "0.01"]>
    {["side" := VStr "long"]})).

Definition btc_long : PyVal := VDict btc_long_fields.

(** The exchange of the tests: one open position, last price 50500, a
    balance of 100 USDT, orders, quotes and withdrawals accepted. *)
Definition testnet : Ccxt.t :=
  Ccxt.mk
    (Ok (VDict {["total" := VDict {["USDT" := VInt 100]}]}))
    (Ok [btc_long])
    (fun _ => Ok (VDict {["last" := VInt 50500]}))
    (fun _ _ _ _ => Ok (VDict {["id" := VStr "close123"]}))
    (fun _ => Ok (VDict {["quoteId" := VStr "abc123"]}))
    (fun _ => Ok (VDict {["executed" := VBool true]}))
    (fun _ _ _ _ => Ok (VDict {["id" := VStr "wd123"]}))
    (fun _ _ => Ok ()) (fun _ _ => Ok ()).

Definition noon : datetime := mkDatetime 2025 1 15 12 0 0 250000.

(** A fresh manager over an empty database. *)
Definition fresh : StateManager.t :=
  StateManager.init DatabaseManager.empty (fun _ => noon) 0.

(** The manager after [configure] with the defaults of [TradingConfig]. *)
Definition configured : StateManager.t :=
  snd (StateManager.initialize_trading_config (TradingConfig.init ∅) fresh).

(** The manager after the position of the tests has been opened. *)
Definition monitoring : StateManager.t :=
  snd (StateManager.position_opened float_of_str btc_long configured).

(** The same manager when the database file cannot be opened. *)
Definition offline (s : StateManager.t) : StateManager.t :=
  StateManager.set_db
    (DatabaseManager.mk false
       (DatabaseManager.bot_state (StateManager.db s))
       (DatabaseManager.trades (StateManager.db s))
       (DatabaseManager.error_logs (StateManager.db s))) s.

(** The order the exchange of the tests returns for a close. *)
Definition close_order_fields : gmap string PyVal := {["id" := VStr "close123"]}.

Definition close_order : PyVal := VDict close_order_fields.

(** The exchange of the tests with 100 USDT free for withdrawal. *)
Definition funded : Ccxt.t :=
  Ccxt.mk
    (Ok (VDict (<["free" := VDict {["USDT" := VInt 100]}]>
               {["total" := VDict {["USDT" := VInt 100]}]})))
    (Ccxt.fetch_positions testnet) (Ccxt.fetch_ticker testnet)
    (Ccxt.create_order testnet)
    (Ccxt.sapi_post_convert_getquote testnet)
    (Ccxt.sapi_post_convert_acceptquote testnet)
    (Ccxt.withdraw testnet)
    (Ccxt.set_leverage testnet) (Ccxt.set_margin_mode testnet).

(** The exchange of the tests with 2 BTC free for conversion. *)
Definition holding_btc : Ccxt.t :=
  Ccxt.mk
    (Ok (VDict {["free" := VDict {["BTC" := VFloat 2]}]}))
    (Ccxt.fetch_positions testnet) (Ccxt.fetch_ticker testnet)
    (Ccxt.create_order testnet)
    (Ccxt.sapi_post_convert_getquote testnet)
    (Ccxt.sapi_post_convert_acceptquote testnet)
    (Ccxt.withdraw testnet)
    (Ccxt.set_leverage testnet) (Ccxt.set_margin_mode testnet).

(** A notifier whose mails all go out. *)
Definition mailer : EmailNotifier.t := EmailNotifier.mk (fun _ => Ok true).

(** The close succeeds, no BTC is free to convert, USDT is free to
    withdraw. *)
Definition world : TradingBot.world :=
  TradingBot.mkWorld testnet testnet testnet funded mailer.

(** The position of [tests/integration/test_order_flow.py], its price and
    size numbers, as the exchange library reports them. *)
Definition held_fields : gmap string PyVal :=
  <["symbol" := VStr "BTC/USDT"]>
    (<["entryPrice" := VInt 50000]>
    (<["contracts" := VFloat 0.001]>
    {["side" := VStr "long"]})).

Definition held : PyVal := VDict held_fields.

(** The exchange of the tests reporting that position, and the same with
    100 USDT free for withdrawal. *)
Definition live : Ccxt.t :=
  Ccxt.mk
    (Ccxt.fetch_balance testnet) (Ok [held]) (Ccxt.fetch_ticker testnet)
    (Ccxt.create_order testnet)
    (Ccxt.sapi_post_convert_getquote testnet)
    (Ccxt.sapi_post_convert_acceptquote testnet)
    (Ccxt.withdraw testnet)
    (Ccxt.set_leverage testnet) (Ccxt.set_margin_mode testnet).

Definition live_funded : Ccxt.t :=
  Ccxt.mk
    (Ccxt.fetch_balance funded) (Ok [held]) (Ccxt.fetch_ticker testnet)
    (Ccxt.create_order testnet)
    (Ccxt.sapi_post_convert_getquote testnet)
    (Ccxt.sapi_post_convert_acceptquote testnet)
    (Ccxt.withdraw testnet)
    (Ccxt.set_leverage testnet) (Ccxt.set_margin_mode testnet).

(** The manager after that position has been opened. *)
Definition tracking : StateManager.t :=
  snd (StateManager.position_opened float_of_str held configured).

(** The cycle on that exchange: the close succeeds, no BTC is free to
    convert, USDT is free to withdraw, the mails go out. *)
Definition live_world : TradingBot.world :=
  TradingBot.mkWorld live live live live_funded mailer.

Definition withdrawing : Settings.t :=
  Settings.with_withdrawal true (VStr "wallet_address") (VStr "TRC20") 10.

Definition not_withdrawing : Settings.t :=
  Settings.with_withdrawal false VNone VNone 10.

End Examples.

(* ===================================================================== *)
(** ** Vocabulary of the further properties                              *)
(* ===================================================================== *)

Module Says.

(** The computation returns, or raises an exception that [P] accepts. *)
Definition raises_only {A} (P : exn -> bool) (r : result A) : Prop :=
  match r with
  | Ok _ => True
  | Raise e => P e = true
  end.

Definition is_OrderExecutionError (e : exn) : bool :=
  match e with
  | OrderExecutionError => true
  | _ => false
  end.

(** [handle_error] can write its record: the database answers, and the
    active position is absent or data JSON can carry. *)
Definition error_recordable (s : StateManager.t) : bool :=
  DatabaseManager.available (StateManager.db s) &&
  (negb (Py.truthy (StateManager.active_position s))
   || Py.json_ok (StateManager.active_position s)).

(** The state the manager is in after the conversion step, and after the
    withdrawal step, of a cycle whose close succeeded. *)
Definition after_conversion (converted : bool) : BotState.t :=
  if converted then BotState.WITHDRAWING else BotState.CONVERTING.

Definition after_withdrawal (converted withdrawn : bool) : BotState.t :=
  if withdrawn then BotState.IDLE else after_conversion converted.

Section Builtins.
Variable float_of_str : string -> option float.

(** [float(pos.get('contracts', 0))], the size [get_open_positions] tests. *)
Definition contract_size (pos : PyVal) : result float :=
  Py.get pos "contracts" (VInt 0) ≫= Py.float float_of_str.

Definition size_readable (pos : PyVal) : bool := negb (raises (contract_size pos)).

Definition is_open (pos : PyVal) : bool :=
  match contract_size pos with
  | Ok f => PrimFloat.ltb 0%float f
  | Raise _ => false
  end.

(** A turn of the monitor loop that neither stops the worker nor reaches
    the threshold: no other thread has cleared the flag, and no position
    is found or the PnL is below the threshold. *)
Definition quiet (m : PositionMonitor.t) (p : PositionMonitor.poll) : bool :=
  negb (PositionMonitor.disturbed p) &&
  let position :=
    PositionMonitor.monitored_position float_of_str (PositionMonitor.exchange p) m in
  (negb (Py.truthy position) ||
   negb (PrimFloat.leb (PositionMonitor.profit_threshold m)
           (ExchangeClient.calculate_position_pnl float_of_str
              (PositionMonitor.exchange p) position))).

(** A turn on which the threshold is reached: no other thread has cleared
    the flag, a position is found and its PnL is at or above the
    threshold. *)
Definition reaching (m : PositionMonitor.t) (p : PositionMonitor.poll) : bool :=
  negb (PositionMonitor.disturbed p) &&
  let position :=
    PositionMonitor.monitored_position float_of_str (PositionMonitor.exchange p) m in
  Py.truthy position &&
  PrimFloat.leb (PositionMonitor.profit_threshold m)
    (ExchangeClient.calculate_position_pnl float_of_str
       (PositionMonitor.exchange p) position).

End Builtins.
End Says.

(* ===================================================================== *)
(** * Properties                                                         *)
(* ===================================================================== *)

(* --------------------------------------------------------------------- *)
(** ** Dates: reading back what [isoformat] writes                       *)
(* --------------------------------------------------------------------- *)

Section DateTimeFacts.
Import DateTime.

Lemma digit_val_char (d : Z) :
  0 <= d < 10 -> digit_val (digit_char d) = Some d.
Proof.
  intros Hd.
  assert (Hcases : d = 0 \/ d = 1 \/ d = 2 \/ d = 3 \/ d = 4 \/
                   d = 5 \/ d = 6 \/ d = 7 \/ d = 8 \/ d = 9) by lia.
  repeat (destruct Hcases as [->|Hcases]; [reflexivity|]).
  subst d. reflexivity.
Qed.

(** Reading one more digit, seen from the end. *)
Lemma read_digits_succ (w : nat) (s : string) (acc : Z) :
  read_digits (S w) s acc =
  match read_digits w s acc with
  | Some (v, String c s') =>
      match digit_val c with
      | Some d => Some (10 * v + d, s')
      | None => None
      end
  | _ => None
  end.
Proof.
  revert s acc. induction w as [|w IH]; intros s acc.
  - cbn. destruct s as [|c s']; [done|]. by destruct (digit_val c).
  - change (read_digits (S (S w)) s acc) with
      (match s with
       | String c s' =>
           match digit_val c with
           | Some d => read_digits (S w) s' (10 * acc + d)
           | None => None
           end
       | EmptyString => None
       end).
    destruct s as [|c s']; [done|]. cbn [read_digits].
    destruct (digit_val c) as [d|]; [|done].
    rewrite <- IH. reflexivity.
Qed.

Lemma read_digits_add (w1 w2 : nat) (s : string) (acc : Z) :
  read_digits (w1 + w2) s acc =
  match read_digits w1 s acc with
  | Some (v, s') => read_digits w2 s' v
  | None => None
  end.
Proof.
  revert s acc. induction w1 as [|w1 IH]; intros s acc; [done|].
  cbn [Nat.add read_digits]. destruct s as [|c s']; [done|].
  destruct (digit_val c); [apply IH|done].
Qed.

Lemma read_digits_digits_acc (w : nat) (n acc : Z) (suffix : string) :
  0 <= n < 10 ^ Z.of_nat w ->
  read_digits w (digits w n suffix) acc = Some (acc * 10 ^ Z.of_nat w + n, suffix).
Proof.
  revert n suffix. induction w as [|w IH]; intros n suffix Hn.
  - cbn in *. f_equal. f_equal. lia.
  - rewrite read_digits_succ. cbn [digits].
    rewrite Nat2Z.inj_succ, Z.pow_succ_r in * by lia.
    rewrite IH by (split; [apply Z.div_pos; lia|apply Z.div_lt_upper_bound; lia]).
    rewrite digit_val_char by (apply Z.mod_pos_bound; lia).
    f_equal. f_equal.
    pose proof (Z.div_mod n 10 ltac:(lia)). lia.
Qed.

Lemma read_digits_digits (w : nat) (n : Z) (suffix : string) :
  0 <= n < 10 ^ Z.of_nat w ->
  read_digits w (digits w n suffix) 0 = Some (n, suffix).
Proof.
  intros Hn. rewrite read_digits_digits_acc by done. f_equal.
Qed.

Lemma read_fraction_digits (us : Z) :
  0 <= us < 1000000 ->
  read_fraction (digits 6 us EmptyString) = Some us.
Proof.
  intros Hus.
  pose proof (read_digits_digits 6 us EmptyString ltac:(cbn; lia)) as Hsix.
  change 6%nat with (3 + 3)%nat in Hsix at 1.
  rewrite read_digits_add in Hsix.
  unfold read_fraction.
  destruct (read_digits 3 (digits 6 us EmptyString) 0) as [[ms rest]|]; [|done].
  destruct rest as [|c rest]; [done|].
  by rewrite Hsix.
Qed.

Lemma valid_ranges (d : datetime) :
  valid d = true ->
  0 <= year d < 10 ^ Z.of_nat 4 /\ 0 <= month d < 10 ^ Z.of_nat 2 /\
  0 <= day d < 10 ^ Z.of_nat 2 /\ 0 <= hour d < 10 ^ Z.of_nat 2 /\
  0 <= minute d < 10 ^ Z.of_nat 2 /\ 0 <= second d < 10 ^ Z.of_nat 2 /\
  0 <= microsecond d < 1000000.
Proof.
  unfold valid. rewrite !andb_true_iff.
  rewrite !Z.leb_le, !Z.ltb_lt.
  assert (days_in_month (year d) (month d) <= 31).
  { unfold days_in_month.
    repeat match goal with |- context [if ?b then _ else _] => destruct b end; lia. }
  cbn. lia.
Qed.

(** [datetime.fromisoformat(d.isoformat())] is [d]. *)
Lemma fromisoformat_isoformat (d : datetime) :
  valid d = true ->
  fromisoformat (VStr (isoformat d)) = Ok d.
Proof.
  intros Hvalid.
  destruct (valid_ranges d Hvalid) as (Hy & Hmo & Hd & Hh & Hmi & Hs & Hus).
  unfold fromisoformat, read_datetime, isoformat.
  rewrite (read_digits_digits 4) by done. cbn [mbind option_bind expect Ascii.eqb Bool.eqb].
  rewrite (read_digits_digits 2) by done. cbn [mbind option_bind expect Ascii.eqb Bool.eqb].
  rewrite (read_digits_digits 2) by done. cbn [mbind option_bind].
  unfold read_time.
  rewrite (read_digits_digits 2) by done. cbn [mbind option_bind expect Ascii.eqb Bool.eqb].
  rewrite (read_digits_digits 2) by done. cbn [mbind option_bind expect Ascii.eqb Bool.eqb].
  rewrite (read_digits_digits 2) by done. cbn [mbind option_bind].
  destruct (microsecond d =? 0) eqn:Hzero.
  - apply Z.eqb_eq in Hzero. cbn [mbind option_bind].
    unfold checked.
    replace (mkDatetime _ _ _ _ _ _ 0) with d by (destruct d; cbn in *; congruence).
    by rewrite Hvalid.
  - cbn [mbind option_bind expect Ascii.eqb Bool.eqb].
    rewrite read_fraction_digits by done. cbn [mbind option_bind].
    unfold checked.
    replace (mkDatetime _ _ _ _ _ _ _) with d by (by destruct d).
    by rewrite Hvalid.
Qed.

(** What [isoformat] writes is not the empty string. *)
Lemma isoformat_truthy (d : datetime) : Py.truthy (VStr (isoformat d)) = true.
Proof. reflexivity. Qed.

End DateTimeFacts.

(* --------------------------------------------------------------------- *)
(** ** Snapshots: configuration and state survive a save and a load      *)
(* --------------------------------------------------------------------- *)

Section SnapshotFacts.

Lemma json_ok_dict (d : gmap string PyVal) :
  Py.json_ok (VDict d) = true <-> map_Forall (fun _ v => Py.json_ok v = true) d.
Proof.
  cbn [Py.json_ok].
  apply (map_fold_weak_ind
           (fun r (m : gmap string PyVal) =>
              r = true <-> map_Forall (fun _ v => Py.json_ok v = true) m)).
  - split; [intros _; apply map_Forall_empty|done].
  - intros k v m r Hk IH.
    rewrite andb_true_iff, map_Forall_insert by done. tauto.
Qed.

Lemma BotState_of_value (st : BotState.t) :
  BotState.of_value (VStr (BotState.value st)) = Ok st.
Proof. by destruct st. Qed.

(** The entry [to_dict] writes for the opening time of a well-formed
    configuration. *)
Lemma well_formed_opened (c : TradingConfig.t) :
  TradingConfig.well_formed c = true ->
  (TradingConfig.position_opened_at c = VNone) \/
  (exists dt, TradingConfig.position_opened_at c = VDatetime dt /\
              DateTime.valid dt = true).
Proof.
  unfold TradingConfig.well_formed. rewrite !andb_true_iff.
  intros (_ & Hopened).
  destruct (TradingConfig.position_opened_at c); try done; eauto.
Qed.

Lemma well_formed_fields (c : TradingConfig.t) :
  TradingConfig.well_formed c = true ->
  Py.json_ok (TradingConfig.symbol c) = true /\
  Py.json_ok (TradingConfig.side c) = true /\
  Py.json_ok (TradingConfig.quantity c) = true /\
  Py.json_ok (TradingConfig.leverage c) = true /\
  Py.json_ok (TradingConfig.margin_mode c) = true /\
  Py.json_ok (TradingConfig.profit_threshold c) = true /\
  Py.json_ok (TradingConfig.entry_price c) = true.
Proof.
  unfold TradingConfig.well_formed. rewrite !andb_true_iff. tauto.
Qed.

#[local] Ltac lookup_key :=
  repeat (rewrite lookup_insert_ne by done);
  first [apply lookup_insert_eq | apply lookup_singleton_eq].

(** The dictionary [to_dict] returns, entry by entry. *)
Lemma to_dict_lookups (c : TradingConfig.t) (d : gmap string PyVal) :
  TradingConfig.to_dict c = Ok d ->
  exists opened,
    (if Py.truthy (TradingConfig.position_opened_at c)
     then TradingConfig.isoformat_of (TradingConfig.position_opened_at c)
     else Ok VNone) = Ok opened /\
    d !! "symbol" = Some (TradingConfig.symbol c) /\
    d !! "side" = Some (TradingConfig.side c) /\
    d !! "quantity" = Some (TradingConfig.quantity c) /\
    d !! "leverage" = Some (TradingConfig.leverage c) /\
    d !! "margin_mode" = Some (TradingConfig.margin_mode c) /\
    d !! "profit_threshold" = Some (TradingConfig.profit_threshold c) /\
    d !! "entry_price" = Some (TradingConfig.entry_price c) /\
    d !! "position_opened_at" = Some opened /\
    (Py.json_ok opened = true ->
     Py.json_ok (TradingConfig.symbol c) = true ->
     Py.json_ok (TradingConfig.side c) = true ->
     Py.json_ok (TradingConfig.quantity c) = true ->
     Py.json_ok (TradingConfig.leverage c) = true ->
     Py.json_ok (TradingConfig.margin_mode c) = true ->
     Py.json_ok (TradingConfig.profit_threshold c) = true ->
     Py.json_ok (TradingConfig.entry_price c) = true ->
     Py.json_ok (VDict d) = true).
Proof.
  unfold TradingConfig.to_dict.
  destruct (if Py.truthy _ then _ else _) as [opened|e]; [|done].
  cbn [mbind result_bind]. intros [= <-].
  exists opened. split; [done|].
  repeat (split; [lookup_key|]).
  intros. apply json_ok_dict.
  repeat (apply map_Forall_insert_2; [done|]).
  apply map_Forall_empty.
Qed.

(** A configuration is determined by its eight attributes. *)
Lemma init_of_lookups (c : TradingConfig.t) (kwargs : gmap string PyVal) :
  kwargs !! "symbol" = Some (TradingConfig.symbol c) ->
  kwargs !! "side" = Some (TradingConfig.side c) ->
  kwargs !! "quantity" = Some (TradingConfig.quantity c) ->
  kwargs !! "leverage" = Some (TradingConfig.leverage c) ->
  kwargs !! "margin_mode" = Some (TradingConfig.margin_mode c) ->
  kwargs !! "profit_threshold" = Some (TradingConfig.profit_threshold c) ->
  kwargs !! "entry_price" = Some (TradingConfig.entry_price c) ->
  kwargs !! "position_opened_at" = Some (TradingConfig.position_opened_at c) ->
  TradingConfig.init kwargs = c.
Proof.
  intros H1 H2 H3 H4 H5 H6 H7 H8. unfold TradingConfig.init.
  rewrite H1, H2, H3, H4, H5, H6, H7, H8. by destruct c.
Qed.

(** [TradingConfig.from_dict(json.loads(json.dumps(c.to_dict())))] is [c]. *)
Lemma from_dict_to_dict (c : TradingConfig.t) :
  TradingConfig.well_formed c = true ->
  exists d,
    TradingConfig.to_dict c = Ok d /\
    Py.json_ok (VDict d) = true /\
    TradingConfig.from_dict (VDict d) = Ok c.
Proof.
  intros Hwf.
  destruct (well_formed_fields c Hwf) as (H1 & H2 & H3 & H4 & H5 & H6 & H7).
  destruct (TradingConfig.to_dict c) as [d|e] eqn:Hd.
  2: { unfold TradingConfig.to_dict in Hd.
       destruct (well_formed_opened c Hwf) as [Hnone|(dt & Hdt & _)];
         [rewrite Hnone in Hd|rewrite Hdt in Hd]; done. }
  exists d. split; [done|].
  destruct (to_dict_lookups c d Hd)
    as (opened & Hopened & L1 & L2 & L3 & L4 & L5 & L6 & L7 & L8 & Hjson).
  destruct (well_formed_opened c Hwf) as [Hnone|(dt & Hdt & Hvalid)].
  - rewrite Hnone in Hopened. injection Hopened as <-.
    split; [by apply Hjson|].
    unfold TradingConfig.from_dict, Py.get. rewrite L8.
    cbn [default from_option id Py.truthy mbind result_bind].
    f_equal. apply init_of_lookups; congruence.
  - rewrite Hdt in Hopened. injection Hopened as <-.
    split; [by apply Hjson|].
    unfold TradingConfig.from_dict, Py.get. rewrite L8.
    cbn [default from_option id mbind result_bind].
    rewrite isoformat_truthy, fromisoformat_isoformat by done.
    cbn [mbind result_bind].
    f_equal. apply init_of_lookups;
      first [by rewrite Hdt; apply lookup_insert_eq
            | by rewrite lookup_insert_ne by done].
Qed.

End SnapshotFacts.

(* --------------------------------------------------------------------- *)
(** ** The exchange client                                               *)
(* --------------------------------------------------------------------- *)

(** [convert_crypto] has no raising path: whatever the exchange does, the
    call returns. *)
Lemma convert_crypto_returns (ex : Ccxt.t) (from_asset to_asset : string)
    (amount : float) :
  raises (ExchangeClient.convert_crypto ex from_asset to_asset amount) = false.
Proof.
  unfold ExchangeClient.convert_crypto, try_except.
  destruct (_ ≫= _) as [v|e]; reflexivity.
Qed.

(** When the quote request fails, the value returned is [None]. *)
Lemma convert_crypto_quote_failure (ex : Ccxt.t) (from_asset to_asset : string)
    (amount : float) (e : exn) :
  (forall request, Ccxt.sapi_post_convert_getquote ex request = Raise e) ->
  ExchangeClient.convert_crypto ex from_asset to_asset amount = Ok VNone.
Proof.
  intros Hquote. unfold ExchangeClient.convert_crypto.
  rewrite Hquote. reflexivity.
Qed.

(** The sibling method [withdraw_crypto] turns a failure of the exchange
    into an [ExchangeError]. *)
Lemma withdraw_crypto_failure (ex : Ccxt.t) (asset : string) (amount : float)
    (address network : PyVal) (e : exn) :
  (forall params, Ccxt.withdraw ex asset amount address params = Raise e) ->
  exists e', ExchangeClient.withdraw_crypto ex asset amount address network = Raise e' /\
             is_ExchangeError e' = true.
Proof.
  intros Hfail. unfold ExchangeClient.withdraw_crypto.
  rewrite Hfail. by exists ExchangeError.
Qed.

(** C4.  The gateway's conversion is specified to fail with an
    [ExchangeError] when the exchange's convert operation fails.  Run on an
    exchange whose quote request raises, [convert_crypto] does not raise at
    all: it returns [None], the [raise ExchangeError] of its handler being
    commented out, while every sibling method of the client raises
    [ExchangeError] in the same situation (here: [withdraw_crypto]). *)
Theorem convert_crypto_swallows_failure :
  Ccxt.sapi_post_convert_getquote Examples.unreachable
    (VDict (<["fromAsset" := VStr "BTC"]>
           (<["toAsset" := VStr "USDT"]>
           {["fromAmount" := VFloat 0.01]}))) = Raise LibraryError /\
  ExchangeClient.convert_crypto Examples.unreachable "BTC" "USDT" 0.01 = Ok VNone /\
  ExchangeClient.withdraw_crypto Examples.unreachable "USDT" 50
    (VStr "wallet_address") (VStr "TRC20") = Raise ExchangeError.
Proof. repeat split. Qed.

(** C8.  For a position with entry price [e] and contract count [c], and a
    market price [p] reported by the ticker of the position's symbol, the
    computed PnL is [(p - e) * c] for side ['long'] and [(e - p) * c] for
    side ['short'], in binary64 arithmetic. *)
Theorem calculate_position_pnl_formula
    (float_of_str : string -> option float) (ex : Ccxt.t)
    (position symbol ticker last raw_entry raw_contracts side : PyVal)
    (e c p : float) :
  Py.getitem position "symbol" = Ok symbol ->
  Ccxt.fetch_ticker ex symbol = Ok ticker ->
  Py.getitem ticker "last" = Ok last ->
  Py.float_operand last = Ok p ->
  Py.getitem position "entryPrice" = Ok raw_entry ->
  Py.float float_of_str raw_entry = Ok e ->
  Py.getitem position "contracts" = Ok raw_contracts ->
  Py.float float_of_str raw_contracts = Ok c ->
  Py.getitem position "side" = Ok side ->
  (side = VStr "long" ->
   ExchangeClient.calculate_position_pnl float_of_str ex position
   = PrimFloat.mul (PrimFloat.sub p e) c) /\
  (side = VStr "short" ->
   ExchangeClient.calculate_position_pnl float_of_str ex position
   = PrimFloat.mul (PrimFloat.sub e p) c).
Proof.
  intros Hsym Htick Hlast Hp Hre He Hrc Hc Hside.
  unfold ExchangeClient.calculate_position_pnl, ExchangeClient.position_pnl.
  rewrite Hsym; cbn. rewrite Htick; cbn. rewrite Hlast; cbn.
  rewrite Hre; cbn. rewrite He; cbn. rewrite Hrc; cbn. rewrite Hc; cbn.
  rewrite Hside; cbn. rewrite Hp; cbn.
  split; intros ->; reflexivity.
Qed.

(** The case of [test_calculate_position_pnl]: entry 50000, 0.01 contracts,
    last price 50500, long. *)
Lemma calculate_position_pnl_formula_witness :
  (VStr "long" = VStr "long" ->
   ExchangeClient.calculate_position_pnl Examples.float_of_str Examples.testnet
     Examples.btc_long
   = PrimFloat.mul (PrimFloat.sub 50500 50000) 0.01) /\
  (VStr "long" = VStr "short" ->
   ExchangeClient.calculate_position_pnl Examples.float_of_str Examples.testnet
     Examples.btc_long
   = PrimFloat.mul (PrimFloat.sub 50000 50500) 0.01).
Proof.
  apply (calculate_position_pnl_formula Examples.float_of_str Examples.testnet
           Examples.btc_long (VStr "BTC/USDT") (VDict {["last" := VInt 50500]})
           (VInt 50500) (VStr "50000") (VStr "0.01") (VStr "long"));
    vm_compute; reflexivity.
Defined.

(** The repository's test case evaluates to 5.0. *)
Example calculate_position_pnl_test :
  ExchangeClient.calculate_position_pnl Examples.float_of_str Examples.testnet
    Examples.btc_long = 5%float.
Proof. vm_compute. reflexivity. Qed.

(* --------------------------------------------------------------------- *)
(** ** The position monitor                                              *)
(* --------------------------------------------------------------------- *)

(** Below 1.0 with no open position the answer is [True]; with an open
    position it is [False]. *)
Example check_liquidation_examples :
  let drained := Ccxt.mk (Ok (VDict {["total" := VDict {["USDT" := VFloat 0.5]}]}))
              (Ok []) (Ccxt.fetch_ticker Examples.unreachable)
              (Ccxt.create_order Examples.unreachable)
              (Ccxt.sapi_post_convert_getquote Examples.unreachable)
              (Ccxt.sapi_post_convert_acceptquote Examples.unreachable)
              (Ccxt.withdraw Examples.unreachable)
              (Ccxt.set_leverage Examples.unreachable)
              (Ccxt.set_margin_mode Examples.unreachable) in
  PositionMonitor.check_liquidation Examples.float_of_str drained = true /\
  PositionMonitor.check_liquidation Examples.float_of_str Examples.testnet = false.
Proof. vm_compute. split; reflexivity. Qed.

Section MonitorLoop.
Variable float_of_str : string -> option float.
#[local] Abbreviation loop := (PositionMonitor._monitor_loop float_of_str).
#[local] Abbreviation justified := (PositionMonitor.justified float_of_str).
#[local] Abbreviation perform_all := PositionMonitor.perform_all.

Lemma perform_all_app cs cs' m :
  perform_all (cs ++ cs') m = perform_all cs' (perform_all cs m).
Proof. apply fold_left_app. Qed.

(** While the flag is set, [start_monitoring] does nothing. *)
Lemma perform_all_running cs m :
  PositionMonitor.monitoring m = true ->
  forallb PositionMonitor.is_start cs = true ->
  perform_all cs m = m.
Proof.
  intros Hm. induction cs as [|c cs IH]; [done|].
  cbn [forallb]. intros [Hc Hcs]%andb_true_iff.
  destruct c as [symbol threshold|]; [|done].
  cbn. unfold PositionMonitor.start_monitoring. rewrite Hm. cbn. by apply IH.
Qed.

(** Every call leaves the flag as its kind says. *)
Lemma perform_flag c m :
  PositionMonitor.monitoring (PositionMonitor.perform c m)
  = PositionMonitor.is_start c || (PositionMonitor.monitoring m && PositionMonitor.is_start c).
Proof.
  destruct c as [symbol threshold|]; cbn.
  - unfold PositionMonitor.start_monitoring.
    by destruct (PositionMonitor.monitoring m) eqn:Hm.
  - by rewrite andb_false_r.
Qed.

Lemma perform_all_stop_last cs m :
  last cs = Some PositionMonitor.Stop ->
  PositionMonitor.monitoring (perform_all cs m) = false.
Proof.
  destruct cs as [|c cs] using rev_ind; [done|].
  rewrite last_snoc. intros [= ->]. by rewrite perform_all_app.
Qed.

(** The flag is set after the calls only if it was set before or one of
    them is a start. *)
Lemma perform_all_flag cs m :
  ((if PositionMonitor.monitoring (perform_all cs m) then 1 else 0)
   <= (if PositionMonitor.monitoring m then 1 else 0)
      + length (List.filter PositionMonitor.is_start cs))%nat.
Proof.
  revert m. induction cs as [|c cs IH]; intros m; [cbn; lia|].
  cbn [PositionMonitor.perform_all fold_left List.filter].
  specialize (IH (PositionMonitor.perform c m)).
  unfold perform_all in IH. rewrite perform_flag in IH.
  destruct (PositionMonitor.is_start c), (PositionMonitor.monitoring m);
    cbn [orb andb length] in *; lia.
Qed.

(** With the flag cleared, and no start among the calls of other threads,
    the worker leaves the loop at once. *)
Lemma _monitor_loop_stopped polls m :
  PositionMonitor.monitoring m = false ->
  Forall (fun p => List.filter PositionMonitor.is_start (PositionMonitor.others p) = [])
    polls ->
  snd (loop polls m) = [] /\ PositionMonitor.monitoring (fst (loop polls m)) = false.
Proof.
  intros Hm Hpolls. destruct polls as [|p rest]; [done|].
  apply Forall_cons in Hpolls as [Hp _].
  cbn [PositionMonitor._monitor_loop].
  pose proof (perform_all_flag (PositionMonitor.others p) m) as Hflag.
  rewrite Hm, Hp in Hflag.
  destruct (PositionMonitor.monitoring (perform_all _ m)) eqn:Hafter;
    [cbn in Hflag; lia|].
  cbn. by rewrite Hafter.
Qed.

Lemma justified_weaken p polls e :
  justified polls e -> justified (p :: polls) e.
Proof.
  destruct e as [|position pnl at_call]; [done|].
  cbn. intros (Hf & Hle & q & Hin & Hpos & Hpnl).
  split; [done|]. split; [done|]. exists q. split; [by right|done].
Qed.

(** Every invocation is justified, whatever the callback and the other
    threads do to the monitor. *)
Lemma _monitor_loop_justified polls m :
  Forall (justified polls) (snd (loop polls m)).
Proof.
  revert m. induction polls as [|p rest IH]; intros m; [constructor|].
  assert (Hrest : forall m', Forall (justified (p :: rest)) (snd (loop rest m'))).
  { intros m'. eapply Forall_impl; [apply IH|]. intros e. apply justified_weaken. }
  cbn [PositionMonitor._monitor_loop].
  set (m1 := perform_all (PositionMonitor.others p) m).
  destruct (negb (PositionMonitor.monitoring m1)); [constructor|].
  destruct (negb (Py.truthy _)).
  { specialize (Hrest m1). destruct (loop rest m1) as [m' evs].
    by constructor. }
  destruct (PrimFloat.leb _ _) eqn:Hle.
  - assert (Hcall : justified (p :: rest)
              (PositionMonitor.Signal
                 (PositionMonitor.monitored_position float_of_str
                    (PositionMonitor.exchange p) m1)
                 (ExchangeClient.calculate_position_pnl float_of_str
                    (PositionMonitor.exchange p)
                    (PositionMonitor.monitored_position float_of_str
                       (PositionMonitor.exchange p) m1))
                 (PositionMonitor.set_monitoring false m1))).
    { cbn. split; [done|]. split; [done|]. exists p. by split; [left|]. }
    cbn [PositionMonitor.set_monitoring PositionMonitor.on_profit_reached].
    destruct (PositionMonitor.on_profit_reached m1); [|constructor].
    destruct (PositionMonitor.callback_raises p).
    + match goal with
      | |- context [loop rest ?m2] =>
          specialize (Hrest m2); destruct (loop rest m2) as [m' evs]
      end.
      constructor; [exact Hcall|]. by constructor.
    + constructor; [exact Hcall|constructor].
  - specialize (Hrest m1). destruct (loop rest m1) as [m' evs].
    by constructor.
Qed.

(** One invocation for the session the worker was started for, and one
    more for each later start at most. *)
Lemma _monitor_loop_signals polls m :
  (length (PositionMonitor.signals (snd (loop polls m)))
   <= (if PositionMonitor.monitoring m then 1 else 0)
      + list_sum (List.map PositionMonitor.starts polls))%nat.
Proof.
  revert m. induction polls as [|p rest IH]; intros m; [cbn; lia|].
  cbn [PositionMonitor._monitor_loop List.map].
  change (list_sum (PositionMonitor.starts p :: List.map PositionMonitor.starts rest))
    with (PositionMonitor.starts p
          + list_sum (List.map PositionMonitor.starts rest))%nat.
  unfold PositionMonitor.starts at 1.
  pose proof (perform_all_flag (PositionMonitor.others p) m) as Hothers.
  set (total := list_sum (List.map PositionMonitor.starts rest)) in *.
  set (m1 := perform_all (PositionMonitor.others p) m) in *.
  destruct (PositionMonitor.monitoring m1) eqn:Hm1; cbn [negb];
    [|cbn [snd PositionMonitor.signals List.filter length]; lia].
  destruct (negb (Py.truthy _)).
  { specialize (IH m1). rewrite Hm1 in IH.
    destruct (loop rest m1) as [m' evs].
    cbn [snd PositionMonitor.signals List.filter PositionMonitor.is_signal] in *.
    lia. }
  destruct (PrimFloat.leb _ _).
  - cbn [PositionMonitor.set_monitoring PositionMonitor.on_profit_reached].
    destruct (PositionMonitor.on_profit_reached m1);
      [|cbn [snd PositionMonitor.signals List.filter length]; lia].
    destruct (PositionMonitor.callback_raises p);
      [|cbn [snd PositionMonitor.signals List.filter PositionMonitor.is_signal
               length]; lia].
    match goal with
    | |- context [loop rest ?m2] =>
        specialize (IH m2);
        pose proof (perform_all_flag (PositionMonitor.callback_calls p)
                      (PositionMonitor.set_monitoring false m1)) as Hcb;
        destruct (loop rest m2) as [m' evs]
    end.
    change (PositionMonitor.monitoring (PositionMonitor.set_monitoring false m1))
      with false in Hcb.
    cbn [snd PositionMonitor.signals List.filter PositionMonitor.is_signal
           length PositionMonitor.monitoring] in *.
    lia.
  - specialize (IH m1). rewrite Hm1 in IH.
    destruct (loop rest m1) as [m' evs].
    cbn [snd PositionMonitor.signals List.filter PositionMonitor.is_signal] in *.
    lia.
Qed.

End MonitorLoop.

Section MonitorRuns.
Variable float_of_str : string -> option float.
#[local] Abbreviation run := (PositionMonitor._monitor_loop float_of_str).
#[local] Abbreviation quiet := (Says.quiet float_of_str).
#[local] Abbreviation reaching := (Says.reaching float_of_str).

(** On a turn before which no other thread cleared the flag, a running
    worker finds the monitor as it left it. *)
Lemma undisturbed_turn m p :
  PositionMonitor.monitoring m = true ->
  PositionMonitor.disturbed p = false ->
  PositionMonitor.perform_all (PositionMonitor.others p) m = m.
Proof.
  intros Hm Hp. apply perform_all_running; [done|].
  unfold PositionMonitor.disturbed in Hp. by apply negb_false_iff in Hp.
Qed.

(** A quiet turn costs one sleep and changes nothing. *)
Lemma _monitor_loop_quiet_turn m p rest :
  PositionMonitor.monitoring m = true ->
  quiet m p = true ->
  run (p :: rest) m = (fst (run rest m), PositionMonitor.Sleep :: snd (run rest m)).
Proof.
  intros Hm. unfold Says.quiet.
  intros [Hstop Hq]%andb_true_iff. apply negb_true_iff in Hstop.
  cbn [PositionMonitor._monitor_loop].
  rewrite (undisturbed_turn m p Hm Hstop), Hm. cbn [negb].
  apply orb_true_iff in Hq as [Hnone|Hbelow].
  - rewrite Hnone. by destruct (run rest m).
  - destruct (negb (Py.truthy _)); [by destruct (run rest m)|].
    apply negb_true_iff in Hbelow. rewrite Hbelow. by destruct (run rest m).
Qed.

Lemma _monitor_loop_quiet_prefix m quiet_polls rest :
  PositionMonitor.monitoring m = true ->
  forallb (quiet m) quiet_polls = true ->
  run (quiet_polls ++ rest) m
  = (fst (run rest m),
     repeat PositionMonitor.Sleep (length quiet_polls) ++ snd (run rest m)).
Proof.
  intros Hm. induction quiet_polls as [|p polls IH]; cbn [forallb].
  - intros _. cbn [app length repeat]. by destruct (run rest m).
  - intros [Hp Hrest]%andb_true_iff. cbn [app length repeat].
    rewrite _monitor_loop_quiet_turn by done.
    rewrite (IH Hrest). reflexivity.
Qed.

(** A turn on which the threshold is reached: the flag is cleared, the
    callback is invoked, and the worker goes on from what the callback
    made of the monitor only when the callback raised. *)
Lemma _monitor_loop_reaching_turn m p rest :
  PositionMonitor.monitoring m = true ->
  PositionMonitor.on_profit_reached m = true ->
  reaching m p = true ->
  let position :=
    PositionMonitor.monitored_position float_of_str (PositionMonitor.exchange p) m in
  let pnl :=
    ExchangeClient.calculate_position_pnl float_of_str
      (PositionMonitor.exchange p) position in
  let cleared := PositionMonitor.set_monitoring false m in
  let left := PositionMonitor.perform_all (PositionMonitor.callback_calls p) cleared in
  run (p :: rest) m =
    if PositionMonitor.callback_raises p
    then (fst (run rest left),
          PositionMonitor.Signal position pnl cleared
            :: PositionMonitor.Sleep :: snd (run rest left))
    else (left, [PositionMonitor.Signal position pnl cleared]).
Proof.
  intros Hm Hcb Hreach position pnl cleared left.
  unfold Says.reaching in Hreach. fold position in Hreach. fold pnl in Hreach.
  apply andb_true_iff in Hreach as [Hstop Hreach].
  apply andb_true_iff in Hreach as [Hfound Hle].
  apply negb_true_iff in Hstop.
  cbn [PositionMonitor._monitor_loop].
  rewrite (undisturbed_turn m p Hm Hstop), Hm. cbn [negb].
  fold position. rewrite Hfound. cbn [negb]. fold pnl. rewrite Hle.
  fold cleared.
  change (PositionMonitor.on_profit_reached cleared)
    with (PositionMonitor.on_profit_reached m).
  rewrite Hcb. fold left.
  destruct (PositionMonitor.callback_raises p); [|done].
  by destruct (run rest left).
Qed.

End MonitorRuns.

(** C2, against the code.  The worker clears the flag before it invokes
    the callback, but the callback can set it again: the callback of the
    program restarts the trading cycle, which calls [start_monitoring].
    When such a callback then raises, the handler of the loop sends the
    same worker back to the [while] test, which finds the flag set; on the
    next turn on which the threshold in force is reached the worker
    invokes the callback a second time. *)
Theorem monitor_signals_again_after_restart
    (float_of_str : string -> option float) (m : PositionMonitor.t)
    (p1 p2 : PositionMonitor.poll) (rest : list PositionMonitor.poll)
    (symbol : string) (threshold : float) :
  PositionMonitor.monitoring m = true ->
  PositionMonitor.on_profit_reached m = true ->
  Says.reaching float_of_str m p1 = true ->
  PositionMonitor.callback_calls p1 = [PositionMonitor.Start symbol threshold] ->
  PositionMonitor.callback_raises p1 = true ->
  let cleared := PositionMonitor.set_monitoring false m in
  let restarted := fst (PositionMonitor.start_monitoring symbol threshold cleared) in
  Says.reaching float_of_str restarted p2 = true ->
  let position1 :=
    PositionMonitor.monitored_position float_of_str (PositionMonitor.exchange p1) m in
  let pnl1 :=
    ExchangeClient.calculate_position_pnl float_of_str
      (PositionMonitor.exchange p1) position1 in
  let position2 :=
    PositionMonitor.monitored_position float_of_str (PositionMonitor.exchange p2)
      restarted in
  let pnl2 :=
    ExchangeClient.calculate_position_pnl float_of_str
      (PositionMonitor.exchange p2) position2 in
  let events :=
    snd (PositionMonitor._monitor_loop float_of_str (p1 :: p2 :: rest) m) in
  PositionMonitor.monitoring restarted = true /\
  (exists after,
     events =
       PositionMonitor.Signal position1 pnl1 cleared
         :: PositionMonitor.Sleep
         :: PositionMonitor.Signal position2 pnl2
              (PositionMonitor.set_monitoring false restarted)
         :: after) /\
  (2 <= length (PositionMonitor.signals events))%nat.
Proof.
  intros Hm Hcb Hreach1 Hcalls Hraises cleared restarted Hreach2
    position1 pnl1 position2 pnl2 events.
  assert (Hflag : PositionMonitor.monitoring restarted = true) by done.
  assert (Hcb2 : PositionMonitor.on_profit_reached restarted = true) by done.
  split; [done|].
  assert (Hev : exists after,
     events =
       PositionMonitor.Signal position1 pnl1 cleared
         :: PositionMonitor.Sleep
         :: PositionMonitor.Signal position2 pnl2
              (PositionMonitor.set_monitoring false restarted)
         :: after).
  { subst events.
    rewrite (_monitor_loop_reaching_turn float_of_str m p1 (p2 :: rest) Hm Hcb Hreach1).
    cbn zeta. rewrite Hraises, Hcalls.
    change (PositionMonitor.perform_all [PositionMonitor.Start symbol threshold]
              (PositionMonitor.set_monitoring false m)) with restarted.
    rewrite (_monitor_loop_reaching_turn float_of_str restarted p2 rest
               Hflag Hcb2 Hreach2).
    cbn zeta. fold position1 pnl1 position2 pnl2 cleared.
    destruct (PositionMonitor.callback_raises p2); cbn [snd]; eauto. }
  split; [exact Hev|]. destruct Hev as [after ->].
  cbn. lia.
Qed.

(** The session of the tests: the threshold of 5.0 is reached, the
    callback starts monitoring again and raises, and the threshold is
    reached again on the next turn. *)
Lemma monitor_signals_again_after_restart_witness :
  let m := fst (PositionMonitor.start_monitoring "BTC/USDT" 5 PositionMonitor.init) in
  let p1 := PositionMonitor.mkPoll [] Examples.testnet
              [PositionMonitor.Start "BTC/USDT" 5] true in
  let p2 := PositionMonitor.mkPoll [] Examples.testnet [] false in
  let cleared := PositionMonitor.set_monitoring false m in
  let restarted := fst (PositionMonitor.start_monitoring "BTC/USDT" 5 cleared) in
  let position1 :=
    PositionMonitor.monitored_position Examples.float_of_str
      (PositionMonitor.exchange p1) m in
  let pnl1 :=
    ExchangeClient.calculate_position_pnl Examples.float_of_str
      (PositionMonitor.exchange p1) position1 in
  let position2 :=
    PositionMonitor.monitored_position Examples.float_of_str
      (PositionMonitor.exchange p2) restarted in
  let pnl2 :=
    ExchangeClient.calculate_position_pnl Examples.float_of_str
      (PositionMonitor.exchange p2) position2 in
  let events :=
    snd (PositionMonitor._monitor_loop Examples.float_of_str (p1 :: p2 :: []) m) in
  PositionMonitor.monitoring restarted = true /\
  (exists after,
     events =
       PositionMonitor.Signal position1 pnl1 cleared
         :: PositionMonitor.Sleep
         :: PositionMonitor.Signal position2 pnl2
              (PositionMonitor.set_monitoring false restarted)
         :: after) /\
  (2 <= length (PositionMonitor.signals events))%nat.
Proof.
  intros m p1 p2.
  apply (monitor_signals_again_after_restart Examples.float_of_str m p1 p2 []
           "BTC/USDT" 5);
    vm_compute; reflexivity.
Defined.


(* --------------------------------------------------------------------- *)
(** ** The state manager: rules for reading a method                     *)
(* --------------------------------------------------------------------- *)

Section WpRules.
Import StateManager.
Context {A B : Type}.
Implicit Types (Q : A -> t -> Prop) (E : exn -> t -> Prop) (s : t).

Lemma wp_ret (a : A) Q E s : Q a s -> wp (mret a) Q E s.
Proof. done. Qed.

Lemma wp_bind (m : M A) (k : A -> M B) (R : B -> t -> Prop) E s :
  wp m (fun a s' => wp (k a) R E s') E s -> wp (m ≫= k) R E s.
Proof.
  unfold wp, mbind, M_bind. destruct (m s) as [[a|e] s']; done.
Qed.

Lemma wp_try (body : M A) (handler : exn -> M A) Q E s :
  wp body Q (fun e s' => wp (handler e) Q E s') s -> wp (try_ body handler) Q E s.
Proof.
  unfold wp, try_. destruct (body s) as [[a|e] s']; done.
Qed.

Lemma wp_try_returns (body : M A) (handler : exn -> M A) Q E s :
  wp body Q (fun _ _ => False) s -> wp (try_ body handler) Q E s.
Proof.
  unfold wp, try_. destruct (body s) as [[a|e] s']; done.
Qed.

Lemma wp_mono (m : M A) Q Q' E E' s :
  wp m Q E s ->
  (forall a s', Q a s' -> Q' a s') ->
  (forall e s', E e s' -> E' e s') ->
  wp m Q' E' s.
Proof.
  unfold wp. destruct (m s) as [[a|e] s']; auto.
Qed.

Lemma wp_lift (r : result A) Q E s :
  match r with Ok a => Q a s | Raise e => E e s end -> wp (lift r) Q E s.
Proof. done. Qed.

Lemma wp_with_db (op : DatabaseManager.t -> result A * DatabaseManager.t) Q E s :
  match op (db s) with
  | (Ok a, d) => Q a (set_db d s)
  | (Raise e, d) => E e (set_db d s)
  end ->
  wp (with_db op) Q E s.
Proof.
  unfold wp, with_db. destruct (op (db s)) as [[a|e] d]; done.
Qed.

End WpRules.

Section WpState.
Import StateManager.
Implicit Types (E : exn -> t -> Prop) (s : t).

Lemma wp_get (Q : t -> t -> Prop) E s : Q s s -> wp get Q E s.
Proof. done. Qed.

Lemma wp_modify (f : t -> t) (Q : unit -> t -> Prop) E s :
  Q () (f s) -> wp (modify f) Q E s.
Proof. done. Qed.

Lemma wp_emit (r : log_record) (Q : unit -> t -> Prop) E s :
  Q () (set_log (r :: log s) s) -> wp (emit r) Q E s.
Proof. done. Qed.

Lemma wp_now (Q : datetime -> t -> Prop) E s :
  Q (clock s (ticks s)) (set_ticks (S (ticks s)) s) -> wp now Q E s.
Proof. done. Qed.

Lemma same_attributes_refl s : same_attributes s s.
Proof. done. Qed.

End WpState.

Section StateManagerFacts.
Import StateManager.

(** Saving never raises and leaves every attribute as it was. *)
Lemma _save_state_returns s :
  returns _save_state s (fun _ s' => same_attributes s s').
Proof.
  unfold returns, _save_state.
  apply wp_try, wp_bind, wp_get, wp_bind, wp_lift.
  destruct (match trading_config s with Some _ => _ | None => _ end) as [config|e].
  2: { by apply wp_emit. }
  apply wp_bind, wp_lift.
  destruct (dumps_if_truthy (active_position s)) as [position|e].
  2: { by apply wp_emit. }
  apply wp_bind, wp_now, wp_with_db.
  unfold DatabaseManager.save_bot_state, same_attributes, attributes; cbn.
  destruct (DatabaseManager.available (db s)) eqn:Hav; cbn; by rewrite ?Hav.
Qed.

(** [set_state] never raises: the state becomes the requested one, the
    change is logged, and nothing else changes. *)
Lemma set_state_returns n s :
  returns (set_state n) s (fun _ s' =>
    attributes s' =
      (n, trading_config s, active_position s, last_closed_position s,
       trade_history s, clock s, DatabaseManager.available (db s),
       transitions (log s) ++ [(current_state s, n)])).
Proof.
  unfold returns, set_state.
  apply wp_bind, wp_get, wp_bind, wp_modify, wp_bind, wp_emit.
  eapply wp_mono; [apply _save_state_returns| |done].
  intros [] s' ->. reflexivity.
Qed.

(** Reading a [returns] fact as an equation. *)
Lemma returns_inv {A} (m : M A) s (Q : A -> t -> Prop) :
  returns m s Q -> exists a s', m s = (Ok a, s') /\ Q a s'.
Proof.
  unfold returns, wp. destruct (m s) as [[a|e] s']; [eauto|done].
Qed.

(** [auto_reset] never raises; it goes to [RESETTING] and then to [IDLE],
    resets the configuration and drops the pending record. *)
Lemma auto_reset_returns s :
  returns auto_reset s (fun _ s' =>
    attributes s' =
      (BotState.IDLE, TradingConfig.reset <$> trading_config s,
       active_position s, VNone, trade_history s, clock s,
       DatabaseManager.available (db s),
       transitions (log s)
         ++ [(current_state s, BotState.RESETTING);
             (BotState.RESETTING, BotState.IDLE)])).
Proof.
  unfold returns, auto_reset.
  apply wp_bind, wp_emit, wp_bind.
  eapply wp_mono; [apply set_state_returns| |done].
  intros [] s1 H1. cbn in H1.
  apply wp_bind, wp_modify, wp_bind, wp_modify, wp_bind.
  eapply wp_mono; [apply set_state_returns| |done].
  intros [] s2 H2. cbn in H2.
  apply wp_emit. unfold attributes in *. cbn in *.
  injection H1 as E1 E2 E3 E4 E5 E6 E7 E8.
  rewrite H2, E1, E2, E3, E5, E6, E7, E8, <- app_assoc. reflexivity.
Qed.

(** With an active position and a database that answers,
    [position_closed] returns: the record is built, the position cleared
    and the state [CONVERTING]. *)
Lemma position_closed_returns s position close_data profit :
  active_position s = VDict position ->
  DatabaseManager.available (db s) = true ->
  returns (position_closed (VDict close_data) profit) s (fun _ s' =>
    attributes s' =
      (BotState.CONVERTING, trading_config s, VNone,
       VDict (closed_record position close_data profit (clock s (ticks s))),
       trade_history s, clock s, true,
       transitions (log s) ++ [(current_state s, BotState.CONVERTING)])).
Proof.
  intros Hpos Hav. unfold returns, position_closed.
  apply wp_bind, wp_get, wp_bind, wp_lift. rewrite Hpos. cbn [Py.merge].
  apply wp_bind, wp_now, wp_bind, wp_modify, wp_bind, wp_lift. cbn [Py.get].
  apply wp_bind, wp_lift. cbn [Py.get].
  apply wp_bind, wp_now, wp_bind, wp_with_db.
  unfold DatabaseManager.update_trade_status. cbn. rewrite Hav.
  apply wp_bind, wp_modify, wp_bind.
  eapply wp_mono; [apply set_state_returns| |done].
  intros [] s1 H1. apply wp_emit.
  unfold attributes in *. cbn in *. by rewrite H1.
Qed.

(** Without an active position the first step raises and nothing has been
    written. *)
Lemma position_closed_without_position s close_data profit :
  active_position s = VNone ->
  position_closed close_data profit s = (Raise TypeError, s).
Proof.
  intros Hpos. unfold position_closed.
  unfold mbind, M_bind, get, lift. by rewrite Hpos.
Qed.

(** When the database does not answer, the update of the trade raises:
    the position stays and the state is not changed. *)
Lemma position_closed_store_failure s position close_data profit :
  active_position s = VDict position ->
  DatabaseManager.available (db s) = false ->
  exists s',
    position_closed (VDict close_data) profit s = (Raise LibraryError, s') /\
    active_position s' = VDict position /\
    current_state s' = current_state s /\
    last_closed_position s'
      = VDict (closed_record position close_data profit (clock s (ticks s))) /\
    trade_history s' = trade_history s /\
    log s' = log s /\
    db s' = db s.
Proof.
  intros Hpos Hav. unfold position_closed.
  unfold mbind, M_bind, get, lift, now, modify, with_db,
    DatabaseManager.update_trade_status.
  rewrite Hpos. cbn. rewrite Hav. cbn.
  eexists. split; [reflexivity|]. cbn. rewrite Hpos. by repeat split.
Qed.

(** What a successful save leaves in the database. *)
Lemma _save_state_persists s c d :
  trading_config s = Some c ->
  TradingConfig.to_dict c = Ok d ->
  Py.json_ok (VDict d) = true ->
  Py.json_ok (active_position s) = true ->
  DatabaseManager.available (db s) = true ->
  DatabaseManager.get_bot_state (db (snd (_save_state s))) =
    Some (DatabaseManager.mkRow
            (Some (BotState.value (current_state s)))
            (Some (VDict d))
            (if Py.truthy (active_position s) then Some (active_position s)
             else None)
            (Some (DateTime.isoformat (clock s (ticks s))))).
Proof.
  intros Hc Hd Hjson Hpos Hav.
  unfold _save_state, try_, mbind, M_bind, get, lift, now, with_db,
    DatabaseManager.save_bot_state, DatabaseManager.get_bot_state,
    dumps_if_truthy, Py.json_dumps.
  rewrite Hc, Hd. cbn [mbind result_bind]. rewrite Hjson, Hpos.
  cbn [db set_ticks]. rewrite Hav.
  destruct (Py.truthy (active_position s)); reflexivity.
Qed.

(** What a load makes of a row whose state and configuration read back. *)
Lemma _load_state_row s row st doc c :
  DatabaseManager.get_bot_state (db s) = Some row ->
  BotState.of_value (column_value (DatabaseManager.current_state row)) = Ok st ->
  DatabaseManager.trading_config row = Some doc ->
  TradingConfig.from_dict doc = Ok c ->
  current_state (snd (_load_state s)) = st /\
  trading_config (snd (_load_state s)) = Some c.
Proof.
  intros Hrow Hst Hdoc Hc.
  unfold _load_state, try_, mbind, M_bind, get, lift, modify, emit.
  rewrite Hrow, Hst. cbn. rewrite Hdoc, Hc. cbn.
  by destruct (DatabaseManager.active_position row).
Qed.

(** A record with an entry is a true value. *)
Lemma truthy_insert (k : string) (v : PyVal) (d : gmap string PyVal) :
  Py.truthy (VDict (<[k := v]> d)) = true.
Proof.
  cbn [Py.truthy]. rewrite bool_decide_eq_false_2; [done|].
  apply insert_non_empty.
Qed.

Lemma attach_returns key v s r :
  last_closed_position s = VDict r ->
  Py.truthy (VDict r) = true ->
  returns (attach key v) s (fun _ s' =>
    s' = set_last_closed_position (VDict (<[key := v]> r)) s).
Proof.
  intros Hlast Htrue. unfold returns, attach.
  apply wp_bind, wp_get. rewrite Hlast, Htrue. by apply wp_modify.
Qed.

(** Without a pending record [attach] does nothing. *)
Lemma attach_nothing key v s :
  last_closed_position s = VNone ->
  returns (attach key v) s (fun _ s' => s' = s).
Proof.
  intros Hlast. unfold returns, attach.
  apply wp_bind, wp_get. rewrite Hlast. by apply wp_ret.
Qed.

Lemma conversion_completed_returns s r conversion :
  last_closed_position s = VDict r ->
  Py.truthy (VDict r) = true ->
  returns (conversion_completed conversion) s (fun _ s' =>
    attributes s' =
      (BotState.WITHDRAWING, trading_config s, active_position s,
       VDict (<["conversion" := conversion]> r), trade_history s, clock s,
       DatabaseManager.available (db s),
       transitions (log s) ++ [(current_state s, BotState.WITHDRAWING)])).
Proof.
  intros Hlast Htrue. unfold returns, conversion_completed.
  apply wp_bind.
  eapply wp_mono; [by apply attach_returns| |done].
  intros [] s1 ->. apply wp_bind.
  eapply wp_mono; [apply set_state_returns| |done].
  intros [] s2 H2. apply wp_emit.
  unfold attributes in *. cbn in *. by rewrite H2.
Qed.

(** [withdrawal_completed] appends the pending record, with the
    withdrawal attached, and resets. *)
Lemma withdrawal_completed_returns s r withdrawal :
  last_closed_position s = VDict r ->
  Py.truthy (VDict r) = true ->
  returns (withdrawal_completed withdrawal) s (fun _ s' =>
    attributes s' =
      (BotState.IDLE, TradingConfig.reset <$> trading_config s,
       active_position s, VNone,
       trade_history s ++ [VDict (<["withdrawal" := withdrawal]> r)], clock s,
       DatabaseManager.available (db s),
       transitions (log s)
         ++ [(current_state s, BotState.RESETTING);
             (BotState.RESETTING, BotState.IDLE)])).
Proof.
  intros Hlast Htrue. unfold returns, withdrawal_completed.
  apply wp_bind.
  eapply wp_mono; [by apply attach_returns| |done].
  intros [] s1 ->. apply wp_bind, wp_modify.
  eapply wp_mono; [apply auto_reset_returns| |done].
  intros [] s2 H2. unfold attributes in *. cbn in *. by rewrite H2.
Qed.

End StateManagerFacts.

(* --------------------------------------------------------------------- *)
(** ** The state manager: the main results                               *)
(* --------------------------------------------------------------------- *)

(** C6.  [can_open_position] holds exactly in the states [IDLE] and
    [RESETTING]. *)
Theorem can_open_position_iff (s : StateManager.t) :
  StateManager.can_open_position s = true <->
  StateManager.current_state s = BotState.IDLE \/
  StateManager.current_state s = BotState.RESETTING.
Proof.
  unfold StateManager.can_open_position.
  rewrite bool_decide_eq_true, !elem_of_cons, elem_of_nil. tauto.
Qed.

(** C5.  From every state and with every configuration, [auto_reset]
    returns without raising, having passed through [RESETTING] and ended in
    [IDLE]; the configuration, when there is one, keeps its static fields
    and has its entry price and opening time set to [None]; the pending
    closed-position record is [None]. *)
Theorem auto_reset_ends_idle (s : StateManager.t) :
  exists s',
    StateManager.auto_reset s = (Ok (), s') /\
    StateManager.current_state s' = BotState.IDLE /\
    StateManager.transitions (StateManager.log s')
      = StateManager.transitions (StateManager.log s)
          ++ [(StateManager.current_state s, BotState.RESETTING);
              (BotState.RESETTING, BotState.IDLE)] /\
    StateManager.trading_config s'
      = TradingConfig.reset <$> StateManager.trading_config s /\
    (forall c, StateManager.trading_config s' = Some c ->
       TradingConfig.entry_price c = VNone /\
       TradingConfig.position_opened_at c = VNone) /\
    StateManager.last_closed_position s' = VNone /\
    StateManager.active_position s' = StateManager.active_position s /\
    StateManager.trade_history s' = StateManager.trade_history s.
Proof.
  destruct (returns_inv _ _ _ (auto_reset_returns s)) as ([] & s' & Hrun & Hs').
  exists s'. unfold StateManager.attributes in Hs'.
  injection Hs' as Hst Hcfg Hpos Hlast Hhist _ _ Htr.
  split; [done|]. split; [done|]. split; [done|]. split; [done|].
  split; [|done].
  intros c Hc. rewrite Hcfg in Hc.
  destruct (StateManager.trading_config s) as [c0|]; [|done].
  cbn in Hc. injection Hc as <-. done.
Qed.

(** C10, as the code has it.  [position_closed] needs an active position:
    with [active_position] equal to [None] it raises a [TypeError] before
    anything is written; with an active position and a database that
    accepts the update of the trade record it returns, having cleared
    [active_position], built the closed-position record and moved to
    [CONVERTING].  An active position is not enough: when the database
    does not accept the update, the exception of the database leaves the
    method after the record was built, with the position still active, the
    state and its log unchanged, and nothing written to the database or
    the history. *)
Theorem position_closed_needs_active_position
    (s : StateManager.t) (close_data : gmap string PyVal) (profit : float) :
  (StateManager.active_position s = VNone ->
   StateManager.position_closed (VDict close_data) profit s = (Raise TypeError, s)) /\
  (forall position,
     StateManager.active_position s = VDict position ->
     DatabaseManager.available (StateManager.db s) = true ->
     exists s',
       StateManager.position_closed (VDict close_data) profit s = (Ok (), s') /\
       StateManager.active_position s' = VNone /\
       StateManager.current_state s' = BotState.CONVERTING /\
       StateManager.last_closed_position s'
       = VDict (StateManager.closed_record position close_data profit
                  (StateManager.clock s (StateManager.ticks s)))) /\
  (forall position,
     StateManager.active_position s = VDict position ->
     DatabaseManager.available (StateManager.db s) = false ->
     exists s',
       StateManager.position_closed (VDict close_data) profit s
         = (Raise LibraryError, s') /\
       StateManager.active_position s' = VDict position /\
       StateManager.current_state s' = StateManager.current_state s /\
       StateManager.last_closed_position s'
       = VDict (StateManager.closed_record position close_data profit
                  (StateManager.clock s (StateManager.ticks s))) /\
       StateManager.trade_history s' = StateManager.trade_history s /\
       StateManager.log s' = StateManager.log s /\
       StateManager.db s' = StateManager.db s).
Proof.
  split; [|split].
  - apply position_closed_without_position.
  - intros position Hpos Hav.
    destruct (returns_inv _ _ _
                (position_closed_returns s position close_data profit Hpos Hav))
      as ([] & s' & Hrun & Hs').
    exists s'. unfold StateManager.attributes in Hs'.
    injection Hs' as ? ? ? ? ? ? ? ?. by repeat split.
  - intros position. apply position_closed_store_failure.
Qed.

(** C9.  Take a manager whose configuration is well formed, whose active
    position (if any) is data JSON can carry, and whose database accepts
    the write.  After [_save_state], a manager started on that database
    ([__init__], which runs [_load_state]) has a configuration equal to the
    original in all eight fields and the same state value. *)
Theorem snapshot_round_trip
    (s : StateManager.t) (c : TradingConfig.t) (clk : nat -> datetime) (ticks0 : nat) :
  StateManager.trading_config s = Some c ->
  TradingConfig.well_formed c = true ->
  Py.json_ok (StateManager.active_position s) = true ->
  DatabaseManager.available (StateManager.db s) = true ->
  let saved := snd (StateManager._save_state s) in
  let restarted := StateManager.init (StateManager.db saved) clk ticks0 in
  StateManager.trading_config restarted = Some c /\
  StateManager.current_state restarted = StateManager.current_state s.
Proof.
  intros Hc Hwf Hpos Hav saved restarted.
  destruct (from_dict_to_dict c Hwf) as (d & Hd & Hjson & Hback).
  pose proof (_save_state_persists s c d Hc Hd Hjson Hpos Hav) as Hrow.
  subst restarted saved. unfold StateManager.init.
  edestruct (_load_state_row
               (StateManager.mk (StateManager.db (snd (StateManager._save_state s)))
                  BotState.IDLE None VNone VNone [] clk ticks0 []))
    as [Hst Hcfg]; [exact Hrow|apply BotState_of_value|reflexivity|exact Hback|].
  by split.
Qed.

(** The manager of the examples, monitoring the position of the tests. *)
Lemma snapshot_round_trip_witness :
  let restarted :=
    StateManager.init
      (StateManager.db (snd (StateManager._save_state Examples.monitoring)))
      (fun _ => Examples.noon) 7 in
  StateManager.trading_config restarted
    = StateManager.trading_config Examples.monitoring /\
  StateManager.current_state restarted = BotState.MONITORING.
Proof.
  destruct (StateManager.trading_config Examples.monitoring) as [c|] eqn:Hc;
    [|vm_compute in Hc; discriminate].
  apply (snapshot_round_trip Examples.monitoring c (fun _ => Examples.noon) 7 Hc).
  - vm_compute in Hc. injection Hc as <-. vm_compute. reflexivity.
  - vm_compute. reflexivity.
  - vm_compute. reflexivity.
Defined.

(** C10, as stated, fails: an active position is present, but the database
    does not accept the update of the trade record; [position_closed]
    raises, the position is still there and the state has not changed. *)
Lemma position_closed_active_position_not_enough :
  let s := Examples.offline Examples.monitoring in
  StateManager.active_position s = Examples.btc_long /\
  fst (StateManager.position_closed Examples.close_order 50.5 s)
    = Raise LibraryError /\
  StateManager.active_position
    (snd (StateManager.position_closed Examples.close_order 50.5 s))
    = Examples.btc_long /\
  StateManager.current_state
    (snd (StateManager.position_closed Examples.close_order 50.5 s))
    = BotState.MONITORING.
Proof. vm_compute. by repeat split. Qed.

(** The manager of the examples closes the position of the tests. *)
Lemma position_closed_needs_active_position_witness :
  exists s',
    StateManager.position_closed (VDict Examples.close_order_fields) 50.5
      Examples.monitoring = (Ok (), s') /\
    StateManager.active_position s' = VNone /\
    StateManager.current_state s' = BotState.CONVERTING /\
    StateManager.last_closed_position s'
    = VDict (StateManager.closed_record Examples.btc_long_fields
               Examples.close_order_fields 50.5
               (StateManager.clock Examples.monitoring
                  (StateManager.ticks Examples.monitoring))).
Proof.
  apply (proj1 (proj2 (position_closed_needs_active_position Examples.monitoring
                         Examples.close_order_fields 50.5))
           Examples.btc_long_fields);
    vm_compute; reflexivity.
Defined.

(* --------------------------------------------------------------------- *)
(** ** The pipeline after a profit signal                                *)
(* --------------------------------------------------------------------- *)

Section PipelineFacts.
Import StateManager.
Variable float_of_str : string -> option float.
Variable settings : Settings.t.

(** The conversion step returns in every case; only a conversion with a
    result touches the manager. *)
Lemma _execute_conversion_returns w position s r :
  last_closed_position s = VDict r ->
  Py.truthy (VDict r) = true ->
  let conversion :=
    ConversionManager.auto_convert_after_close float_of_str settings
      (TradingBot.at_settlement w) (TradingBot.at_conversion w) position in
  returns (TradingBot._execute_conversion float_of_str settings w position) s
    (fun _ s' =>
       if Py.truthy conversion then
         attributes s' =
           (BotState.WITHDRAWING, trading_config s, active_position s,
            VDict (<["conversion" := conversion]> r), trade_history s, clock s,
            DatabaseManager.available (db s),
            transitions (log s) ++ [(current_state s, BotState.WITHDRAWING)])
       else s' = s).
Proof.
  intros Hlast Htrue conversion.
  unfold returns, TradingBot._execute_conversion. fold conversion.
  apply wp_try. destruct (Py.truthy conversion); [|by apply wp_ret].
  apply wp_bind.
  eapply wp_mono; [by apply conversion_completed_returns| |done].
  intros [] s1 H1. apply wp_bind, wp_lift.
  destruct (EmailNotifier.send_conversion_completed _ _); by apply wp_emit.
Qed.

(** The withdrawal step returns in every case; only a withdrawal with a
    result appends to the history, and it resets the manager. *)
Lemma _execute_withdrawal_returns w s r :
  last_closed_position s = VDict r ->
  Py.truthy (VDict r) = true ->
  let withdrawal :=
    WithdrawalManager.auto_withdraw_after_conversion float_of_str settings
      (TradingBot.at_withdrawal w) (Settings.CONVERT_TO_CRYPTO settings) in
  returns (TradingBot._execute_withdrawal float_of_str settings w) s
    (fun _ s' =>
       if Py.truthy withdrawal then
         attributes s' =
           (BotState.IDLE, TradingConfig.reset <$> trading_config s,
            active_position s, VNone,
            trade_history s ++ [VDict (<["withdrawal" := withdrawal]> r)],
            clock s, DatabaseManager.available (db s),
            transitions (log s)
              ++ [(current_state s, BotState.RESETTING);
                  (BotState.RESETTING, BotState.IDLE)])
       else s' = s).
Proof.
  intros Hlast Htrue withdrawal.
  unfold returns, TradingBot._execute_withdrawal. fold withdrawal.
  apply wp_try. destruct (Py.truthy withdrawal); [|by apply wp_ret].
  apply wp_bind.
  eapply wp_mono; [by apply withdrawal_completed_returns| |done].
  intros [] s1 H1. apply wp_bind, wp_lift.
  destruct (EmailNotifier.send_withdrawal_success _ _); by apply wp_emit.
Qed.

(** A run of the callback whose close succeeds: it returns, the manager is
    [IDLE] with nothing pending, and the history has grown by the record of
    the cycle exactly when the withdrawal gave a result. *)
Lemma _on_profit_reached_returns w running position profit s pos order sent :
  active_position s = VDict pos ->
  DatabaseManager.available (db s) = true ->
  OrderExecutor.execute_profit_close float_of_str (TradingBot.at_close w)
    position profit = Ok (VDict order) ->
  Py.truthy (VDict order) = true ->
  EmailNotifier.send_position_closed_alert (TradingBot.notifier w)
    position profit = Ok sent ->
  let conversion :=
    ConversionManager.auto_convert_after_close float_of_str settings
      (TradingBot.at_settlement w) (TradingBot.at_conversion w) position in
  let withdrawal :=
    WithdrawalManager.auto_withdraw_after_conversion float_of_str settings
      (TradingBot.at_withdrawal w) (Settings.CONVERT_TO_CRYPTO settings) in
  returns
    (TradingBot._on_profit_reached float_of_str settings w running position profit)
    s
    (fun restart s' =>
       restart = running /\
       current_state s' = BotState.IDLE /\
       last_closed_position s' = VNone /\
       exists closed_at,
         let pending := closed_record pos order profit closed_at in
         let kept := if Py.truthy conversion
                     then <["conversion" := conversion]> pending
                     else pending in
         trade_history s' =
           trade_history s ++
             (if Py.truthy withdrawal
              then [VDict (<["withdrawal" := withdrawal]> kept)]
              else [])).
Proof.
  intros Hpos Hav Hclose Horder Hsent conversion withdrawal.
  unfold returns, TradingBot._on_profit_reached.
  apply wp_try_returns, wp_bind.
  eapply wp_mono; [apply set_state_returns| |done].
  intros [] s1 H1. unfold attributes in H1.
  injection H1 as _ _ Hpos1 _ Hhist1 _ Hav1 _.
  apply wp_bind, wp_lift. rewrite Hclose, Horder.
  apply wp_bind.
  eapply wp_mono;
    [apply (position_closed_returns s1 pos order profit); congruence| |done].
  intros [] s2 H2. unfold attributes in H2.
  injection H2 as _ _ Hpos2 Hlast2 Hhist2 _ Hav2 _.
  apply wp_bind, wp_lift. rewrite Hsent.
  apply wp_bind.
  eapply wp_mono;
    [apply (_execute_conversion_returns w position s2 _ Hlast2);
     apply truthy_insert| |done].
  intros [] s3 H3. fold conversion in H3.
  set (pending := closed_record pos order profit (clock s1 (ticks s1))) in *.
  set (kept := if Py.truthy conversion
               then <["conversion" := conversion]> pending else pending).
  assert (last_closed_position s3 = VDict kept /\
                trade_history s3 = trade_history s /\
                Py.truthy (VDict kept) = true) as (Hlast3 & Hhist3 & Hkept).
  { subst kept. destruct (Py.truthy conversion).
    - unfold attributes in H3. injection H3 as _ _ _ Hl Hh _ _ _.
      split; [done|]. split; [congruence|]. apply truthy_insert.
    - subst s3. split; [done|]. split; [congruence|]. apply truthy_insert. }
  apply wp_bind.
  eapply wp_mono;
    [apply (_execute_withdrawal_returns w s3 kept Hlast3 Hkept)| |done].
  intros [] s4 H4. fold withdrawal in H4.
  apply wp_bind.
  eapply wp_mono; [apply auto_reset_returns| |done].
  intros [] s5 H5. unfold attributes in H5.
  injection H5 as Hst5 _ _ Hlast5 Hhist5 _ _ _.
  apply wp_bind, wp_emit, wp_ret. cbn.
  split; [done|]. split; [done|]. split; [done|].
  exists (clock s1 (ticks s1)). cbn zeta. fold pending. fold kept.
  rewrite Hhist5. destruct (Py.truthy withdrawal).
  - unfold attributes in H4. injection H4 as _ _ _ _ Hh _ _ _.
    rewrite Hh, Hhist3. reflexivity.
  - subst s4. by rewrite Hhist3, app_nil_r.
Qed.

End PipelineFacts.



(** In that cycle the history gets its one entry, with the withdrawal and
    without a conversion. *)
Example pipeline_with_withdrawal :
  let s' := snd (TradingBot._on_profit_reached Examples.float_of_str
                   Examples.withdrawing Examples.live_world true Examples.held 0.5
                   Examples.tracking) in
  exists entry,
    StateManager.trade_history s' = [VDict entry] /\
    entry !! "withdrawal" = Some (VDict {["id" := VStr "wd123"]}) /\
    entry !! "conversion" = None /\
    entry !! "profit" = Some (VFloat 0.5).
Proof. vm_compute. eexists. by repeat split. Qed.

(** The close notification formats the entry price with two decimals: it
    is built for the position of the integration test, and raises for the
    position of the unit test, whose entry price is a string. *)
Example position_closed_alert_formats_numbers :
  EmailNotifier.send_position_closed_alert Examples.mailer Examples.held 0.5
    = Ok true /\
  EmailNotifier.send_position_closed_alert Examples.mailer Examples.btc_long 50.5
    = Raise ValueError.
Proof. split; reflexivity. Qed.


(* ===================================================================== *)
(** * Further properties of the modelled code                            *)
(* ===================================================================== *)

(* --------------------------------------------------------------------- *)
(** ** The exchange client                                               *)
(* --------------------------------------------------------------------- *)

Section ExchangeClientFacts.
Variable float_of_str : string -> option float.
#[local] Abbreviation size_readable := (Says.size_readable float_of_str).
#[local] Abbreviation is_open := (Says.is_open float_of_str).

Lemma nonzero_size_filter (positions : list PyVal) :
  (forallb size_readable positions = true ->
   ExchangeClient.nonzero_size float_of_str positions
   = Ok (List.filter is_open positions)) /\
  (forallb size_readable positions = false ->
   raises (ExchangeClient.nonzero_size float_of_str positions) = true).
Proof.
  induction positions as [|pos rest [IHok IHbad]]; [done|].
  cbn [forallb List.filter ExchangeClient.nonzero_size].
  unfold Says.size_readable, Says.is_open, Says.contract_size.
  destruct (Py.get pos "contracts" (VInt 0)) as [c|e]; cbn; [|done].
  destruct (Py.float float_of_str c) as [f|e]; cbn; [|done].
  split.
  - intros Hrest. rewrite (IHok Hrest). cbn.
    by destruct (PrimFloat.ltb 0 f).
  - intros Hrest. specialize (IHbad Hrest).
    by destruct (ExchangeClient.nonzero_size float_of_str rest).
Qed.

Lemma first_with_symbol_found symbol positions pos :
  ExchangeClient.first_with_symbol symbol positions = Ok pos ->
  pos = VNone \/
  (In pos positions /\
   exists s, Py.getitem pos "symbol" = Ok s /\ Py.eq_str s symbol = true).
Proof.
  induction positions as [|p rest IH]; cbn.
  - intros [= <-]. by left.
  - destruct (Py.getitem p "symbol") as [s|e] eqn:Hs; cbn; [|done].
    destruct (Py.eq_str s symbol) eqn:Heq.
    + intros [= <-]. right. split; [by left|]. eauto.
    + intros Hrest. destruct (IH Hrest) as [->|(Hin & Hsym)]; [by left|].
      right. split; [by right|done].
Qed.

End ExchangeClientFacts.

(** [get_open_positions], read as a filter over the fetched positions. *)
Lemma get_open_positions_as_filter
    (float_of_str : string -> option float) (ex : Ccxt.t) :
  ExchangeClient.get_open_positions float_of_str ex =
  match Ccxt.fetch_positions ex with
  | Ok fetched =>
      if forallb (Says.size_readable float_of_str) fetched
      then Ok (List.filter (Says.is_open float_of_str) fetched)
      else Raise ExchangeError
  | Raise _ => Raise ExchangeError
  end.
Proof.
  unfold ExchangeClient.get_open_positions.
  destruct (Ccxt.fetch_positions ex) as [fetched|e]; cbn; [|done].
  destruct (nonzero_size_filter float_of_str fetched) as [Hok Hbad].
  destruct (forallb _ fetched).
  - by rewrite Hok.
  - specialize (Hbad eq_refl).
    by destruct (ExchangeClient.nonzero_size float_of_str fetched).
Qed.

(** C7.  Take what the gateway returns: a balance, a dict whose ['total']
    entry (taken as empty when missing) holds under ['USDT'] (0 when
    missing) a value that converts to the float [equity], and a position
    list whose sizes all convert.  [check_liquidation] answers [True]
    exactly when [equity < 1.0] and none of the positions returned is open
    (has a size above zero); an equity equal to 1.0 gives [False]. *)
Theorem check_liquidation_iff
    (float_of_str : string -> option float) (ex : Ccxt.t)
    (balance total raw : PyVal) (fetched : list PyVal) (equity : float) :
  Ccxt.fetch_balance ex = Ok balance ->
  Py.get balance "total" (VDict ∅) = Ok total ->
  Py.get total "USDT" (VInt 0) = Ok raw ->
  Py.float float_of_str raw = Ok equity ->
  Ccxt.fetch_positions ex = Ok fetched ->
  forallb (Says.size_readable float_of_str) fetched = true ->
  let open_positions := List.filter (Says.is_open float_of_str) fetched in
  (PositionMonitor.check_liquidation float_of_str ex = true <->
   PrimFloat.ltb equity 1 = true /\ length open_positions = 0%nat) /\
  (equity = 1%float -> PositionMonitor.check_liquidation float_of_str ex = false).
Proof.
  intros Hbal Htotal Hraw Heq Hpos Hsizes open_positions.
  unfold PositionMonitor.check_liquidation, ExchangeClient.get_account_balance.
  rewrite Hbal; cbn. rewrite get_open_positions_as_filter, Hpos, Hsizes; cbn.
  unfold PositionMonitor.total_equity. rewrite Htotal; cbn. rewrite Hraw; cbn.
  rewrite Heq; cbn. fold open_positions.
  split.
  - rewrite andb_true_iff, Nat.eqb_eq. reflexivity.
  - intros ->. reflexivity.
Qed.

(** An account holding exactly 1.0 USDT, with one position of size zero
    on the list. *)
Lemma check_liquidation_iff_witness :
  let flat := VDict (<["symbol" := VStr "BTC/USDT"]> {["contracts" := VInt 0]}) in
  let ex := Ccxt.mk (Ok (VDict {["total" := VDict {["USDT" := VFloat 1]}]}))
              (Ok [flat]) (Ccxt.fetch_ticker Examples.unreachable)
              (Ccxt.create_order Examples.unreachable)
              (Ccxt.sapi_post_convert_getquote Examples.unreachable)
              (Ccxt.sapi_post_convert_acceptquote Examples.unreachable)
              (Ccxt.withdraw Examples.unreachable)
              (Ccxt.set_leverage Examples.unreachable)
              (Ccxt.set_margin_mode Examples.unreachable) in
  let open_positions := List.filter (Says.is_open Examples.float_of_str) [flat] in
  (PositionMonitor.check_liquidation Examples.float_of_str ex = true <->
   PrimFloat.ltb 1 1 = true /\ length open_positions = 0%nat) /\
  (1%float = 1%float ->
   PositionMonitor.check_liquidation Examples.float_of_str ex = false).
Proof.
  intros flat ex.
  apply (check_liquidation_iff Examples.float_of_str ex
           (VDict {["total" := VDict {["USDT" := VFloat 1]}]})
           (VDict {["USDT" := VFloat 1]}) (VFloat 1) [flat] 1%float);
    vm_compute; reflexivity.
Defined.

(** X1.  [get_open_positions] returns exactly the fetched positions whose
    ['contracts'] (0 when the key is missing) converts to a float above
    zero, in the order fetched; one position whose size cannot be
    converted makes the whole call fail with [ExchangeError], as does a
    failing fetch. *)
Theorem get_open_positions_filters
    (float_of_str : string -> option float) (ex : Ccxt.t) :
  ExchangeClient.get_open_positions float_of_str ex =
  match Ccxt.fetch_positions ex with
  | Ok fetched =>
      if forallb (Says.size_readable float_of_str) fetched
      then Ok (List.filter (Says.is_open float_of_str) fetched)
      else Raise ExchangeError
  | Raise _ => Raise ExchangeError
  end.
Proof. apply get_open_positions_as_filter. Qed.

(** X2.  [get_position_by_symbol] answers [None] or a position that the
    exchange returned, that is open (size above zero) and whose ['symbol']
    equals the symbol asked for. *)
Theorem get_position_by_symbol_sound
    (float_of_str : string -> option float) (ex : Ccxt.t) (symbol : string) :
  let pos := ExchangeClient.get_position_by_symbol float_of_str ex symbol in
  pos = VNone \/
  exists fetched s,
    Ccxt.fetch_positions ex = Ok fetched /\
    In pos fetched /\
    Says.is_open float_of_str pos = true /\
    Py.getitem pos "symbol" = Ok s /\
    Py.eq_str s symbol = true.
Proof.
  cbn zeta. unfold ExchangeClient.get_position_by_symbol.
  rewrite get_open_positions_as_filter.
  destruct (Ccxt.fetch_positions ex) as [fetched|e]; [|by left].
  destruct (forallb _ fetched); [|by left]. cbn.
  destruct (ExchangeClient.first_with_symbol symbol _) as [pos|e] eqn:Hfirst;
    [|by left].
  cbn. destruct (first_with_symbol_found _ _ _ Hfirst)
    as [->|(Hin & s & Hs & Heq)]; [by left|].
  right. apply List.filter_In in Hin as [Hin Hopen]. eauto 10.
Qed.

(** X3.  Whatever the exchange library does, the methods of the client that
    raise at all raise an [ExchangeError] (for [create_market_order]
    possibly its subclass [InsufficientFundsError]): no exception of the
    library and no [KeyError] or [TypeError] of the client's own code
    escapes. *)
Theorem exchange_client_raises_exchange_errors
    (float_of_str : string -> option float) (ex : Ccxt.t)
    (symbol side asset : string) (amount : float)
    (params position_side address network leverage margin_mode : PyVal) :
  Says.raises_only is_ExchangeError (ExchangeClient.get_account_balance ex) /\
  Says.raises_only is_ExchangeError
    (ExchangeClient.get_open_positions float_of_str ex) /\
  Says.raises_only is_ExchangeError
    (ExchangeClient.create_market_order ex symbol side amount params) /\
  Says.raises_only is_ExchangeError
    (ExchangeClient.close_position float_of_str ex symbol position_side) /\
  Says.raises_only is_ExchangeError
    (ExchangeClient.withdraw_crypto ex asset amount address network) /\
  Says.raises_only is_ExchangeError
    (ExchangeClient.set_leverage ex symbol leverage) /\
  Says.raises_only is_ExchangeError
    (ExchangeClient.set_margin_mode ex symbol margin_mode).
Proof.
  repeat split.
  - unfold ExchangeClient.get_account_balance.
    by destruct (Ccxt.fetch_balance ex).
  - rewrite get_open_positions_as_filter.
    destruct (Ccxt.fetch_positions ex) as [fetched|e]; [|done].
    by destruct (forallb _ fetched).
  - unfold ExchangeClient.create_market_order.
    destruct (_ ≫= _) as [order|[]]; done.
  - unfold ExchangeClient.close_position, try_except.
    by destruct (if negb _ then _ else _).
  - unfold ExchangeClient.withdraw_crypto, try_except.
    by destruct (_ ≫= _).
  - unfold ExchangeClient.set_leverage.
    by destruct (Ccxt.set_leverage ex leverage symbol).
  - unfold ExchangeClient.set_margin_mode.
    by destruct (Ccxt.set_margin_mode ex margin_mode symbol).
Qed.

(** X4.  Closing when the exchange shows no open position of the symbol
    places no order: whatever [create_order] would answer, the result is
    [None]. *)
Theorem close_position_without_position
    (float_of_str : string -> option float) (ex : Ccxt.t) (symbol : string)
    (position_side : PyVal)
    (create_order : string -> string -> float -> PyVal -> result PyVal) :
  ExchangeClient.get_position_by_symbol float_of_str ex symbol = VNone ->
  ExchangeClient.close_position float_of_str
    (Ccxt.mk (Ccxt.fetch_balance ex) (Ccxt.fetch_positions ex)
       (Ccxt.fetch_ticker ex) create_order
       (Ccxt.sapi_post_convert_getquote ex)
       (Ccxt.sapi_post_convert_acceptquote ex) (Ccxt.withdraw ex)
       (Ccxt.set_leverage ex) (Ccxt.set_margin_mode ex))
    symbol position_side = Ok VNone.
Proof.
  intros Hnone. unfold ExchangeClient.close_position.
  change (ExchangeClient.get_position_by_symbol float_of_str _ symbol)
    with (ExchangeClient.get_position_by_symbol float_of_str ex symbol).
  by rewrite Hnone.
Qed.

(** No position of the symbol on an exchange without positions. *)
Lemma close_position_without_position_witness :
  ExchangeClient.close_position Examples.float_of_str
    (Ccxt.mk (Ccxt.fetch_balance Examples.unreachable)
       (Ccxt.fetch_positions Examples.unreachable)
       (Ccxt.fetch_ticker Examples.unreachable)
       (Ccxt.create_order Examples.testnet)
       (Ccxt.sapi_post_convert_getquote Examples.unreachable)
       (Ccxt.sapi_post_convert_acceptquote Examples.unreachable)
       (Ccxt.withdraw Examples.unreachable)
       (Ccxt.set_leverage Examples.unreachable)
       (Ccxt.set_margin_mode Examples.unreachable))
    "BTC/USDT" (VStr "long") = Ok VNone.
Proof.
  apply (close_position_without_position Examples.float_of_str
           Examples.unreachable "BTC/USDT" (VStr "long")
           (Ccxt.create_order Examples.testnet)).
  reflexivity.
Defined.

(** X5.  Closing an open position places one reduce-only market order for
    the absolute size of the position, selling for side ['long'] and
    buying for any other side; when the exchange accepts it and the order
    has an ['id'], that order is the result. *)
Theorem close_position_places_opposite_order
    (float_of_str : string -> option float) (ex : Ccxt.t) (symbol : string)
    (position_side position raw order id : PyVal) (size : float) :
  ExchangeClient.get_position_by_symbol float_of_str ex symbol = position ->
  Py.truthy position = true ->
  Py.getitem position "contracts" = Ok raw ->
  Py.float float_of_str raw = Ok size ->
  Ccxt.create_order ex symbol
    (if Py.eq_str position_side "long" then "sell" else "buy")
    (PrimFloat.abs size) (VDict {["reduceOnly" := VBool true]}) = Ok order ->
  Py.getitem order "id" = Ok id ->
  ExchangeClient.close_position float_of_str ex symbol position_side = Ok order.
Proof.
  intros Hpos Htrue Hraw Hsize Horder Hid.
  unfold ExchangeClient.close_position, ExchangeClient.create_market_order.
  rewrite Hpos, Htrue. cbn [negb]. rewrite Hraw. cbn. rewrite Hsize. cbn.
  rewrite Horder. cbn. rewrite Hid. cbn. by rewrite Hid.
Qed.

(** The position of the tests is closed by the order the test exchange
    returns. *)
Lemma close_position_places_opposite_order_witness :
  ExchangeClient.close_position Examples.float_of_str Examples.testnet
    "BTC/USDT" (VStr "long") = Ok Examples.close_order.
Proof.
  apply (close_position_places_opposite_order Examples.float_of_str
           Examples.testnet "BTC/USDT" (VStr "long") Examples.btc_long
           (VStr "0.01") Examples.close_order (VStr "close123") 0.01);
    vm_compute; reflexivity.
Defined.

(* --------------------------------------------------------------------- *)
(** ** The order executor and the two managers                           *)
(* --------------------------------------------------------------------- *)

(** X6.  Every failure of the order executor surfaces as an
    [OrderExecutionError]: the [ExchangeError] and the
    [InsufficientFundsError] of the client are both replaced by it. *)
Theorem order_executor_raises_order_execution_errors
    (float_of_str : string -> option float) (ex : Ccxt.t) (symbol : string)
    (side position_side leverage margin_mode position : PyVal)
    (quantity profit : float) :
  Says.raises_only Says.is_OrderExecutionError
    (OrderExecutor.open_position ex symbol side quantity leverage margin_mode) /\
  Says.raises_only Says.is_OrderExecutionError
    (OrderExecutor.close_position float_of_str ex symbol position_side) /\
  Says.raises_only Says.is_OrderExecutionError
    (OrderExecutor.execute_profit_close float_of_str ex position profit).
Proof.
  repeat split.
  - unfold OrderExecutor.open_position, try_except. by destruct (_ ≫= _).
  - unfold OrderExecutor.close_position, try_except.
    by destruct (ExchangeClient.close_position _ _ _ _).
  - unfold OrderExecutor.execute_profit_close, try_except. by destruct (_ ≫= _).
Qed.

Section ManagerFacts.
Variable float_of_str : string -> option float.

Lemma has_slash_append (base rest : string) :
  Py.has_slash (String.append base (String "/" rest)) = true.
Proof.
  induction base as [|c base IH]; [done|].
  change (Py.has_slash (String c (String.append base (String "/" rest))) = true).
  cbn [Py.has_slash]. rewrite IH. apply orb_true_r.
Qed.

Lemma before_slash_append (base rest : string) :
  Py.has_slash base = false ->
  Py.before_slash (String.append base (String "/" rest)) = base.
Proof.
  induction base as [|c base IH]; [done|].
  change (Py.has_slash (String c base) = false ->
          Py.before_slash (String c (String.append base (String "/" rest)))
          = String c base).
  cbn [Py.has_slash Py.before_slash].
  intros [Hc Hbase]%orb_false_iff.
  rewrite Hc. f_equal. by apply IH.
Qed.

(** When [execute_withdrawal] gives a result, every guard has passed and
    the result is the answer of the exchange to that withdrawal. *)
Lemma execute_withdrawal_guarded cfg ex asset amount :
  Py.truthy (WithdrawalManager.execute_withdrawal float_of_str cfg ex asset amount)
    = true ->
  Settings.AUTO_WITHDRAW_ENABLED cfg = true /\
  Py.truthy (Settings.WITHDRAWAL_ADDRESS cfg) = true /\
  exists balance available,
    Ccxt.fetch_balance ex = Ok balance /\
    ConversionManager.free_balance float_of_str balance asset = Ok available /\
    PrimFloat.ltb (default available amount) (Settings.MIN_WITHDRAWAL_AMOUNT cfg)
      = false /\
    PrimFloat.ltb available (default available amount) = false /\
    ExchangeClient.withdraw_crypto ex asset (default available amount)
      (Settings.WITHDRAWAL_ADDRESS cfg) (Settings.WITHDRAWAL_NETWORK cfg)
    = Ok (WithdrawalManager.execute_withdrawal float_of_str cfg ex asset amount).
Proof.
  unfold WithdrawalManager.execute_withdrawal,
    ExchangeClient.get_account_balance, try_except.
  destruct (Settings.AUTO_WITHDRAW_ENABLED cfg); cbn [negb]; [|done].
  destruct (Py.truthy (Settings.WITHDRAWAL_ADDRESS cfg)); cbn [negb]; [|done].
  destruct (Ccxt.fetch_balance ex) as [balance|e]; cbn; [|done].
  destruct (ConversionManager.free_balance float_of_str balance asset)
    as [available|e] eqn:Hfree; cbn; [|done].
  destruct (PrimFloat.ltb (default available amount) _) eqn:Hmin; [done|].
  destruct (PrimFloat.ltb available _) eqn:Hle; [done|].
  destruct (ExchangeClient.withdraw_crypto _ _ _ _ _) as [r|e] eqn:Hres; [|done].
  intros _. split; [done|]. split; [done|].
  exists balance, available. by repeat split.
Qed.

End ManagerFacts.

(** X7.  The asset converted after a close is the part of the position's
    symbol before its first ['/']; a symbol without ['/'] is taken to be
    ['BTC']. *)
Theorem base_asset_of_symbol (base rest plain : string) :
  Py.has_slash base = false ->
  Py.has_slash plain = false ->
  ConversionManager.base_asset_of (VStr (String.append base (String "/" rest)))
    = Ok base /\
  ConversionManager.base_asset_of (VStr plain) = Ok "BTC"%string.
Proof.
  intros Hbase Hplain. unfold ConversionManager.base_asset_of.
  rewrite has_slash_append, before_slash_append, Hplain by done. done.
Qed.

(** ['BTC/USDT'] gives ['BTC'], and so does ['ETHUSDT']. *)
Lemma base_asset_of_symbol_witness :
  ConversionManager.base_asset_of (VStr "BTC/USDT") = Ok "BTC"%string /\
  ConversionManager.base_asset_of (VStr "ETHUSDT") = Ok "BTC"%string.
Proof.
  apply (base_asset_of_symbol "BTC" "USDT" "ETHUSDT"); reflexivity.
Defined.

(** X8.  The automatic withdrawal gives a result only when withdrawals are
    enabled, an address is configured, the balance could be read, and the
    free balance of the asset is not below the minimum; the amount
    withdrawn is then the whole free balance, and the result is the answer
    of the exchange (which carries an ['id']). *)
Theorem auto_withdraw_is_guarded
    (float_of_str : string -> option float) (cfg : Settings.t) (ex : Ccxt.t)
    (asset : string) :
  Py.truthy
    (WithdrawalManager.auto_withdraw_after_conversion float_of_str cfg ex asset)
    = true ->
  Settings.AUTO_WITHDRAW_ENABLED cfg = true /\
  Py.truthy (Settings.WITHDRAWAL_ADDRESS cfg) = true /\
  exists balance available,
    Ccxt.fetch_balance ex = Ok balance /\
    ConversionManager.free_balance float_of_str balance asset = Ok available /\
    PrimFloat.ltb available (Settings.MIN_WITHDRAWAL_AMOUNT cfg) = false /\
    ExchangeClient.withdraw_crypto ex asset available
      (Settings.WITHDRAWAL_ADDRESS cfg) (Settings.WITHDRAWAL_NETWORK cfg)
    = Ok (WithdrawalManager.auto_withdraw_after_conversion float_of_str cfg ex
            asset).
Proof.
  unfold WithdrawalManager.auto_withdraw_after_conversion.
  destruct (Settings.AUTO_WITHDRAW_ENABLED cfg) eqn:Hen; cbn [negb]; [|done].
  intros Htrue.
  destruct (execute_withdrawal_guarded float_of_str cfg ex asset None Htrue)
    as (_ & Haddr & balance & available & Hbal & Hfree & Hmin & _ & Hres).
  split; [done|]. split; [done|]. exists balance, available. by repeat split.
Qed.

(** The funded exchange of the examples: 100 USDT free, minimum 10. *)
Lemma auto_withdraw_is_guarded_witness :
  Settings.AUTO_WITHDRAW_ENABLED Examples.withdrawing = true /\
  Py.truthy (Settings.WITHDRAWAL_ADDRESS Examples.withdrawing) = true /\
  exists balance available,
    Ccxt.fetch_balance Examples.funded = Ok balance /\
    ConversionManager.free_balance Examples.float_of_str balance "USDT"
      = Ok available /\
    PrimFloat.ltb available (Settings.MIN_WITHDRAWAL_AMOUNT Examples.withdrawing)
      = false /\
    ExchangeClient.withdraw_crypto Examples.funded "USDT" available
      (Settings.WITHDRAWAL_ADDRESS Examples.withdrawing)
      (Settings.WITHDRAWAL_NETWORK Examples.withdrawing)
    = Ok (WithdrawalManager.auto_withdraw_after_conversion Examples.float_of_str
            Examples.withdrawing Examples.funded "USDT").
Proof.
  apply (auto_withdraw_is_guarded Examples.float_of_str Examples.withdrawing
           Examples.funded "USDT").
  vm_compute. reflexivity.
Defined.

(** X9.  The automatic conversion gives a result only when conversions are
    enabled, the base asset could be read off the position's symbol, its
    free balance after the settlement wait is above zero and has not
    dropped below that amount when the conversion starts; the amount
    converted is that free balance, into the configured target asset, and
    the result is what [convert_crypto] returned. *)
Theorem auto_convert_is_guarded
    (float_of_str : string -> option float) (cfg : Settings.t) (ex ex' : Ccxt.t)
    (position : PyVal) :
  Py.truthy
    (ConversionManager.auto_convert_after_close float_of_str cfg ex ex' position)
    = true ->
  Settings.AUTO_CONVERT_ENABLED cfg = true /\
  exists symbol base balance amount balance' available,
    Py.get position "symbol" (VStr "") = Ok symbol /\
    ConversionManager.base_asset_of symbol = Ok base /\
    Ccxt.fetch_balance ex = Ok balance /\
    ConversionManager.free_balance float_of_str balance base = Ok amount /\
    PrimFloat.leb amount 0 = false /\
    Ccxt.fetch_balance ex' = Ok balance' /\
    ConversionManager.free_balance float_of_str balance' base = Ok available /\
    PrimFloat.ltb available amount = false /\
    ExchangeClient.convert_crypto ex' base (Settings.CONVERT_TO_CRYPTO cfg) amount
    = Ok (ConversionManager.auto_convert_after_close float_of_str cfg ex ex'
            position).
Proof.
  unfold ConversionManager.auto_convert_after_close,
    ConversionManager.execute_conversion, ExchangeClient.get_account_balance,
    try_except.
  destruct (Settings.AUTO_CONVERT_ENABLED cfg); cbn [negb]; [|done].
  destruct (Py.get position "symbol" (VStr "")) as [symbol|e] eqn:Hsym;
    cbn; [|done].
  destruct (ConversionManager.base_asset_of symbol) as [base|e] eqn:Hbase;
    cbn; [|done].
  destruct (Ccxt.fetch_balance ex) as [balance|e] eqn:Hbal; cbn; [|done].
  destruct (ConversionManager.free_balance float_of_str balance base)
    as [amount|e] eqn:Hamount; cbn; [|done].
  destruct (PrimFloat.leb amount 0) eqn:Hpos; [done|].
  destruct (Ccxt.fetch_balance ex') as [balance'|e] eqn:Hbal'; cbn; [|done].
  destruct (ConversionManager.free_balance float_of_str balance' base)
    as [available|e] eqn:Havail; cbn; [|done].
  destruct (PrimFloat.ltb available amount) eqn:Hle; [done|].
  destruct (ExchangeClient.convert_crypto ex' base _ amount) as [r|e] eqn:Hres;
    [|done].
  intros _. split; [done|].
  exists symbol, base, balance, amount, balance', available. by repeat split.
Qed.

(** Two free BTC are converted on the exchange of the examples. *)
Lemma auto_convert_is_guarded_witness :
  Settings.AUTO_CONVERT_ENABLED Examples.withdrawing = true /\
  exists symbol base balance amount balance' available,
    Py.get Examples.btc_long "symbol" (VStr "") = Ok symbol /\
    ConversionManager.base_asset_of symbol = Ok base /\
    Ccxt.fetch_balance Examples.holding_btc = Ok balance /\
    ConversionManager.free_balance Examples.float_of_str balance base = Ok amount /\
    PrimFloat.leb amount 0 = false /\
    Ccxt.fetch_balance Examples.holding_btc = Ok balance' /\
    ConversionManager.free_balance Examples.float_of_str balance' base
      = Ok available /\
    PrimFloat.ltb available amount = false /\
    ExchangeClient.convert_crypto Examples.holding_btc base
      (Settings.CONVERT_TO_CRYPTO Examples.withdrawing) amount
    = Ok (ConversionManager.auto_convert_after_close Examples.float_of_str
            Examples.withdrawing Examples.holding_btc Examples.holding_btc
            Examples.btc_long).
Proof.
  apply (auto_convert_is_guarded Examples.float_of_str Examples.withdrawing
           Examples.holding_btc Examples.holding_btc Examples.btc_long).
  vm_compute. reflexivity.
Defined.

(* --------------------------------------------------------------------- *)
(** ** The position monitor                                              *)
(* --------------------------------------------------------------------- *)

(** X10.  A balance that carries no ['total'] entry counts as an equity of
    zero: with no open position, [check_liquidation] reports a
    liquidation. *)
Theorem check_liquidation_missing_total
    (float_of_str : string -> option float) (ex : Ccxt.t)
    (balance : gmap string PyVal) :
  Ccxt.fetch_balance ex = Ok (VDict balance) ->
  balance !! "total" = None ->
  ExchangeClient.get_open_positions float_of_str ex = Ok [] ->
  PositionMonitor.check_liquidation float_of_str ex = true.
Proof.
  intros Hbal Htotal Hpos.
  unfold PositionMonitor.check_liquidation, ExchangeClient.get_account_balance,
    PositionMonitor.total_equity.
  rewrite Hbal. cbn. rewrite Hpos, Htotal. reflexivity.
Qed.

(** The balance of [test_get_account_balance], which has no ['total'], on an
    account without positions. *)
Lemma check_liquidation_missing_total_witness :
  PositionMonitor.check_liquidation Examples.float_of_str
    (Ccxt.mk (Ok (VDict {["USDT" := VDict {["free" := VInt 100]}]})) (Ok [])
       (Ccxt.fetch_ticker Examples.unreachable)
       (Ccxt.create_order Examples.unreachable)
       (Ccxt.sapi_post_convert_getquote Examples.unreachable)
       (Ccxt.sapi_post_convert_acceptquote Examples.unreachable)
       (Ccxt.withdraw Examples.unreachable)
       (Ccxt.set_leverage Examples.unreachable)
       (Ccxt.set_margin_mode Examples.unreachable)) = true.
Proof.
  apply (check_liquidation_missing_total Examples.float_of_str _
           {["USDT" := VDict {["free" := VInt 100]}]});
    vm_compute; reflexivity.
Defined.

(** X11.  A liquidation is reported only on what the exchange did answer:
    the balance and the positions were fetched, no position is open, and
    the USDT total converts to a float below 1.0.  A fetch that fails, or a
    total that does not convert, is never reported as a liquidation. *)
Theorem check_liquidation_sound
    (float_of_str : string -> option float) (ex : Ccxt.t) :
  PositionMonitor.check_liquidation float_of_str ex = true ->
  exists balance equity,
    Ccxt.fetch_balance ex = Ok balance /\
    ExchangeClient.get_open_positions float_of_str ex = Ok [] /\
    PositionMonitor.total_equity float_of_str balance = Ok equity /\
    PrimFloat.ltb equity 1 = true.
Proof.
  unfold PositionMonitor.check_liquidation, ExchangeClient.get_account_balance.
  destruct (Ccxt.fetch_balance ex) as [balance|e] eqn:Hbal; cbn; [|done].
  destruct (ExchangeClient.get_open_positions float_of_str ex)
    as [positions|e] eqn:Hpos; cbn; [|done].
  destruct (PositionMonitor.total_equity float_of_str balance)
    as [equity|e] eqn:Hequity; cbn; [|done].
  intros [Hlt Hlen]%andb_true_iff.
  destruct positions; [|done].
  exists balance, equity. by repeat split.
Qed.

(** An account without a ['total'] entry and without positions. *)
Lemma check_liquidation_sound_witness :
  let ex := Ccxt.mk (Ok (VDict {["USDT" := VDict {["free" := VInt 100]}]}))
              (Ok []) (Ccxt.fetch_ticker Examples.unreachable)
              (Ccxt.create_order Examples.unreachable)
              (Ccxt.sapi_post_convert_getquote Examples.unreachable)
              (Ccxt.sapi_post_convert_acceptquote Examples.unreachable)
              (Ccxt.withdraw Examples.unreachable)
              (Ccxt.set_leverage Examples.unreachable)
              (Ccxt.set_margin_mode Examples.unreachable) in
  exists balance equity,
    Ccxt.fetch_balance ex = Ok balance /\
    ExchangeClient.get_open_positions Examples.float_of_str ex = Ok [] /\
    PositionMonitor.total_equity Examples.float_of_str balance = Ok equity /\
    PrimFloat.ltb equity 1 = true.
Proof.
  intros ex. apply (check_liquidation_sound Examples.float_of_str ex).
  vm_compute. reflexivity.
Defined.



(** X12.  A worker that is running with a callback sees any number of
    quiet turns and then a turn on which the PnL reaches the threshold: it
    sleeps once per quiet turn, clears the flag, and invokes the callback
    once with the position and the PnL of that turn.  When the callback
    returns, the run ends there, whatever the callback did to the monitor.
    When the callback raises, the handler sleeps and the worker goes on
    with the remaining turns from the monitor as the callback left it: if
    that has the flag clear and no other thread starts monitoring again,
    nothing follows and the flag is clear when the run ends. *)
Theorem monitor_fires_when_threshold_reached
    (float_of_str : string -> option float) (m : PositionMonitor.t)
    (quiet_polls rest : list PositionMonitor.poll) (p : PositionMonitor.poll) :
  PositionMonitor.monitoring m = true ->
  PositionMonitor.on_profit_reached m = true ->
  forallb (Says.quiet float_of_str m) quiet_polls = true ->
  Says.reaching float_of_str m p = true ->
  let position :=
    PositionMonitor.monitored_position float_of_str (PositionMonitor.exchange p) m in
  let pnl :=
    ExchangeClient.calculate_position_pnl float_of_str
      (PositionMonitor.exchange p) position in
  let cleared := PositionMonitor.set_monitoring false m in
  let left := PositionMonitor.perform_all (PositionMonitor.callback_calls p) cleared in
  let sleeps := repeat PositionMonitor.Sleep (length quiet_polls) in
  let call := PositionMonitor.Signal position pnl cleared in
  let outcome :=
    PositionMonitor._monitor_loop float_of_str (quiet_polls ++ p :: rest) m in
  outcome =
    (if PositionMonitor.callback_raises p
     then (fst (PositionMonitor._monitor_loop float_of_str rest left),
           sleeps ++ call :: PositionMonitor.Sleep
             :: snd (PositionMonitor._monitor_loop float_of_str rest left))
     else (left, sleeps ++ [call])) /\
  (PositionMonitor.monitoring left = false ->
   Forall (fun q => List.filter PositionMonitor.is_start (PositionMonitor.others q) = [])
     rest ->
   snd outcome =
     sleeps ++ call
       :: (if PositionMonitor.callback_raises p then [PositionMonitor.Sleep] else [])
   /\ PositionMonitor.monitoring (fst outcome) = false).
Proof.
  intros Hm Hcb Hquiet Hreach position pnl cleared left sleeps call outcome.
  assert (Hout : outcome =
    (if PositionMonitor.callback_raises p
     then (fst (PositionMonitor._monitor_loop float_of_str rest left),
           sleeps ++ call :: PositionMonitor.Sleep
             :: snd (PositionMonitor._monitor_loop float_of_str rest left))
     else (left, sleeps ++ [call]))).
  { subst outcome. rewrite _monitor_loop_quiet_prefix by done.
    rewrite (_monitor_loop_reaching_turn float_of_str m p rest Hm Hcb Hreach).
    cbn zeta. fold position pnl cleared left call sleeps.
    by destruct (PositionMonitor.callback_raises p). }
  split; [exact Hout|].
  intros Hleft Hrest. rewrite Hout.
  destruct (PositionMonitor.callback_raises p); [|done].
  destruct (_monitor_loop_stopped float_of_str rest left Hleft Hrest)
    as [Hnil Hflag].
  cbn [fst snd]. by rewrite Hnil.
Qed.

(** A session started on the exchange of the tests with a threshold of
    5.0, the PnL of the position there: the threshold is inclusive.  The
    callback raises without touching the monitor; no other thread
    interferes. *)
Lemma monitor_fires_when_threshold_reached_witness :
  let m := fst (PositionMonitor.start_monitoring "BTC/USDT" 5 PositionMonitor.init) in
  let p := PositionMonitor.mkPoll [] Examples.testnet [] true in
  let idle := PositionMonitor.mkPoll [] Examples.unreachable [] false in
  let position :=
    PositionMonitor.monitored_position Examples.float_of_str
      (PositionMonitor.exchange p) m in
  let pnl :=
    ExchangeClient.calculate_position_pnl Examples.float_of_str
      (PositionMonitor.exchange p) position in
  let cleared := PositionMonitor.set_monitoring false m in
  let left := PositionMonitor.perform_all (PositionMonitor.callback_calls p) cleared in
  let sleeps := repeat PositionMonitor.Sleep (length [idle; idle]) in
  let call := PositionMonitor.Signal position pnl cleared in
  let outcome :=
    PositionMonitor._monitor_loop Examples.float_of_str ([idle; idle] ++ p :: [p; p]) m in
  outcome =
    (if PositionMonitor.callback_raises p
     then (fst (PositionMonitor._monitor_loop Examples.float_of_str [p; p] left),
           sleeps ++ call :: PositionMonitor.Sleep
             :: snd (PositionMonitor._monitor_loop Examples.float_of_str [p; p] left))
     else (left, sleeps ++ [call])) /\
  (PositionMonitor.monitoring left = false ->
   Forall (fun q => List.filter PositionMonitor.is_start (PositionMonitor.others q) = [])
     [p; p] ->
   snd outcome =
     sleeps ++ call
       :: (if PositionMonitor.callback_raises p then [PositionMonitor.Sleep] else [])
   /\ PositionMonitor.monitoring (fst outcome) = false).
Proof.
  intros m p idle.
  apply (monitor_fires_when_threshold_reached Examples.float_of_str m
           [idle; idle] [p; p] p);
    vm_compute; reflexivity.
Defined.

(** X13.  A stop request ends the session without a signal: after any
    number of quiet turns, the turn that finds the flag cleared by
    [stop_monitoring] ends the run; the events are the sleeps of the quiet
    turns, the callback is not invoked, and no later turn is looked at,
    even one on which the threshold would be reached. *)
Theorem monitor_stop_ends_session
    (float_of_str : string -> option float) (m : PositionMonitor.t)
    (quiet_polls rest : list PositionMonitor.poll) (p : PositionMonitor.poll) :
  PositionMonitor.monitoring m = true ->
  forallb (Says.quiet float_of_str m) quiet_polls = true ->
  PositionMonitor.stop_requested p = true ->
  let outcome :=
    PositionMonitor._monitor_loop float_of_str (quiet_polls ++ p :: rest) m in
  snd outcome = repeat PositionMonitor.Sleep (length quiet_polls) /\
  PositionMonitor.signals (snd outcome) = [] /\
  PositionMonitor.monitoring (fst outcome) = false.
Proof.
  intros Hm Hquiet Hstop outcome. subst outcome.
  rewrite _monitor_loop_quiet_prefix by done. cbn [fst snd].
  assert (Hflag : PositionMonitor.monitoring
                    (PositionMonitor.perform_all (PositionMonitor.others p) m)
                  = false).
  { apply perform_all_stop_last. unfold PositionMonitor.stop_requested in Hstop.
    by destruct (last (PositionMonitor.others p)) as [[]|]. }
  cbn [PositionMonitor._monitor_loop]. rewrite Hflag. cbn.
  rewrite app_nil_r. split; [done|]. split; [|done].
  unfold PositionMonitor.signals.
  induction (length quiet_polls) as [|n IH]; [done|]. exact IH.
Qed.

(** The session of the previous example, stopped before the turn on which
    the threshold is reached. *)
Lemma monitor_stop_ends_session_witness :
  let m := fst (PositionMonitor.start_monitoring "BTC/USDT" 5 PositionMonitor.init) in
  let reach := PositionMonitor.mkPoll [] Examples.testnet [] false in
  let stop := PositionMonitor.mkPoll [PositionMonitor.Stop] Examples.testnet [] false in
  let idle := PositionMonitor.mkPoll [] Examples.unreachable [] false in
  let outcome :=
    PositionMonitor._monitor_loop Examples.float_of_str ([idle] ++ stop :: [reach]) m in
  snd outcome = repeat PositionMonitor.Sleep (length [idle]) /\
  PositionMonitor.signals (snd outcome) = [] /\
  PositionMonitor.monitoring (fst outcome) = false.
Proof.
  intros m reach stop idle.
  apply (monitor_stop_ends_session Examples.float_of_str m [idle] [reach] stop);
    vm_compute; reflexivity.
Defined.

(* --------------------------------------------------------------------- *)
(** ** The state manager                                                 *)
(* --------------------------------------------------------------------- *)

(** X14.  [BotState(v)] and [.value] are inverse to each other: a value is
    accepted exactly when it is the string of a member, and that member is
    the result. *)
Theorem BotState_of_value_iff (v : PyVal) (st : BotState.t) :
  BotState.of_value v = Ok st <-> v = VStr (BotState.value st).
Proof.
  split.
  - unfold BotState.of_value.
    destruct (List.find _ BotState.members) as [st'|] eqn:Hfind; [|done].
    intros [= <-]. apply List.find_some in Hfind as [_ Heq].
    destruct v as [| | | |s| | |]; try done.
    cbn in Heq. by apply String.eqb_eq in Heq as ->.
  - intros ->. by destruct st.
Qed.

Section StateManagerRuns.
Import StateManager.

(** [set_state] is the save of the manager with the new state and the
    logged change. *)
Lemma set_state_unfold n s :
  set_state n s
  = _save_state (set_log (StateChanged (current_state s) n :: log s)
                   (set_current_state n s)).
Proof. reflexivity. Qed.

(** Saving writes to table [bot_state] only. *)
Lemma _save_state_tables s :
  DatabaseManager.trades (db (snd (_save_state s)))
    = DatabaseManager.trades (db s) /\
  DatabaseManager.error_logs (db (snd (_save_state s)))
    = DatabaseManager.error_logs (db s).
Proof.
  unfold _save_state, try_, mbind, M_bind, get, lift, now, with_db,
    DatabaseManager.save_bot_state.
  destruct (match trading_config s with Some _ => _ | None => _ end); [|done].
  destruct (dumps_if_truthy (active_position s)); [|done].
  cbn. by destruct (DatabaseManager.available (db s)).
Qed.

Lemma set_state_returns_tables n s :
  returns (set_state n) s (fun _ s' =>
    attributes s' =
      (n, trading_config s, active_position s, last_closed_position s,
       trade_history s, clock s, DatabaseManager.available (db s),
       transitions (log s) ++ [(current_state s, n)]) /\
    DatabaseManager.trades (db s') = DatabaseManager.trades (db s) /\
    DatabaseManager.error_logs (db s') = DatabaseManager.error_logs (db s)).
Proof.
  pose proof (set_state_returns n s) as Hattr.
  pose proof (_save_state_tables
                (set_log (StateChanged (current_state s) n :: log s)
                   (set_current_state n s))) as Htables.
  rewrite <- set_state_unfold in Htables.
  unfold returns, wp in *.
  by destruct (set_state n s) as [[[]|e] s'].
Qed.

(** Saving on a database that does not answer leaves the database as it
    was. *)
Lemma _save_state_offline s :
  DatabaseManager.available (db s) = false ->
  db (snd (_save_state s)) = db s.
Proof.
  intros Hav.
  unfold _save_state, try_, mbind, M_bind, get, lift, now, with_db,
    DatabaseManager.save_bot_state.
  destruct (match trading_config s with Some _ => _ | None => _ end); [|done].
  destruct (dumps_if_truthy (active_position s)); [|done].
  cbn [db set_ticks]. by rewrite Hav.
Qed.

(** The position a load takes from a row. *)
Lemma _load_state_row_position s row st doc c :
  DatabaseManager.get_bot_state (db s) = Some row ->
  BotState.of_value (column_value (DatabaseManager.current_state row)) = Ok st ->
  DatabaseManager.trading_config row = Some doc ->
  TradingConfig.from_dict doc = Ok c ->
  active_position (snd (_load_state s))
  = default (active_position s) (DatabaseManager.active_position row).
Proof.
  intros Hrow Hst Hdoc Hc.
  unfold _load_state, try_, mbind, M_bind, get, lift, modify, emit.
  rewrite Hrow, Hst. cbn. rewrite Hdoc, Hc. cbn.
  by destruct (DatabaseManager.active_position row).
Qed.

(** A load that meets a configuration it cannot read. *)
Lemma _load_state_bad_config s row st doc e :
  DatabaseManager.get_bot_state (db s) = Some row ->
  BotState.of_value (column_value (DatabaseManager.current_state row)) = Ok st ->
  DatabaseManager.trading_config row = Some doc ->
  TradingConfig.from_dict doc = Raise e ->
  _load_state s
  = (Ok (), set_log (Error "Failed to load state" :: log s)
              (set_current_state st s)).
Proof.
  intros Hrow Hst Hdoc Hc.
  unfold _load_state, try_, mbind, M_bind, get, lift, modify, emit.
  rewrite Hrow, Hst. cbn. by rewrite Hdoc, Hc.
Qed.

Lemma recover_from_error_returns s :
  returns recover_from_error s (fun _ s' =>
    attributes s' =
      (if Py.truthy (active_position s) then BotState.MONITORING
       else BotState.IDLE,
       trading_config s, active_position s, last_closed_position s,
       trade_history s, clock s, DatabaseManager.available (db s),
       transitions (log s)
         ++ [(current_state s,
              if Py.truthy (active_position s) then BotState.MONITORING
              else BotState.IDLE)])).
Proof.
  unfold returns, recover_from_error.
  apply wp_bind, wp_get, wp_bind.
  destruct (Py.truthy (active_position s));
    (eapply wp_mono; [apply set_state_returns| |done]);
    intros [] s1 H1; apply wp_emit; unfold attributes in *; cbn; by rewrite H1.
Qed.

Lemma force_reset_returns s :
  returns force_reset s (fun _ s' =>
    attributes s' =
      (BotState.IDLE, TradingConfig.reset <$> trading_config s, VNone, VNone,
       trade_history s, clock s, DatabaseManager.available (db s),
       transitions (log s))).
Proof.
  unfold returns, force_reset.
  apply wp_bind, wp_modify, wp_bind, wp_modify, wp_bind, wp_modify,
    wp_bind, wp_modify, wp_bind.
  eapply wp_mono; [apply _save_state_returns| |done].
  intros [] s1 H1. apply wp_emit.
  unfold same_attributes, attributes in *. cbn in *. by rewrite H1.
Qed.

End StateManagerRuns.



(** The snapshot stored when the manager of the examples moves to
    [CLOSING_POSITION]. *)
Example set_state_saves_snapshot :
  let s' := snd (StateManager.set_state BotState.CLOSING_POSITION
                   Examples.monitoring) in
  DatabaseManager.current_state
    <$> DatabaseManager.get_bot_state (StateManager.db s')
    = Some (Some "closing_position") /\
  DatabaseManager.active_position
    <$> DatabaseManager.get_bot_state (StateManager.db s')
    = Some (Some Examples.btc_long).
Proof. vm_compute. split; reflexivity. Qed.


(** X15.  [recover_from_error] never raises and goes to [MONITORING] when
    the active position is a true value, and to [IDLE] otherwise: an
    active position that is [None], and also one that is an empty dict,
    recovers to [IDLE]. *)
Theorem recover_from_error_target (s : StateManager.t) :
  exists s',
    StateManager.recover_from_error s = (Ok (), s') /\
    StateManager.current_state s' =
      (if Py.truthy (StateManager.active_position s)
       then BotState.MONITORING else BotState.IDLE) /\
    StateManager.active_position s' = StateManager.active_position s /\
    StateManager.trading_config s' = StateManager.trading_config s /\
    StateManager.trade_history s' = StateManager.trade_history s /\
    (StateManager.active_position s = VDict ∅ ->
     StateManager.current_state s' = BotState.IDLE).
Proof.
  destruct (returns_inv _ _ _ (recover_from_error_returns s))
    as ([] & s' & Hrun & Hs').
  exists s'. unfold StateManager.attributes in Hs'.
  injection Hs' as Hst Hcfg Hpos _ Hhist _ _ _.
  repeat split; try done.
  intros Hempty. by rewrite Hst, Hempty.
Qed.

(** X16.  [force_reset] never raises: the state is [IDLE], the active
    position and the pending record are [None], the configuration keeps
    its static fields and loses the entry price and opening time, the
    trade history is kept; unlike [set_state] it logs no state change. *)
Theorem force_reset_clears (s : StateManager.t) :
  exists s',
    StateManager.force_reset s = (Ok (), s') /\
    StateManager.current_state s' = BotState.IDLE /\
    StateManager.active_position s' = VNone /\
    StateManager.last_closed_position s' = VNone /\
    StateManager.trading_config s'
      = TradingConfig.reset <$> StateManager.trading_config s /\
    StateManager.trade_history s' = StateManager.trade_history s /\
    StateManager.transitions (StateManager.log s')
      = StateManager.transitions (StateManager.log s).
Proof.
  destruct (returns_inv _ _ _ (force_reset_returns s)) as ([] & s' & Hrun & Hs').
  exists s'. unfold StateManager.attributes in Hs'.
  injection Hs' as ? ? ? ? ? ? ? ?. by repeat split.
Qed.

Section StateManagerErrors.
Import StateManager.

Lemma handle_error_outcome msg s :
  wp (handle_error msg)
    (fun _ s' =>
       (DatabaseManager.available (db s) = true /\
        (Py.truthy (active_position s) = false \/
         Py.json_ok (active_position s) = true)) /\
       current_state s' = BotState.ERROR /\
       active_position s' = active_position s /\
       trade_history s' = trade_history s /\
       exists row,
         DatabaseManager.error_logs (db s')
           = row :: DatabaseManager.error_logs (db s) /\
         row !! "error_message" = Some (VStr msg) /\
         row !! "state" = Some (VStr "error"))
    (fun _ s' =>
       ~ (DatabaseManager.available (db s) = true /\
          (Py.truthy (active_position s) = false \/
           Py.json_ok (active_position s) = true)) /\
       current_state s' = BotState.ERROR /\
       active_position s' = active_position s /\
       trade_history s' = trade_history s /\
       DatabaseManager.error_logs (db s') = DatabaseManager.error_logs (db s))
    s.
Proof.
  unfold handle_error, wp. unfold mbind at 1. unfold M_bind at 1.
  rewrite set_state_unfold.
  pose proof (_save_state_returns
                (set_log (StateChanged (current_state s) BotState.ERROR :: log s)
                   (set_current_state BotState.ERROR s))) as Hsave.
  assert (Hlogs : DatabaseManager.error_logs
                    (db (snd (_save_state
                      (set_log (StateChanged (current_state s) BotState.ERROR
                                  :: log s)
                         (set_current_state BotState.ERROR s)))))
                  = DatabaseManager.error_logs (db s)).
  { unfold _save_state, try_, mbind, M_bind, get, lift, now, with_db,
      DatabaseManager.save_bot_state.
    destruct (match trading_config _ with Some _ => _ | None => _ end); [|done].
    destruct (dumps_if_truthy _); [|done].
    cbn. by destruct (DatabaseManager.available (db s)). }
  unfold returns, wp in Hsave.
  destruct (_save_state _) as [[[]|e] s1]; [|done].
  cbn [snd] in Hlogs. unfold same_attributes, attributes in Hsave. cbn in Hsave.
  injection Hsave as Hst _ Hpos _ Hhist _ Hav _.
  unfold mbind, M_bind, emit, modify, now, get, lift, with_db,
    DatabaseManager.save_error_log.
  cbn. rewrite Hpos, Hlogs, Hst. unfold dumps_if_truthy, Py.json_dumps.
  destruct (Py.truthy (active_position s)) eqn:Htrue;
    [destruct (Py.json_ok (active_position s)) eqn:Hjson|];
    cbn; rewrite ?Hav;
    try (destruct (DatabaseManager.available (db s)) eqn:Hdb; cbn);
    repeat split; try done;
    try (by left); try (by right);
    try (by intros [? [?|?]]);
    try (eexists; split; [reflexivity|]; split; reflexivity).
Qed.

End StateManagerErrors.

(** X17.  [handle_error] always leaves the manager in [ERROR] with the
    active position and the history untouched, also when it raises.  It
    returns exactly when the error record can be written (the database
    answers, and the active position is absent or data JSON can carry);
    the error log then has one more record, with the message and the
    state ['error'].  Otherwise it raises and the log has not grown. *)
Theorem handle_error_always_enters_error (msg : string) (s : StateManager.t) :
  let outcome := StateManager.handle_error msg s in
  let writable :=
    DatabaseManager.available (StateManager.db s) = true /\
    (Py.truthy (StateManager.active_position s) = false \/
     Py.json_ok (StateManager.active_position s) = true) in
  StateManager.current_state (snd outcome) = BotState.ERROR /\
  StateManager.active_position (snd outcome) = StateManager.active_position s /\
  StateManager.trade_history (snd outcome) = StateManager.trade_history s /\
  (fst outcome = Ok () <-> writable) /\
  (writable ->
   exists row,
     DatabaseManager.error_logs (StateManager.db (snd outcome))
       = row :: DatabaseManager.error_logs (StateManager.db s) /\
     row !! "error_message" = Some (VStr msg) /\
     row !! "state" = Some (VStr "error")) /\
  (~ writable ->
   DatabaseManager.error_logs (StateManager.db (snd outcome))
     = DatabaseManager.error_logs (StateManager.db s)).
Proof.
  cbn zeta. pose proof (handle_error_outcome msg s) as H.
  unfold StateManager.wp in H.
  destruct (StateManager.handle_error msg s) as [[[]|e] s']; cbn [fst snd].
  - destruct H as (Hw & Hst & Hpos & Hhist & Hrow).
    split; [done|]. split; [done|]. split; [done|].
    split; [tauto|]. split; [done|]. intros Hnot. by destruct Hnot.
  - destruct H as (Hw & Hst & Hpos & Hhist & Hlogs).
    split; [done|]. split; [done|]. split; [done|].
    split; [|split; [intros Hyes; by destruct Hw|done]].
    split; [done|]. intros Hyes. by destruct Hw.
Qed.

Section PositionOpened.
Import StateManager.
Variable float_of_str : string -> option float.

Lemma position_opened_returns s c (data : gmap string PyVal) price :
  trading_config s = Some c ->
  (Py.get (VDict data) "entryPrice" (VInt 0) ≫= Py.float float_of_str) = Ok price ->
  DatabaseManager.available (db s) = true ->
  returns (position_opened float_of_str (VDict data)) s (fun _ s' =>
    attributes s' =
      (BotState.MONITORING,
       Some (TradingConfig.set_opened (VFloat price)
               (VDatetime (clock s (ticks s))) c),
       VDict data, last_closed_position s, trade_history s, clock s, true,
       transitions (log s) ++ [(current_state s, BotState.MONITORING)]) /\
    exists row,
      DatabaseManager.trades (db s') = row :: DatabaseManager.trades (db s) /\
      row !! "status" = Some (VStr "open") /\
      row !! "symbol" = Some (default VNone (data !! "symbol")) /\
      row !! "leverage" = Some (TradingConfig.leverage c)).
Proof.
  intros Hc Hprice Hav. unfold returns, position_opened.
  apply wp_bind, wp_modify, wp_bind, wp_get.
  cbn [trading_config set_active_position]. rewrite Hc.
  apply wp_bind, wp_bind, wp_lift. rewrite Hprice.
  apply wp_bind, wp_now, wp_modify, wp_bind.
  eapply wp_mono; [apply set_state_returns_tables| |done].
  intros [] s2 (Hattr & Htrades & _).
  unfold attributes in Hattr. cbn in Hattr, Htrades.
  injection Hattr as Hst Hcfg Hpos Hlast Hhist Hclk Havail Htr.
  unfold wp, mbind, M_bind, lift, get, now, with_db, emit, modify,
    DatabaseManager.save_trade.
  cbn -[DateTime.isoformat]. rewrite Hcfg, Havail, Hav. cbn -[DateTime.isoformat].
  split.
  - unfold attributes. cbn. by rewrite Hst, Hcfg, Hpos, Hlast, Hhist, Hclk, Htr.
  - eexists. rewrite Htrades. split; [reflexivity|].
    repeat split;
      repeat (rewrite lookup_insert_ne by done);
      first [apply lookup_insert_eq | apply lookup_singleton_eq].
Qed.

End PositionOpened.

(** X18.  With a configuration, an entry price that converts and a
    database that answers, [position_opened] records the snapshot as the
    active position, stores the converted entry price and the time of the
    call in the configuration, moves to [MONITORING], and adds one open
    trade for the symbol with the configured leverage to the database. *)
Theorem position_opened_records
    (float_of_str : string -> option float) (s : StateManager.t)
    (c : TradingConfig.t) (data : gmap string PyVal) (price : float) :
  StateManager.trading_config s = Some c ->
  (Py.get (VDict data) "entryPrice" (VInt 0) ≫= Py.float float_of_str) = Ok price ->
  DatabaseManager.available (StateManager.db s) = true ->
  exists s' row,
    StateManager.position_opened float_of_str (VDict data) s = (Ok (), s') /\
    StateManager.current_state s' = BotState.MONITORING /\
    StateManager.active_position s' = VDict data /\
    StateManager.trading_config s'
      = Some (TradingConfig.set_opened (VFloat price)
                (VDatetime (StateManager.clock s (StateManager.ticks s))) c) /\
    DatabaseManager.trades (StateManager.db s')
      = row :: DatabaseManager.trades (StateManager.db s) /\
    row !! "status" = Some (VStr "open") /\
    row !! "symbol" = Some (default VNone (data !! "symbol")) /\
    row !! "leverage" = Some (TradingConfig.leverage c).
Proof.
  intros Hc Hprice Hav.
  destruct (returns_inv _ _ _
              (position_opened_returns float_of_str s c data price Hc Hprice Hav))
    as ([] & s' & Hrun & Hs' & row & Hrow).
  exists s', row. unfold StateManager.attributes in Hs'.
  injection Hs' as ? ? ? ? ? ? ? ?.
  destruct Hrow as (? & ? & ? & ?). by repeat split.
Qed.

(** The configured manager of the examples opens the position of the
    tests. *)
Lemma position_opened_records_witness :
  exists s' row,
    StateManager.position_opened Examples.float_of_str
      (VDict Examples.btc_long_fields) Examples.configured = (Ok (), s') /\
    StateManager.current_state s' = BotState.MONITORING /\
    StateManager.active_position s' = VDict Examples.btc_long_fields /\
    StateManager.trading_config s'
      = Some (TradingConfig.set_opened (VFloat 50000)
                (VDatetime (StateManager.clock Examples.configured
                              (StateManager.ticks Examples.configured)))
                (TradingConfig.init ∅)) /\
    DatabaseManager.trades (StateManager.db s')
      = row :: DatabaseManager.trades (StateManager.db Examples.configured) /\
    row !! "status" = Some (VStr "open") /\
    row !! "symbol"
      = Some (default VNone (Examples.btc_long_fields !! "symbol")) /\
    row !! "leverage" = Some (TradingConfig.leverage (TradingConfig.init ∅)).
Proof.
  apply (position_opened_records Examples.float_of_str Examples.configured
           (TradingConfig.init ∅) Examples.btc_long_fields 50000);
    vm_compute; reflexivity.
Defined.

(** X19.  When the manager has a configuration and the entry price of the
    snapshot does not convert to a float, [position_opened] raises after
    its first assignment: the snapshot has replaced the active position,
    and nothing else has happened (no state change, no trade recorded, no
    save). *)
Theorem position_opened_bad_entry_price
    (float_of_str : string -> option float) (s : StateManager.t)
    (c : TradingConfig.t) (data : PyVal) (e : exn) :
  StateManager.trading_config s = Some c ->
  (Py.get data "entryPrice" (VInt 0) ≫= Py.float float_of_str) = Raise e ->
  StateManager.position_opened float_of_str data s
  = (Raise e, StateManager.set_active_position data s).
Proof.
  intros Hc Hprice. unfold StateManager.position_opened.
  unfold mbind at 1 2 3. unfold StateManager.M_bind, StateManager.modify,
    StateManager.get, StateManager.lift.
  cbn [StateManager.trading_config StateManager.set_active_position].
  rewrite Hc. unfold mbind at 1 2. unfold StateManager.M_bind.
  by rewrite Hprice.
Qed.

(** An entry price that is no number. *)
Lemma position_opened_bad_entry_price_witness :
  StateManager.position_opened Examples.float_of_str
    (VDict {["entryPrice" := VStr "n/a"]}) Examples.configured
  = (Raise ValueError,
     StateManager.set_active_position (VDict {["entryPrice" := VStr "n/a"]})
       Examples.configured).
Proof.
  apply (position_opened_bad_entry_price Examples.float_of_str
           Examples.configured (TradingConfig.init ∅)
           (VDict {["entryPrice" := VStr "n/a"]}) ValueError);
    vm_compute; reflexivity.
Defined.

(** X20.  The snapshot follows every state change: after [set_state n] on
    a manager whose configuration is well formed, whose active position is
    data JSON can carry and whose database answers, a manager started on
    that database is in state [n], has the same configuration, and has
    the same active position, except that an active position that is not
    a true value (such as an empty dict) comes back as [None]. *)
Theorem restart_after_set_state
    (s : StateManager.t) (c : TradingConfig.t) (n : BotState.t)
    (clk : nat -> datetime) (ticks0 : nat) :
  StateManager.trading_config s = Some c ->
  TradingConfig.well_formed c = true ->
  Py.json_ok (StateManager.active_position s) = true ->
  DatabaseManager.available (StateManager.db s) = true ->
  let restarted :=
    StateManager.init
      (StateManager.db (snd (StateManager.set_state n s))) clk ticks0 in
  StateManager.current_state restarted = n /\
  StateManager.trading_config restarted = Some c /\
  StateManager.active_position restarted =
    (if Py.truthy (StateManager.active_position s)
     then StateManager.active_position s else VNone).
Proof.
  intros Hc Hwf Hpos Hav restarted. subst restarted.
  rewrite set_state_unfold.
  destruct (from_dict_to_dict c Hwf) as (d & Hd & Hjson & Hback).
  pose proof (_save_state_persists
                (StateManager.set_log
                   (StateManager.StateChanged (StateManager.current_state s) n
                      :: StateManager.log s)
                   (StateManager.set_current_state n s))
                c d Hc Hd Hjson Hpos Hav) as Hrow.
  cbn [StateManager.current_state StateManager.active_position
         StateManager.set_log StateManager.set_current_state] in Hrow.
  unfold StateManager.init.
  match goal with
  | |- context [StateManager._load_state ?s0] => set (s1 := s0)
  end.
  destruct (_load_state_row s1 _ n (VDict d) c Hrow) as [Hst Hcfg];
    [apply BotState_of_value|reflexivity|exact Hback|].
  pose proof (_load_state_row_position s1 _ n (VDict d) c Hrow) as Hposition.
  rewrite Hposition; [|apply BotState_of_value|reflexivity|exact Hback].
  split; [done|]. split; [done|].
  cbn. by destruct (Py.truthy (StateManager.active_position s)).
Qed.

(** The manager of the examples goes to [CLOSING_POSITION] and is
    restarted. *)
Lemma restart_after_set_state_witness :
  let restarted :=
    StateManager.init
      (StateManager.db
         (snd (StateManager.set_state BotState.CLOSING_POSITION Examples.monitoring)))
      (fun _ => Examples.noon) 0 in
  StateManager.current_state restarted = BotState.CLOSING_POSITION /\
  StateManager.trading_config restarted
    = StateManager.trading_config Examples.monitoring /\
  StateManager.active_position restarted =
    (if Py.truthy (StateManager.active_position Examples.monitoring)
     then StateManager.active_position Examples.monitoring else VNone).
Proof.
  destruct (StateManager.trading_config Examples.monitoring) as [c|] eqn:Hc;
    [|vm_compute in Hc; discriminate].
  apply (restart_after_set_state Examples.monitoring c BotState.CLOSING_POSITION
           (fun _ => Examples.noon) 0 Hc).
  - vm_compute in Hc. injection Hc as <-. vm_compute. reflexivity.
  - vm_compute. reflexivity.
  - vm_compute. reflexivity.
Defined.



(** X22.  A state change on a database that does not answer is made in
    memory only: [set_state] returns without raising, the current state is
    the new one, and the database, with its stored snapshot, is exactly as
    before. *)
Theorem set_state_offline_keeps_database (s : StateManager.t) (n : BotState.t) :
  DatabaseManager.available (StateManager.db s) = false ->
  fst (StateManager.set_state n s) = Ok () /\
  StateManager.current_state (snd (StateManager.set_state n s)) = n /\
  StateManager.db (snd (StateManager.set_state n s)) = StateManager.db s.
Proof.
  intros Hav.
  destruct (returns_inv _ _ _ (set_state_returns n s)) as ([] & s' & Hrun & Hs').
  unfold StateManager.attributes in Hs'. injection Hs' as Hst _ _ _ _ _ _ _.
  pose proof (_save_state_offline
                (StateManager.set_log
                   (StateManager.StateChanged (StateManager.current_state s) n
                      :: StateManager.log s)
                   (StateManager.set_current_state n s)) Hav) as Hdb.
  rewrite <- set_state_unfold in Hdb. rewrite Hrun in *. done.
Qed.

(** The manager of the examples with its database out of reach. *)
Lemma set_state_offline_keeps_database_witness :
  let s := Examples.offline Examples.monitoring in
  fst (StateManager.set_state BotState.CLOSING_POSITION s) = Ok () /\
  StateManager.current_state
    (snd (StateManager.set_state BotState.CLOSING_POSITION s))
    = BotState.CLOSING_POSITION /\
  StateManager.db (snd (StateManager.set_state BotState.CLOSING_POSITION s))
    = StateManager.db s.
Proof.
  apply (set_state_offline_keeps_database (Examples.offline Examples.monitoring)
           BotState.CLOSING_POSITION).
  reflexivity.
Defined.

Section StateManagerEdges.
Import StateManager.

(** Without a pending record, [withdrawal_completed] appends [None]. *)
Lemma withdrawal_completed_nothing_pending s withdrawal :
  last_closed_position s = VNone ->
  returns (withdrawal_completed withdrawal) s (fun _ s' =>
    attributes s' =
      (BotState.IDLE, TradingConfig.reset <$> trading_config s,
       active_position s, VNone, trade_history s ++ [VNone], clock s,
       DatabaseManager.available (db s),
       transitions (log s)
         ++ [(current_state s, BotState.RESETTING);
             (BotState.RESETTING, BotState.IDLE)])).
Proof.
  intros Hlast. unfold returns, withdrawal_completed.
  apply wp_bind.
  eapply wp_mono; [by apply attach_nothing| |done].
  intros [] s1 ->. apply wp_bind, wp_modify.
  eapply wp_mono; [apply auto_reset_returns| |done].
  intros [] s2 H2. unfold attributes in *. cbn in *. by rewrite H2, Hlast.
Qed.

(** The configuration after a reset can always be written out. *)
Lemma to_dict_reset c :
  exists d, TradingConfig.to_dict (TradingConfig.reset c) = Ok d.
Proof. unfold TradingConfig.to_dict. cbn. eauto. Qed.

Lemma wp_conj {A} (m : M A) (Q Q' : A -> t -> Prop) (E E' : exn -> t -> Prop) s :
  wp m Q E s -> wp m Q' E' s ->
  wp m (fun a s' => Q a s' /\ Q' a s') (fun e s' => E e s' /\ E' e s') s.
Proof. unfold wp. destruct (m s) as [[a|e] s']; auto. Qed.

(** What [handle_error] leaves behind, whether it returns or raises. *)
Lemma handle_error_attributes msg s :
  let after s' :=
    attributes s' =
      (BotState.ERROR, trading_config s, active_position s,
       last_closed_position s, trade_history s, clock s,
       DatabaseManager.available (db s),
       transitions (log s) ++ [(current_state s, BotState.ERROR)]) in
  wp (handle_error msg) (fun _ => after) (fun _ => after) s.
Proof.
  intros after. unfold handle_error.
  apply wp_bind.
  eapply wp_mono; [apply set_state_returns| |done].
  intros [] s1 H1. unfold attributes in H1.
  injection H1 as Hst Hcfg Hp Hlast Hhist Hclk Havail Htr.
  assert (Hafter : forall d n,
             DatabaseManager.available d = DatabaseManager.available (db s) ->
             after (set_db d (set_ticks n (set_log (Error msg :: log s1) s1)))).
  { intros d n Hd. unfold after, attributes. cbn -[DateTime.isoformat].
    by rewrite Hst, Hcfg, Hp, Hlast, Hhist, Hclk, Htr, Hd. }
  apply wp_bind, wp_emit, wp_bind, wp_now, wp_bind, wp_get, wp_bind, wp_lift.
  cbn [active_position set_ticks set_log].
  destruct (dumps_if_truthy (active_position s1)) as [j|e].
  - apply wp_with_db. unfold DatabaseManager.save_error_log.
    cbn [db set_ticks set_log].
    destruct (DatabaseManager.available (db s1)) eqn:Hdb.
    + apply Hafter. cbn. congruence.
    + apply Hafter. congruence.
  - apply Hafter. congruence.
Qed.

End StateManagerEdges.

(** X23.  [withdrawal_completed] appends to the history whether or not a
    closed-position record is pending: without one, the entry appended is
    [None], and the manager is reset to [IDLE].  After that [get_status],
    which reads the profit of the newest entry, raises an
    [AttributeError]. *)
Theorem withdrawal_completed_without_record
    (s : StateManager.t) (withdrawal : PyVal) :
  StateManager.last_closed_position s = VNone ->
  exists s',
    StateManager.withdrawal_completed withdrawal s = (Ok (), s') /\
    StateManager.current_state s' = BotState.IDLE /\
    StateManager.trade_history s' = StateManager.trade_history s ++ [VNone] /\
    StateManager.get_status s' = Raise AttributeError.
Proof.
  intros Hlast.
  destruct (returns_inv _ _ _
              (withdrawal_completed_nothing_pending s withdrawal Hlast))
    as ([] & s' & Hrun & Hs').
  exists s'. unfold StateManager.attributes in Hs'.
  injection Hs' as Hst Hcfg _ _ Hhist _ _ _.
  split; [done|]. split; [done|]. split; [done|].
  unfold StateManager.get_status. rewrite Hcfg, Hhist, last_snoc.
  destruct (StateManager.trading_config s) as [c|]; cbn [fmap option_fmap option_map].
  - destruct (to_dict_reset c) as [d ->]. reflexivity.
  - reflexivity.
Qed.

(** A fresh manager has nothing pending. *)
Lemma withdrawal_completed_without_record_witness :
  exists s',
    StateManager.withdrawal_completed (VDict {["id" := VStr "wd123"]})
      Examples.fresh = (Ok (), s') /\
    StateManager.current_state s' = BotState.IDLE /\
    StateManager.trade_history s'
      = StateManager.trade_history Examples.fresh ++ [VNone] /\
    StateManager.get_status s' = Raise AttributeError.
Proof.
  apply (withdrawal_completed_without_record Examples.fresh
           (VDict {["id" := VStr "wd123"]})).
  reflexivity.
Defined.

(* --------------------------------------------------------------------- *)
(** ** The profit callback: its other paths and its trace                *)
(* --------------------------------------------------------------------- *)

Section CallbackFacts.
Import StateManager.
Variable float_of_str : string -> option float.
Variable settings : Settings.t.

(** A close that raises: the handler of the callback runs. *)
Lemma _on_profit_reached_close_raises w running position profit s e :
  OrderExecutor.execute_profit_close float_of_str (TradingBot.at_close w)
    position profit = Raise e ->
  let after s' :=
    attributes s' =
      (BotState.ERROR, trading_config s, active_position s,
       last_closed_position s, trade_history s, clock s,
       DatabaseManager.available (db s),
       transitions (log s)
         ++ [(current_state s, BotState.CLOSING_POSITION);
             (BotState.CLOSING_POSITION, BotState.ERROR)]) in
  let reported :=
    Says.error_recordable s = true /\
    raises (EmailNotifier.send_error_alert (TradingBot.notifier w)
              (TradingBot.str e) "ProfitCallbackError") = false in
  wp (TradingBot._on_profit_reached float_of_str settings w running position profit)
    (fun restart s' => restart = false /\ reported /\ after s')
    (fun _ s' => ~ reported /\ after s')
    s.
Proof.
  intros Hclose after reported. unfold TradingBot._on_profit_reached.
  apply wp_try, wp_bind.
  eapply wp_mono; [apply set_state_returns| |done].
  intros [] s1 H1. unfold attributes in H1.
  injection H1 as Hst Hcfg Hp Hlast Hhist Hclk Havail Htr.
  apply wp_bind, wp_lift. rewrite Hclose.
  apply wp_bind, wp_emit, wp_bind.
  set (s2 := set_log (Error "Error in profit callback" :: log s1) s1).
  assert (Hrec : Says.error_recordable s = true <->
                 DatabaseManager.available (db s2) = true /\
                 (Py.truthy (active_position s2) = false \/
                  Py.json_ok (active_position s2) = true)).
  { unfold Says.error_recordable. subst s2. cbn [db active_position set_log].
    rewrite Havail, Hp, andb_true_iff, orb_true_iff, negb_true_iff. tauto. }
  assert (Hafter : forall s', attributes s' =
             (BotState.ERROR, trading_config s2, active_position s2,
              last_closed_position s2, trade_history s2, clock s2,
              DatabaseManager.available (db s2),
              transitions (log s2) ++ [(current_state s2, BotState.ERROR)]) ->
             after s').
  { intros s' Ha. unfold after. subst s2. cbn in Ha.
    rewrite Ha, Hst, Hcfg, Hp, Hlast, Hhist, Hclk, Havail, Htr, <- app_assoc.
    reflexivity. }
  eapply wp_mono;
    [exact (wp_conj _ _ _ _ _ _ (handle_error_outcome (TradingBot.str e) s2)
              (handle_error_attributes (TradingBot.str e) s2))| |].
  - intros [] s3 ((Hw & _) & Hattr). apply wp_bind, wp_lift.
    unfold reported.
    destruct (EmailNotifier.send_error_alert _ _ _) as [sent|e'].
    + apply wp_ret. split; [done|]. split; [|by apply Hafter].
      split; [by apply Hrec|done].
    + split; [|by apply Hafter]. by intros [_ ?].
  - intros e' s3 ((Hw & _) & Hattr). split; [|by apply Hafter].
    intros [Hyes _]. apply Hw. by apply Hrec.
Qed.

(** A close that finds nothing to close: the callback stops there. *)
Lemma _on_profit_reached_nothing_closed w running position profit s order :
  OrderExecutor.execute_profit_close float_of_str (TradingBot.at_close w)
    position profit = Ok order ->
  Py.truthy order = false ->
  returns
    (TradingBot._on_profit_reached float_of_str settings w running position profit)
    s
    (fun restart s' =>
       restart = false /\
       attributes s' =
         (BotState.CLOSING_POSITION, trading_config s, active_position s,
          last_closed_position s, trade_history s, clock s,
          DatabaseManager.available (db s),
          transitions (log s) ++ [(current_state s, BotState.CLOSING_POSITION)])).
Proof.
  intros Hclose Hfalse. unfold returns, TradingBot._on_profit_reached.
  apply wp_try_returns, wp_bind.
  eapply wp_mono; [apply set_state_returns| |done].
  intros [] s1 H1. apply wp_bind, wp_lift. rewrite Hclose, Hfalse.
  by apply wp_ret.
Qed.

(** The transitions of a run of the callback whose close succeeds. *)
Lemma _on_profit_reached_trace w running position profit s pos order sent :
  active_position s = VDict pos ->
  DatabaseManager.available (db s) = true ->
  OrderExecutor.execute_profit_close float_of_str (TradingBot.at_close w)
    position profit = Ok (VDict order) ->
  Py.truthy (VDict order) = true ->
  EmailNotifier.send_position_closed_alert (TradingBot.notifier w)
    position profit = Ok sent ->
  let converted :=
    Py.truthy
      (ConversionManager.auto_convert_after_close float_of_str settings
         (TradingBot.at_settlement w) (TradingBot.at_conversion w) position) in
  let withdrawn :=
    Py.truthy
      (WithdrawalManager.auto_withdraw_after_conversion float_of_str settings
         (TradingBot.at_withdrawal w) (Settings.CONVERT_TO_CRYPTO settings)) in
  returns
    (TradingBot._on_profit_reached float_of_str settings w running position profit)
    s
    (fun _ s' =>
       active_position s' = VNone /\
       trading_config s' = TradingConfig.reset <$> trading_config s /\
       transitions (log s') =
         transitions (log s)
           ++ [(current_state s, BotState.CLOSING_POSITION);
               (BotState.CLOSING_POSITION, BotState.CONVERTING)]
           ++ (if converted
               then [(BotState.CONVERTING, BotState.WITHDRAWING)] else [])
           ++ (if withdrawn
               then [(Says.after_conversion converted, BotState.RESETTING);
                     (BotState.RESETTING, BotState.IDLE)]
               else [])
           ++ [(Says.after_withdrawal converted withdrawn, BotState.RESETTING);
               (BotState.RESETTING, BotState.IDLE)]).
Proof.
  intros Hpos Hav Hclose Horder Hsent converted withdrawn.
  unfold returns, TradingBot._on_profit_reached.
  apply wp_try_returns, wp_bind.
  eapply wp_mono; [apply set_state_returns| |done].
  intros [] s1 H1. unfold attributes in H1.
  injection H1 as Hst1 Hcfg1 Hpos1 _ _ _ Hav1 Htr1.
  apply wp_bind, wp_lift. rewrite Hclose, Horder.
  apply wp_bind.
  eapply wp_mono;
    [apply (position_closed_returns s1 pos order profit); congruence| |done].
  intros [] s2 H2. unfold attributes in H2.
  injection H2 as Hst2 Hcfg2 Hpos2 Hlast2 _ _ Hav2 Htr2.
  apply wp_bind, wp_lift. rewrite Hsent.
  apply wp_bind.
  eapply wp_mono;
    [apply (_execute_conversion_returns float_of_str settings w position s2 _ Hlast2);
     apply truthy_insert| |done].
  intros [] s3 H3. fold converted in H3.
  assert (exists kept,
            last_closed_position s3 = VDict kept /\
            Py.truthy (VDict kept) = true /\
            current_state s3 = Says.after_conversion converted /\
            trading_config s3 = trading_config s /\
            active_position s3 = VNone /\
            transitions (log s3) =
              transitions (log s)
                ++ [(current_state s, BotState.CLOSING_POSITION);
                    (BotState.CLOSING_POSITION, BotState.CONVERTING)]
                ++ (if converted
                    then [(BotState.CONVERTING, BotState.WITHDRAWING)] else []))
    as (kept & Hlast3 & Hkept & Hst3 & Hcfg3 & Hpos3 & Htr3).
  { destruct converted.
    - unfold attributes in H3. injection H3 as Hs Hc Hp Hl _ _ _ Ht.
      eexists. split; [exact Hl|]. split; [apply truthy_insert|].
      split; [done|]. split; [congruence|]. split; [congruence|].
      rewrite Ht, Htr2, Htr1, Hst2, Hst1, <- !app_assoc. reflexivity.
    - subst s3. eexists. split; [exact Hlast2|]. split; [apply truthy_insert|].
      split; [done|]. split; [congruence|]. split; [done|].
      rewrite Htr2, Htr1, Hst1, <- !app_assoc. reflexivity. }
  apply wp_bind.
  eapply wp_mono;
    [apply (_execute_withdrawal_returns float_of_str settings w s3 kept Hlast3 Hkept)|
     |done].
  intros [] s4 H4. fold withdrawn in H4.
  assert (current_state s4 = Says.after_withdrawal converted withdrawn /\
          TradingConfig.reset <$> trading_config s4
            = TradingConfig.reset <$> trading_config s /\
          active_position s4 = VNone /\
          transitions (log s4) =
            transitions (log s3)
              ++ (if withdrawn
                  then [(Says.after_conversion converted, BotState.RESETTING);
                        (BotState.RESETTING, BotState.IDLE)]
                  else []))
    as (Hst4 & Hcfg4 & Hpos4 & Htr4).
  { unfold Says.after_withdrawal. destruct withdrawn.
    - unfold attributes in H4. injection H4 as Hs Hc Hp _ _ _ _ Ht.
      split; [done|]. split.
      + rewrite Hc, Hcfg3. by destruct (trading_config s).
      + split; [congruence|]. by rewrite Ht, Hst3.
    - subst s4. split; [done|]. split; [by rewrite Hcfg3|].
      split; [done|]. by rewrite app_nil_r. }
  apply wp_bind.
  eapply wp_mono; [apply auto_reset_returns| |done].
  intros [] s5 H5. unfold attributes in H5.
  injection H5 as _ Hcfg5 Hpos5 _ _ _ _ Htr5.
  apply wp_bind, wp_emit, wp_ret. cbn.
  split; [congruence|]. split; [congruence|].
  rewrite Htr5, Htr4, Htr3, Hst4, <- !app_assoc. reflexivity.
Qed.

End CallbackFacts.

(** X24.  When closing the position fails, the profit callback never goes
    on to the next cycle.  It leaves the manager in [ERROR], reached
    through [CLOSING_POSITION], with the position still recorded as
    active and the pending record, the history and the configuration
    untouched.  It returns (with no restart) exactly when the error
    record can be written and the error alert goes out; otherwise the
    exception of the handler leaves the callback. *)
Theorem profit_callback_close_failure
    (float_of_str : string -> option float) (settings : Settings.t)
    (w : TradingBot.world) (running : bool) (position : PyVal) (profit : float)
    (s : StateManager.t) (e : exn) :
  OrderExecutor.execute_profit_close float_of_str (TradingBot.at_close w)
    position profit = Raise e ->
  let outcome :=
    TradingBot._on_profit_reached float_of_str settings w running position
      profit s in
  let reported :=
    Says.error_recordable s = true /\
    raises (EmailNotifier.send_error_alert (TradingBot.notifier w)
              (TradingBot.str e) "ProfitCallbackError") = false in
  StateManager.current_state (snd outcome) = BotState.ERROR /\
  StateManager.active_position (snd outcome) = StateManager.active_position s /\
  StateManager.last_closed_position (snd outcome)
    = StateManager.last_closed_position s /\
  StateManager.trade_history (snd outcome) = StateManager.trade_history s /\
  StateManager.trading_config (snd outcome) = StateManager.trading_config s /\
  StateManager.transitions (StateManager.log (snd outcome))
    = StateManager.transitions (StateManager.log s)
        ++ [(StateManager.current_state s, BotState.CLOSING_POSITION);
            (BotState.CLOSING_POSITION, BotState.ERROR)] /\
  fst outcome <> Ok true /\
  (fst outcome = Ok false <-> reported).
Proof.
  intros Hclose. cbn zeta.
  pose proof (_on_profit_reached_close_raises float_of_str settings w running
                position profit s e Hclose) as H.
  cbn zeta in H. unfold StateManager.wp in H.
  destruct (TradingBot._on_profit_reached _ _ _ _ _ _ s) as [[restart|e'] s'];
    cbn [fst snd].
  - destruct H as (-> & Hrep & Hattr). unfold StateManager.attributes in Hattr.
    injection Hattr as ? ? ? ? ? _ _ ?.
    do 6 (split; [done|]). split; [done|]. by split.
  - destruct H as (Hrep & Hattr). unfold StateManager.attributes in Hattr.
    injection Hattr as ? ? ? ? ? _ _ ?.
    do 6 (split; [done|]). split; [done|]. by split.
Qed.

(** The exchange cannot be reached when the position of the examples is
    to be closed. *)
Lemma profit_callback_close_failure_witness :
  let outcome :=
    TradingBot._on_profit_reached Examples.float_of_str Examples.withdrawing
      (TradingBot.mkWorld
         (Ccxt.mk (Ccxt.fetch_balance Examples.testnet)
            (Ccxt.fetch_positions Examples.testnet)
            (Ccxt.fetch_ticker Examples.testnet)
            (Ccxt.create_order Examples.unreachable)
            (Ccxt.sapi_post_convert_getquote Examples.testnet)
            (Ccxt.sapi_post_convert_acceptquote Examples.testnet)
            (Ccxt.withdraw Examples.testnet)
            (Ccxt.set_leverage Examples.testnet)
            (Ccxt.set_margin_mode Examples.testnet))
         Examples.testnet Examples.testnet Examples.funded Examples.mailer)
      true Examples.btc_long 50.5 Examples.monitoring in
  let reported :=
    Says.error_recordable Examples.monitoring = true /\
    raises (EmailNotifier.send_error_alert Examples.mailer
              (TradingBot.str OrderExecutionError) "ProfitCallbackError") = false in
  StateManager.current_state (snd outcome) = BotState.ERROR /\
  StateManager.active_position (snd outcome)
    = StateManager.active_position Examples.monitoring /\
  StateManager.last_closed_position (snd outcome)
    = StateManager.last_closed_position Examples.monitoring /\
  StateManager.trade_history (snd outcome)
    = StateManager.trade_history Examples.monitoring /\
  StateManager.trading_config (snd outcome)
    = StateManager.trading_config Examples.monitoring /\
  StateManager.transitions (StateManager.log (snd outcome))
    = StateManager.transitions (StateManager.log Examples.monitoring)
        ++ [(StateManager.current_state Examples.monitoring,
             BotState.CLOSING_POSITION);
            (BotState.CLOSING_POSITION, BotState.ERROR)] /\
  fst outcome <> Ok true /\
  (fst outcome = Ok false <-> reported).
Proof.
  apply (profit_callback_close_failure Examples.float_of_str Examples.withdrawing
           (TradingBot.mkWorld
              (Ccxt.mk (Ccxt.fetch_balance Examples.testnet)
                 (Ccxt.fetch_positions Examples.testnet)
                 (Ccxt.fetch_ticker Examples.testnet)
                 (Ccxt.create_order Examples.unreachable)
                 (Ccxt.sapi_post_convert_getquote Examples.testnet)
                 (Ccxt.sapi_post_convert_acceptquote Examples.testnet)
                 (Ccxt.withdraw Examples.testnet)
                 (Ccxt.set_leverage Examples.testnet)
                 (Ccxt.set_margin_mode Examples.testnet))
              Examples.testnet Examples.testnet Examples.funded Examples.mailer)
           true Examples.btc_long 50.5 Examples.monitoring OrderExecutionError).
  vm_compute. reflexivity.
Defined.

(** X25.  When the exchange shows no open position of the symbol at the
    close (also when its positions cannot be read), the profit
    callback returns without a restart and without an error:
    the manager stays in [CLOSING_POSITION], the position is still
    recorded as active, and nothing is recorded as closed. *)
Theorem profit_callback_nothing_to_close
    (float_of_str : string -> option float) (settings : Settings.t)
    (w : TradingBot.world) (running : bool) (pos : gmap string PyVal)
    (symbol : string) (side : PyVal) (profit : float) (s : StateManager.t) :
  pos !! "symbol" = Some (VStr symbol) ->
  pos !! "side" = Some side ->
  Py.truthy (ExchangeClient.get_position_by_symbol float_of_str
               (TradingBot.at_close w) symbol) = false ->
  exists s',
    TradingBot._on_profit_reached float_of_str settings w running (VDict pos)
      profit s = (Ok false, s') /\
    StateManager.current_state s' = BotState.CLOSING_POSITION /\
    StateManager.active_position s' = StateManager.active_position s /\
    StateManager.last_closed_position s' = StateManager.last_closed_position s /\
    StateManager.trade_history s' = StateManager.trade_history s /\
    StateManager.transitions (StateManager.log s')
      = StateManager.transitions (StateManager.log s)
          ++ [(StateManager.current_state s, BotState.CLOSING_POSITION)].
Proof.
  intros Hsymbol Hside Hnone.
  assert (Hclose : OrderExecutor.execute_profit_close float_of_str
                     (TradingBot.at_close w) (VDict pos) profit = Ok VNone).
  { unfold OrderExecutor.execute_profit_close, OrderExecutor.close_position,
      ExchangeClient.close_position.
    cbn [Py.getitem]. rewrite Hsymbol, Hside. cbn. by rewrite Hnone. }
  destruct (returns_inv _ _ _
              (_on_profit_reached_nothing_closed float_of_str settings w running
                 (VDict pos) profit s VNone Hclose eq_refl))
    as (restart & s' & Hrun & -> & Hattr).
  exists s'. unfold StateManager.attributes in Hattr.
  injection Hattr as ? _ ? ? ? _ _ ?. by repeat split.
Qed.

(** The positions of the exchange cannot be read when the position of the
    examples is to be closed. *)
Lemma profit_callback_nothing_to_close_witness :
  exists s',
    TradingBot._on_profit_reached Examples.float_of_str Examples.withdrawing
      (TradingBot.mkWorld Examples.unreachable Examples.testnet Examples.testnet
         Examples.funded Examples.mailer)
      true (VDict Examples.btc_long_fields) 50.5 Examples.monitoring
      = (Ok false, s') /\
    StateManager.current_state s' = BotState.CLOSING_POSITION /\
    StateManager.active_position s'
      = StateManager.active_position Examples.monitoring /\
    StateManager.last_closed_position s'
      = StateManager.last_closed_position Examples.monitoring /\
    StateManager.trade_history s'
      = StateManager.trade_history Examples.monitoring /\
    StateManager.transitions (StateManager.log s')
      = StateManager.transitions (StateManager.log Examples.monitoring)
          ++ [(StateManager.current_state Examples.monitoring,
               BotState.CLOSING_POSITION)].
Proof.
  apply (profit_callback_nothing_to_close Examples.float_of_str
           Examples.withdrawing
           (TradingBot.mkWorld Examples.unreachable Examples.testnet
              Examples.testnet Examples.funded Examples.mailer)
           true Examples.btc_long_fields "BTC/USDT" (VStr "long") 50.5
           Examples.monitoring);
    vm_compute; reflexivity.
Defined.

(** X26.  The states a run of the profit callback goes through when its
    close succeeds (an active position is recorded, the database accepts
    the writes, the close order is a non-empty dict) and the close
    notification is built and delivered without an exception:
    [CLOSING_POSITION], [CONVERTING], then [WITHDRAWING] only when the
    conversion step gave a result, then [RESETTING] and [IDLE]; after a
    withdrawal with a result that last pair is passed twice, once by
    [withdrawal_completed] and once by the callback's own [auto_reset].
    The run ends with no active position and the configuration reset. *)
Theorem profit_callback_state_trace
    (float_of_str : string -> option float) (settings : Settings.t)
    (w : TradingBot.world) (running : bool) (position : PyVal) (profit : float)
    (s : StateManager.t) (pos order : gmap string PyVal) (sent : bool) :
  StateManager.active_position s = VDict pos ->
  DatabaseManager.available (StateManager.db s) = true ->
  OrderExecutor.execute_profit_close float_of_str (TradingBot.at_close w)
    position profit = Ok (VDict order) ->
  Py.truthy (VDict order) = true ->
  EmailNotifier.send_position_closed_alert (TradingBot.notifier w)
    position profit = Ok sent ->
  let converted :=
    Py.truthy
      (ConversionManager.auto_convert_after_close float_of_str settings
         (TradingBot.at_settlement w) (TradingBot.at_conversion w) position) in
  let withdrawn :=
    Py.truthy
      (WithdrawalManager.auto_withdraw_after_conversion float_of_str settings
         (TradingBot.at_withdrawal w) (Settings.CONVERT_TO_CRYPTO settings)) in
  let s' := snd (TradingBot._on_profit_reached float_of_str settings w running
                   position profit s) in
  StateManager.active_position s' = VNone /\
  StateManager.trading_config s'
    = TradingConfig.reset <$> StateManager.trading_config s /\
  StateManager.transitions (StateManager.log s') =
    StateManager.transitions (StateManager.log s)
      ++ [(StateManager.current_state s, BotState.CLOSING_POSITION);
          (BotState.CLOSING_POSITION, BotState.CONVERTING)]
      ++ (if converted
          then [(BotState.CONVERTING, BotState.WITHDRAWING)] else [])
      ++ (if withdrawn
          then [(Says.after_conversion converted, BotState.RESETTING);
                (BotState.RESETTING, BotState.IDLE)]
          else [])
      ++ [(Says.after_withdrawal converted withdrawn, BotState.RESETTING);
          (BotState.RESETTING, BotState.IDLE)].
Proof.
  intros Hpos Hav Hclose Horder Hsent. cbn zeta.
  destruct (returns_inv _ _ _
              (_on_profit_reached_trace float_of_str settings w running position
                 profit s pos order sent Hpos Hav Hclose Horder Hsent))
    as (restart & s' & Hrun & H).
  by rewrite Hrun.
Qed.

(** The cycle of the examples on the position of the integration test,
    whose entry price is a number: the notification is built, no BTC is
    free to convert, 100 USDT are withdrawn. *)
Lemma profit_callback_state_trace_witness :
  let converted :=
    Py.truthy
      (ConversionManager.auto_convert_after_close Examples.float_of_str
         Examples.withdrawing Examples.live Examples.live
         Examples.held) in
  let withdrawn :=
    Py.truthy
      (WithdrawalManager.auto_withdraw_after_conversion Examples.float_of_str
         Examples.withdrawing Examples.live_funded "USDT") in
  let s' := snd (TradingBot._on_profit_reached Examples.float_of_str
                   Examples.withdrawing Examples.live_world true Examples.held
                   0.5 Examples.tracking) in
  StateManager.active_position s' = VNone /\
  StateManager.trading_config s'
    = TradingConfig.reset <$> StateManager.trading_config Examples.tracking /\
  StateManager.transitions (StateManager.log s') =
    StateManager.transitions (StateManager.log Examples.tracking)
      ++ [(StateManager.current_state Examples.tracking,
           BotState.CLOSING_POSITION);
          (BotState.CLOSING_POSITION, BotState.CONVERTING)]
      ++ (if converted
          then [(BotState.CONVERTING, BotState.WITHDRAWING)] else [])
      ++ (if withdrawn
          then [(Says.after_conversion converted, BotState.RESETTING);
                (BotState.RESETTING, BotState.IDLE)]
          else [])
      ++ [(Says.after_withdrawal converted withdrawn, BotState.RESETTING);
          (BotState.RESETTING, BotState.IDLE)].
Proof.
  apply (profit_callback_state_trace Examples.float_of_str Examples.withdrawing
           Examples.live_world true Examples.held 0.5 Examples.tracking
           Examples.held_fields Examples.close_order_fields true);
    vm_compute; reflexivity.
Defined.
